(** * ClassroomBank: the ledger-mutation handlers of the Express server

    A shallow embedding of [server/routes.ts] and [server/storage.ts]
    (with the column layout of [shared/schema.ts] and the form checks of the
    client modals), and the properties of the balance-mutation logic.

    Conventions of the embedding

    - A row of a table is a record, a table is a list of rows in insertion
      order, the database is a record of tables ([Store]).  Columns of type
      [decimal] are strings, as drizzle hands them to the TypeScript code,
      and the store keeps the text it is given.  PostgreSQL does so for the
      texts it prints itself: for a [decimal(10,2)] column a value below
      10^8 with two decimals ([column_text]), for a [text] or [varchar]
      column a text without the character NUL ([plain]).  Other texts it
      rewrites or refuses, so the properties of what a handler writes name
      the texts and the range they are about.
    - The rows of a query come in table order; [orderBy] is not modelled.
      Lists of rows are described by their members, and a loop over rows
      that may stop half way is followed in whatever order the rows come.
    - A JavaScript [Number] is [NaN], an infinity or a binary64 value,
      given by the rational it stands for; [parseFloat] and the sums round
      to the nearest double, ties to even.  There is no negative zero.
    - An [async] handler is a function from the store to a response and the
      store it leaves; an exception travels to the [catch] of the handler,
      which answers 500 and keeps whatever was written before the throw.
      A call of the storage layer succeeds: it is the role of the
      assumptions above to keep the properties to the calls the database
      accepts. *)

From Stdlib Require Import String Ascii List ZArith NArith QArith Qround Qabs
  Qreduction Qpower Bool Lia Lqa Permutation.
Import ListNotations.

Local Open Scope string_scope.
Local Open Scope Z_scope.

(** ** JavaScript numbers *)

Module JS.

Inductive Number :=
| NaN
| Inf (negative : bool)
| Fin (q : Q).

Definition Qltb (p q : Q) : bool := negb (Qle_bool q p).

(** *** binary64

    A finite double is the rational it stands for.  [round64 x] is the
    double nearest to [x], ties to even: 53 bits of precision, subnormals
    from 2^-1074, no bound above; [Number_of] adds the overflow to an
    infinity. *)

(** [floor (log2 a)] of a positive [a]. *)
Definition ilog2 (a : Q) : Z :=
  let k := Z.log2 (Qnum a) - Z.log2 (Zpos (Qden a)) in
  if Qle_bool (2 ^ k) a then k else k - 1.

Definition round_half_even (m : Q) : Z :=
  let f := Qfloor m in
  match Qcompare (m - inject_Z f) (1 # 2) with
  | Lt => f
  | Gt => f + 1
  | Eq => if Z.even f then f else f + 1
  end.

(** The exponent of the unit in the last place of the doubles around
    [a]. *)
Definition ulp_exponent (a : Q) : Z := Z.max (ilog2 a - 52) (-1074).

Definition round64 (x : Q) : Q :=
  if Qeq_bool x 0 then 0 else
  let e := ulp_exponent (Qabs x) in
  let n := round_half_even (Qabs x / 2 ^ e) in
  Qred (inject_Z (if Qltb x 0 then - n else n) * 2 ^ e).

(** The [Number] of a real result. *)
Definition Number_of (x : Q) : Number :=
  let v := round64 x in
  if Qle_bool (2 ^ 1024) (Qabs v) then Inf (Qltb x 0) else Fin v.

(** Arithmetic and comparisons, with the IEEE rules for the special
    values: a sum is the exact sum, rounded once. *)

Definition add (x y : Number) : Number :=
  match x, y with
  | NaN, _ | _, NaN => NaN
  | Inf a, Inf b => if Bool.eqb a b then Inf a else NaN
  | Inf a, Fin _ => Inf a
  | Fin _, Inf b => Inf b
  | Fin p, Fin q => Number_of (p + q)
  end.

Definition neg (x : Number) : Number :=
  match x with
  | NaN => NaN
  | Inf a => Inf (negb a)
  | Fin q => Fin (Qred (- q))
  end.

Definition sub (x y : Number) : Number := add x (neg y).

Definition lt (x y : Number) : bool :=
  match x, y with
  | NaN, _ | _, NaN => false
  | Inf a, Inf b => a && negb b
  | Inf a, Fin _ => a
  | Fin _, Inf b => negb b
  | Fin p, Fin q => Qltb p q
  end.

Definition gt (x y : Number) : bool := lt y x.

Definition le (x y : Number) : bool :=
  match x, y with
  | NaN, _ | _, NaN => false
  | Inf a, Inf b => a || negb b
  | Inf a, Fin _ => a
  | Fin _, Inf b => negb b
  | Fin p, Fin q => Qle_bool p q
  end.

Definition ge (x y : Number) : bool := le y x.

Definition isNaN (x : Number) : bool :=
  match x with NaN => true | _ => false end.

(** [Math.max] of two arguments. *)
Definition max (x y : Number) : Number :=
  match x, y with
  | NaN, _ | _, NaN => NaN
  | _, _ => if lt x y then y else x
  end.

Definition zero : Number := Fin 0.

(** *** Decimal digits *)

Definition digit_char (d : N) : ascii := ascii_of_N (48 + d).

Definition digit_val (c : ascii) : option N :=
  let n := N_of_ascii c in
  if ((48 <=? n) && (n <=? 57))%N then Some (n - 48)%N else None.

(** The digits of [n], most significant first; [fuel] bounds the number of
    digits and [N_digits] gives enough of it. *)
Fixpoint digits_fuel (fuel : nat) (n : N) : list N :=
  match fuel with
  | O => []
  | S f => if (n <? 10)%N then [n]
           else (digits_fuel f (n / 10)%N ++ [(n mod 10)%N])%list
  end.

Definition N_digits (n : N) : list N :=
  digits_fuel (S (N.to_nat (N.log2 n))) n.

Definition digits_value (ds : list N) : N :=
  fold_left (fun a d => (a * 10 + d)%N) ds 0%N.

Definition string_of_digits (ds : list N) : string :=
  string_of_list_ascii (map digit_char ds).

(** [String(n)] for a natural number. *)
Definition string_of_N (n : N) : string := string_of_digits (N_digits n).

(** The longest prefix of decimal digits, and what follows it. *)
Fixpoint scan_digits (s : string) : list N * string :=
  match s with
  | EmptyString => ([], s)
  | String c r =>
      match digit_val c with
      | Some d => let (ds, r') := scan_digits r in (d :: ds, r')
      | None => ([], s)
      end
  end.

(** *** [parseFloat] *)

(** White space and line terminators of the ASCII range. *)
Definition is_space (c : ascii) : bool :=
  let n := N_of_ascii c in
  ((n =? 32) || ((9 <=? n) && (n <=? 13)))%N.

Fixpoint trimStart (s : string) : string :=
  match s with
  | String c r => if is_space c then trimStart r else s
  | EmptyString => s
  end.

Definition pow10 (e : Z) : Q :=
  if 0 <=? e then inject_Z (10 ^ e) else / inject_Z (10 ^ (- e)).

(** The sign in front of a literal or of an exponent. *)
Definition scan_sign (s : string) : bool * string :=
  match s with
  | String "-" r => (true, r)
  | String "+" r => (false, r)
  | _ => (false, s)
  end.

(** The exponent part [e±ddd]; it belongs to the literal only when at least
    one digit follows. *)
Definition scan_exponent (s : string) : Z :=
  match s with
  | String c r =>
      if (Ascii.eqb c "e" || Ascii.eqb c "E")%bool then
        let (sg, r1) := scan_sign r in
        let (ds, _) := scan_digits r1 in
        match ds with
        | [] => 0
        | _ => let e := Z.of_N (digits_value ds) in if sg then - e else e
        end
      else 0
  | EmptyString => 0
  end.

(** The mathematical value of the literal [parseFloat] reads: skip leading
    white space, take the longest prefix that is a [StrDecimalLiteral];
    [NaN] when there is none. *)
Definition literal_value (s : string) : Number :=
  let (sg, u) := scan_sign (trimStart s) in
  if prefix "Infinity" u then Inf sg else
  let (ip, r1) := scan_digits u in
  let (fp, r2) :=
    match r1 with
    | String "." r => scan_digits r
    | _ => ([], r1)
    end in
  match (ip ++ fp)%list with
  | [] => NaN
  | ds =>
      let m := Z.of_N (digits_value ds) in
      let e := scan_exponent r2 - Z.of_nat (length fp) in
      Fin (Qred (inject_Z (if sg then - m else m) * pow10 e))
  end.

(** [parseFloat]: the [Number] for the value of the literal. *)
Definition parseFloat (s : string) : Number :=
  match literal_value s with
  | Fin q => Number_of q
  | x => x
  end.

(** *** [Number.prototype.toFixed(2)] *)

Fixpoint strip_zeros (ds : list N) : list N :=
  match ds with
  | 0%N :: r => strip_zeros r
  | _ => ds
  end.

(** [Number::toString] for a double [a] of 10^21 or more, an integer at
    this size.  ECMA-262 prints the decimal [s * 10^(n-k)] with the fewest
    digits [k] that reads back as [a], the one nearest to [a] when several
    do and the even [s] on a tie, in exponent notation.

    [candidate a k] is that decimal among those of [k] digits, if there is
    one: only the two multiples of [10^(n-k)] around [a] can be nearest. *)
Definition reads_back (a : Q) (v : Z) : bool :=
  Qeq_bool (round64 (inject_Z v)) a.

Definition candidate (a : Q) (k : nat) : option Z :=
  let A := Qfloor a in
  let n := length (N_digits (Z.to_N A)) in
  let p := 10 ^ Z.of_nat (n - k) in
  let lo := A / p * p in
  let hi := lo + p in
  match reads_back a lo, reads_back a hi with
  | true, true =>
      match (A - lo ?= hi - A) with
      | Lt => Some lo
      | Gt => Some hi
      | Eq => Some (if Z.even (A / p) then lo else hi)
      end
  | true, false => Some lo
  | false, true => Some hi
  | false, false => None
  end.

(** Seventeen digits tell any two doubles apart. *)
Definition shortest (a : Q) : Z :=
  match flat_map (fun k => match candidate a k with
                           | Some v => [v]
                           | None => []
                           end) (seq 1 17) with
  | v :: _ => v
  | [] => Qfloor a
  end.

Definition toString_large (a : Q) : string :=
  let ds := N_digits (Z.to_N (shortest a)) in
  let e := N.of_nat (length ds - 1) in
  match rev (strip_zeros (rev ds)) with
  | [] => "0"
  | [d] => string_of_digits [d] ++ "e+" ++ string_of_N e
  | d :: r => string_of_digits [d] ++ "." ++ string_of_digits r
              ++ "e+" ++ string_of_N e
  end.

(** Zeros in front of fewer than three digits. *)
Definition pad3 (m : list N) : list N :=
  (repeat 0%N (3 - length m) ++ m)%list.

(** [x.toFixed(2)], step by step as in ECMA-262: non-finite values print as
    [String(x)]; the sign is split off; [n] is the integer nearest to
    [x * 100], the larger one on a tie; its digits are padded to three and
    the point goes before the last two. *)
Definition toFixed2 (x : Number) : string :=
  match x with
  | NaN => "NaN"
  | Inf false => "Infinity"
  | Inf true => "-Infinity"
  | Fin q =>
      let s := if Qltb q 0 then "-" else "" in
      let a := Qabs q in
      if Qle_bool (inject_Z (10 ^ 21)) a then s ++ toString_large a else
      let n := Z.to_N (Qfloor (a * 100 + (1 # 2))) in
      let m := pad3 (N_digits n) in
      let k := length m in
      s ++ string_of_digits (firstn (k - 2) m) ++ "."
        ++ string_of_digits (skipn (k - 2) m)
  end.

End JS.

(** ** Rows and tables ([shared/schema.ts])

    Time stamps and the personal fields of a user play no part in the
    ledger rules and are left out; with them goes the [orderBy] of the
    queries. *)

Module User.
Record t := mk { id : string; role : string }.
End User.

Module Account.
Record t := mk { id : Z; userId : string; balance : string }.
End Account.

Module Transaction.
Record t := mk {
  id : Z;
  accountId : Z;
  type : string;
  amount : string;
  description : string;
  createdBy : option string }.
End Transaction.

Module WithdrawalRequest.
Record t := mk {
  id : Z;
  accountId : Z;
  amount : string;
  reason : string;
  status : string;
  reviewedBy : option string }.
End WithdrawalRequest.

(** The rows a client hands to an insert or an update. *)
Record InsertTransaction := {
  it_accountId : Z;
  it_type : string;
  it_amount : string;
  it_description : string;
  it_createdBy : option string }.

Record InsertWithdrawalRequest := {
  iw_accountId : Z;
  iw_amount : string;
  iw_reason : string }.

Record UpdateWithdrawalRequest := {
  uw_status : option string;
  uw_reviewedBy : option string }.

(** The database: four tables and the two [serial] sequences the handlers
    draw from. *)
Record Store := {
  users : list User.t;
  accounts : list Account.t;
  transactions : list Transaction.t;
  withdrawalRequests : list WithdrawalRequest.t;
  transactions_seq : Z;
  withdrawalRequests_seq : Z }.

(** ** Asynchronous code: state and exceptions *)

Inductive Outcome (A : Type) :=
| Return (a : A)
| Throw.
Arguments Return {A} a.
Arguments Throw {A}.

Definition Async (A : Type) := Store -> Outcome A * Store.

Definition ret {A} (a : A) : Async A := fun s => (Return a, s).
Definition throw {A} : Async A := fun s => (Throw, s).
Definition bind {A B} (m : Async A) (k : A -> Async B) : Async B :=
  fun s => match m s with
           | (Return a, s') => k a s'
           | (Throw, s') => (Throw, s')
           end.

Notation "x <- m ;; k" := (bind m (fun x => k))
  (at level 61, m at next level, right associativity).
Notation "m ;;; k" := (bind m (fun _ => k))
  (at level 61, right associativity).

(** Reading a property of [null] or [undefined] throws a [TypeError]. *)
Definition deref {A} (o : option A) : Async A :=
  match o with
  | Some a => ret a
  | None => throw
  end.

(** ** [DatabaseStorage] ([server/storage.ts]) *)

Module storage.

Definition getUser (id : string) : Async (option User.t) :=
  fun s => (Return (find (fun u => User.id u =? id)%string (users s)), s).

Definition getAccount (userId : string) : Async (option Account.t) :=
  fun s => (Return (find (fun a => Account.userId a =? userId)%string
                         (accounts s)), s).

Definition set_balance (userId newBalance : string) (a : Account.t) :=
  if (Account.userId a =? userId)%string
  then Account.mk (Account.id a) (Account.userId a) newBalance
  else a.

(** [update(accounts).set({ balance }).where(eq(accounts.userId, userId))].
    The text is kept as it is given, which is what the column does for a
    [column_text]. *)
Definition updateAccountBalance (userId newBalance : string) : Async unit :=
  fun s => (Return tt,
            {| users := users s;
               accounts := map (set_balance userId newBalance) (accounts s);
               transactions := transactions s;
               withdrawalRequests := withdrawalRequests s;
               transactions_seq := transactions_seq s;
               withdrawalRequests_seq := withdrawalRequests_seq s |}).

(** A student row of [getAllStudents]: the user and the account joined to
    it, [None] where the left join found none. *)
Record Student := {
  user : User.t;
  account : option Account.t }.

Definition join_accounts (accs : list Account.t) (u : User.t) : list Student :=
  match filter (fun a => Account.userId a =? User.id u)%string accs with
  | [] => [ {| user := u; account := None |} ]
  | l => map (fun a => {| user := u; account := Some a |}) l
  end.

(** The rows of the left join for the users whose role is student, in the
    order of the tables; the query sorts them by name. *)
Definition select_students (s : Store) : list Student :=
  flat_map (join_accounts (accounts s))
           (filter (fun u => User.role u =? "student")%string (users s)).

Definition getAllStudents : Async (list Student) :=
  fun s => (Return (select_students s), s).

(** [insert(transactions).values(transaction).returning()]: the row gets
    the next identifier of the sequence, and its amount and description
    are kept as they are given. *)
Definition createTransaction (t : InsertTransaction)
  : Async Transaction.t :=
  fun s =>
    let row := Transaction.mk (transactions_seq s) (it_accountId t)
                 (it_type t) (it_amount t) (it_description t)
                 (it_createdBy t) in
    (Return row,
     {| users := users s;
        accounts := accounts s;
        transactions := transactions s ++ [row];
        withdrawalRequests := withdrawalRequests s;
        transactions_seq := transactions_seq s + 1;
        withdrawalRequests_seq := withdrawalRequests_seq s |}).

(** [insert(withdrawalRequests).values(request).returning()], with the
    defaults of the columns [status] and [reviewedBy]; amount and reason
    are kept as they are given. *)
Definition createWithdrawalRequest (r : InsertWithdrawalRequest)
  : Async WithdrawalRequest.t :=
  fun s =>
    let row := WithdrawalRequest.mk (withdrawalRequests_seq s)
                 (iw_accountId r) (iw_amount r) (iw_reason r)
                 "pending" None in
    (Return row,
     {| users := users s;
        accounts := accounts s;
        transactions := transactions s;
        withdrawalRequests := withdrawalRequests s ++ [row];
        transactions_seq := transactions_seq s;
        withdrawalRequests_seq := withdrawalRequests_seq s + 1 |}).

(** A row of [getPendingWithdrawalRequests]: the request with the account
    and the user the two left joins found. *)
Record PendingRequest := {
  request : WithdrawalRequest.t;
  p_user : option User.t;
  p_account : option Account.t }.

Definition join_request (s : Store) (r : WithdrawalRequest.t)
  : list PendingRequest :=
  match filter (fun a => Account.id a =? WithdrawalRequest.accountId r)
               (accounts s) with
  | [] => [ {| request := r; p_user := None; p_account := None |} ]
  | la =>
      flat_map (fun a =>
        match filter (fun u => User.id u =? Account.userId a)%string
                     (users s) with
        | [] => [ {| request := r; p_user := None; p_account := Some a |} ]
        | lu => map (fun u => {| request := r; p_user := Some u;
                                 p_account := Some a |}) lu
        end) la
  end.

Definition getPendingWithdrawalRequests : Async (list PendingRequest) :=
  fun s => (Return (flat_map (join_request s)
                      (filter (fun r => WithdrawalRequest.status r
                                        =? "pending")%string
                              (withdrawalRequests s))), s).

(** [set({ ...update, reviewedAt })]: a field that is [undefined] in the
    update keeps its value. *)
Definition set_request (id : Z) (u : UpdateWithdrawalRequest)
  (r : WithdrawalRequest.t) : WithdrawalRequest.t :=
  if WithdrawalRequest.id r =? id
  then WithdrawalRequest.mk (WithdrawalRequest.id r)
         (WithdrawalRequest.accountId r) (WithdrawalRequest.amount r)
         (WithdrawalRequest.reason r)
         (match uw_status u with
          | Some st => st
          | None => WithdrawalRequest.status r
          end)
         (match uw_reviewedBy u with
          | Some w => Some w
          | None => WithdrawalRequest.reviewedBy r
          end)
  else r.

(** The first of the rows [returning()] gives back, [undefined] when the
    update matched none. *)
Definition updateWithdrawalRequest (id : Z) (u : UpdateWithdrawalRequest)
  : Async (option WithdrawalRequest.t) :=
  fun s =>
    let rows := map (set_request id u) (withdrawalRequests s) in
    (Return (find (fun r => WithdrawalRequest.id r =? id) rows),
     {| users := users s;
        accounts := accounts s;
        transactions := transactions s;
        withdrawalRequests := rows;
        transactions_seq := transactions_seq s;
        withdrawalRequests_seq := withdrawalRequests_seq s |}).

End storage.

(** ** Requests and responses *)

(** A field of a JSON request body, as far as the [zod] schemas can tell
    values apart. *)
Inductive Json :=
| Absent
| Str (s : string)
| Num (z : Z)
| Other.

(** [z.string()], [z.string().optional()], [z.number()] and [z.enum]: a
    failed [parse] throws. *)
Definition z_string (j : Json) : Async string :=
  match j with
  | Str s => ret s
  | _ => throw
  end.

Definition z_string_optional (j : Json) : Async (option string) :=
  match j with
  | Absent => ret None
  | Str s => ret (Some s)
  | _ => throw
  end.

Definition z_number (j : Json) : Async Z :=
  match j with
  | Num z => ret z
  | _ => throw
  end.

Definition z_enum (values : list string) (j : Json) : Async string :=
  match j with
  | Str s => if existsb (String.eqb s) values then ret s else throw
  | _ => throw
  end.

Inductive Payload :=
| Message (message : string)
| RequestJson (r : option WithdrawalRequest.t)
| PaycheckJson (message : string) (transactions : list Transaction.t)
| AdjustJson (message : string) (transaction : Transaction.t)
| RentJson (message : string) (transactions : list Transaction.t)
    (studentsAffected : N).

Record Response := {
  res_status : Z;
  res_json : Payload }.

Definition status_json (code : Z) (message : string) : Response :=
  {| res_status := code; res_json := Message message |}.

Definition json (p : Payload) : Response :=
  {| res_status := 200; res_json := p |}.

(** [try { ... } catch (error) { res.status(500).json({ message }) }] *)
Definition try_catch (body : Async Response) (message : string)
  : Store -> Response * Store :=
  fun s => match body s with
           | (Return r, s') => (r, s')
           | (Throw, s') => (status_json 500 message, s')
           end.

(** [!user || user.role !== role] *)
Definition lacks_role (user : option User.t) (role : string) : bool :=
  match user with
  | None => true
  | Some u => negb (User.role u =? role)%string
  end.

(** ** The routes ([server/routes.ts])

    [userId] is [req.user.claims.sub], the identity the session provider
    vouches for. *)

Module routes.

Import storage.

Record WithdrawalBody := {
  wb_accountId : Json;
  wb_amount : Json;
  wb_reason : Json }.

(** [insertWithdrawalRequestSchema.parse]: the insert schema of the table
    without [id], [status], [reviewedBy], [reviewedAt] and [createdAt]. *)
Definition insertWithdrawalRequestSchema_parse (b : WithdrawalBody)
  : Async InsertWithdrawalRequest :=
  accountId <- z_number (wb_accountId b) ;;
  amount <- z_string (wb_amount b) ;;
  reason <- z_string (wb_reason b) ;;
  ret {| iw_accountId := accountId; iw_amount := amount;
         iw_reason := reason |}.

(** [app.post('/api/withdrawal-requests')] *)
Definition post_withdrawal_requests (userId : string) (body : WithdrawalBody)
  : Store -> Response * Store :=
  try_catch (
    user <- getUser userId ;;
    if lacks_role user "student" then
      ret (status_json 403 "Only students can create withdrawal requests")
    else
    account <- getAccount userId ;;
    match account with
    | None => ret (status_json 404 "Account not found")
    | Some account =>
        data <- insertWithdrawalRequestSchema_parse body ;;
        if JS.gt (JS.parseFloat (iw_amount data))
                 (JS.parseFloat (Account.balance account)) then
          ret (status_json 400 "Insufficient balance")
        else
        request <- createWithdrawalRequest
                     {| iw_accountId := Account.id account;
                        iw_amount := iw_amount data;
                        iw_reason := iw_reason data |} ;;
        ret (json (RequestJson (Some request)))
    end)
  "Failed to create withdrawal request".

(** [updateWithdrawalRequestSchema.parse({ ...req.body, reviewedBy })]: the
    schema picks [status] (optional, the column has a default) and
    [reviewedBy]. *)
Definition updateWithdrawalRequestSchema_parse (status : Json)
  (reviewedBy : string) : Async UpdateWithdrawalRequest :=
  st <- z_string_optional status ;;
  ret {| uw_status := st; uw_reviewedBy := Some reviewedBy |}.

Definition is_approved (u : UpdateWithdrawalRequest) : bool :=
  match uw_status u with
  | Some st => (st =? "approved")%string
  | None => false
  end.

(** [app.patch('/api/withdrawal-requests/:id')]; [requestId] is
    [parseInt(req.params.id)]. *)
Definition patch_withdrawal_request (userId : string) (requestId : Z)
  (status : Json) : Store -> Response * Store :=
  try_catch (
    user <- getUser userId ;;
    if lacks_role user "teacher" then
      ret (status_json 403 "Only teachers can approve/deny requests")
    else
    updateData <- updateWithdrawalRequestSchema_parse status userId ;;
    updatedRequest <- updateWithdrawalRequest requestId updateData ;;
    (if is_approved updateData then
       pendingRequests <- getPendingWithdrawalRequests ;;
       match find (fun r => WithdrawalRequest.id (request r) =? requestId)
                  pendingRequests with
       | Some originalRequest =>
           account <- deref (p_account originalRequest) ;;
           let currentBalance := JS.parseFloat (Account.balance account) in
           let withdrawalAmount :=
             JS.parseFloat (WithdrawalRequest.amount
                              (request originalRequest)) in
           let newBalance :=
             JS.toFixed2 (JS.sub currentBalance withdrawalAmount) in
           owner <- deref (p_user originalRequest) ;;
           updateAccountBalance (User.id owner) newBalance ;;;
           createTransaction
             {| it_accountId := Account.id account;
                it_type := "withdrawal";
                it_amount := "-" ++ WithdrawalRequest.amount
                                      (request originalRequest);
                it_description :=
                  "Withdrawal: " ++ WithdrawalRequest.reason
                                      (request originalRequest);
                it_createdBy := Some userId |} ;;;
           ret tt
       | None => ret tt
       end
     else ret tt) ;;;
    ret (json (RequestJson updatedRequest)))
  "Failed to update withdrawal request".

(** The loop of [distribute-paycheck] over the student rows read before it
    starts; [transactions] is the array the handler answers with. *)
Fixpoint paycheck_loop (userId amount : string) (students : list Student)
  (transactions : list Transaction.t) : Async (list Transaction.t) :=
  match students with
  | [] => ret transactions
  | student :: rest =>
      acct <- deref (account student) ;;
      let currentBalance := JS.parseFloat (Account.balance acct) in
      let paycheckAmount := JS.parseFloat amount in
      let newBalance :=
        JS.toFixed2 (JS.add currentBalance paycheckAmount) in
      updateAccountBalance (User.id (user student)) newBalance ;;;
      transaction <- createTransaction
                       {| it_accountId := Account.id acct;
                          it_type := "paycheck";
                          it_amount := amount;
                          it_description := "Weekly Paycheck";
                          it_createdBy := Some userId |} ;;
      paycheck_loop userId amount rest (transactions ++ [transaction])
  end.

(** [app.post('/api/distribute-paycheck')] *)
Definition post_distribute_paycheck (userId : string) (amount : Json)
  : Store -> Response * Store :=
  try_catch (
    user <- getUser userId ;;
    if lacks_role user "teacher" then
      ret (status_json 403 "Only teachers can distribute paychecks")
    else
    amount <- z_string amount ;;
    students <- getAllStudents ;;
    transactions <- paycheck_loop userId amount students [] ;;
    ret (json (PaycheckJson
                 ("Paycheck of $" ++ amount ++ " distributed to "
                  ++ JS.string_of_N (N.of_nat (length students))
                  ++ " students")
                 transactions)))
  "Failed to distribute paycheck".

Record AdjustBody := {
  ab_studentId : Json;
  ab_amount : Json;
  ab_description : Json;
  ab_type : Json }.

(** [app.post('/api/adjust-balance')] *)
Definition post_adjust_balance (userId : string) (body : AdjustBody)
  : Store -> Response * Store :=
  try_catch (
    user <- getUser userId ;;
    if lacks_role user "teacher" then
      ret (status_json 403 "Only teachers can adjust balances")
    else
    studentId <- z_string (ab_studentId body) ;;
    amount <- z_string (ab_amount body) ;;
    description <- z_string (ab_description body) ;;
    type <- z_enum ["add"; "subtract"] (ab_type body) ;;
    student <- getUser studentId ;;
    if lacks_role student "student" then
      ret (status_json 404 "Student not found")
    else
    account <- getAccount studentId ;;
    match account with
    | None => ret (status_json 404 "Student account not found")
    | Some account =>
        let currentBalance := JS.parseFloat (Account.balance account) in
        let adjustmentAmount := JS.parseFloat amount in
        let newBalance :=
          if (type =? "add")%string
          then JS.toFixed2 (JS.add currentBalance adjustmentAmount)
          else JS.toFixed2 (JS.sub currentBalance adjustmentAmount) in
        if JS.lt (JS.parseFloat newBalance) JS.zero then
          ret (status_json 400 "Balance cannot be negative")
        else
        updateAccountBalance studentId newBalance ;;;
        transaction <- createTransaction
                         {| it_accountId := Account.id account;
                            it_type := if (type =? "add")%string
                                       then "bonus" else "withdrawal";
                            it_amount := if (type =? "add")%string
                                         then amount else "-" ++ amount;
                            it_description := description;
                            it_createdBy := Some userId |} ;;
        ret (json (AdjustJson "Balance adjusted successfully" transaction))
    end)
  "Failed to adjust balance".

(** The loop of [collect-rent]: [transactions] and [studentsAffected] are
    the two accumulators of the handler. *)
Fixpoint rent_loop (userId amount : string) (students : list Student)
  (transactions : list Transaction.t) (studentsAffected : N)
  : Async (list Transaction.t * N) :=
  match students with
  | [] => ret (transactions, studentsAffected)
  | student :: rest =>
      acct <- deref (account student) ;;
      let currentBalance := JS.parseFloat (Account.balance acct) in
      let rentAmount := JS.parseFloat amount in
      let newBalance :=
        JS.toFixed2 (JS.max JS.zero (JS.sub currentBalance rentAmount)) in
      if JS.gt currentBalance JS.zero then
        updateAccountBalance (User.id (user student)) newBalance ;;;
        let actualDeduction :=
          JS.sub currentBalance (JS.parseFloat newBalance) in
        if JS.gt actualDeduction JS.zero then
          transaction <- createTransaction
                           {| it_accountId := Account.id acct;
                              it_type := "rent";
                              it_amount := "-" ++ JS.toFixed2 actualDeduction;
                              it_description := "Monthly Rent";
                              it_createdBy := Some userId |} ;;
          rent_loop userId amount rest (transactions ++ [transaction])
                    (studentsAffected + 1)%N
        else rent_loop userId amount rest transactions studentsAffected
      else rent_loop userId amount rest transactions studentsAffected
  end.

(** [app.post('/api/collect-rent')] *)
Definition post_collect_rent (userId : string) (amount : Json)
  : Store -> Response * Store :=
  try_catch (
    user <- getUser userId ;;
    if lacks_role user "teacher" then
      ret (status_json 403 "Only teachers can collect rent")
    else
    amount <- z_string amount ;;
    students <- getAllStudents ;;
    result <- rent_loop userId amount students [] 0%N ;;
    let (transactions, studentsAffected) := result in
    ret (json (RentJson
                 ("Monthly rent collected from "
                  ++ JS.string_of_N studentsAffected ++ " students")
                 transactions studentsAffected)))
  "Failed to collect rent".

End routes.

(** ** The forms of the teacher dashboard ([client/src/components])

    [handleSubmit] of a modal either shows a toast and returns, or calls
    [mutate], which posts the request to the server. *)

Module client.

Inductive Submit (A : Type) :=
| Toast (title description : string)
| Mutate (variables : A).
Arguments Toast {A} title description.
Arguments Mutate {A} variables.

(** [isNaN(amountNum) || amountNum <= 0] *)
Definition invalid_amount (amountNum : JS.Number) : bool :=
  JS.isNaN amountNum || JS.le amountNum JS.zero.

(** [PaycheckModal.handleSubmit]; [!amount] holds of the empty string. *)
Definition PaycheckModal_handleSubmit (amount : string) : Submit string :=
  if (amount =? "")%string then
    Toast "Missing Amount" "Please enter the paycheck amount."
  else
  let amountNum := JS.parseFloat amount in
  if invalid_amount amountNum then
    Toast "Invalid Amount" "Please enter a valid amount greater than 0."
  else Mutate (JS.toFixed2 amountNum).

(** [RentCollectionModal.handleSubmit] *)
Definition RentCollectionModal_handleSubmit (rentAmount : string)
  : Submit string :=
  if (rentAmount =? "")%string then
    Toast "Missing Amount" "Please enter the rent amount."
  else
  let amountNum := JS.parseFloat rentAmount in
  if invalid_amount amountNum then
    Toast "Invalid Amount" "Please enter a valid amount greater than 0."
  else Mutate (JS.toFixed2 amountNum).

(** The [student] prop of [AdjustBalanceModal]. *)
Record StudentProp := {
  sp_id : string;
  sp_balance : string }.

(** [AdjustBalanceModal.handleSubmit] *)
Definition AdjustBalanceModal_handleSubmit (amount description : string)
  (student : option StudentProp) (type : string)
  : Submit routes.AdjustBody :=
  match student with
  | None =>
      Toast "Missing Information"
            "Please fill in both the amount and description."
  | Some student =>
      if ((amount =? "") || (description =? ""))%string then
        Toast "Missing Information"
              "Please fill in both the amount and description."
      else
      let amountNum := JS.parseFloat amount in
      if invalid_amount amountNum then
        Toast "Invalid Amount" "Please enter a valid amount greater than 0."
      else
      if (type =? "subtract")%string
         && JS.gt amountNum (JS.parseFloat (sp_balance student)) then
        Toast "Insufficient Balance"
              "Cannot subtract more than the current balance."
      else
      Mutate {| routes.ab_studentId := Str (sp_id student);
                routes.ab_amount := Str (JS.toFixed2 amountNum);
                routes.ab_description := Str description;
                routes.ab_type := Str type |}
  end.

(** What a submitted form leaves behind: the toast of the form itself, or
    the answer of the server to the request [mutate] sent. *)
Inductive Submitted :=
| Refused (title description : string)
| Answered (r : Response).

Definition send {A} (form : Submit A)
  (route : A -> Store -> Response * Store) (s : Store) : Submitted * Store :=
  match form with
  | Toast title description => (Refused title description, s)
  | Mutate variables =>
      let (r, s') := route variables s in (Answered r, s')
  end.

Definition submit_paycheck (userId amount : string)
  : Store -> Submitted * Store :=
  send (PaycheckModal_handleSubmit amount)
       (fun a => routes.post_distribute_paycheck userId (Str a)).

Definition submit_rent (userId rentAmount : string)
  : Store -> Submitted * Store :=
  send (RentCollectionModal_handleSubmit rentAmount)
       (fun a => routes.post_collect_rent userId (Str a)).

Definition submit_adjustment (userId amount description : string)
  (student : option StudentProp) (type : string)
  : Store -> Submitted * Store :=
  send (AdjustBalanceModal_handleSubmit amount description student type)
       (routes.post_adjust_balance userId).

End client.

(** ** Vocabulary of the properties *)

(** A whole number of cents as a decimal value, and the strings that denote
    one. *)
Definition cents (c : Z) : Q := Qred (c # 100).
Definition money (c : Z) : JS.Number := JS.Fin (cents c).
Definition denotes (s : string) (c : Z) : Prop := JS.literal_value s = money c.

(** What a [decimal(10,2)] column holds: fewer than 10^8 units, that is
    10^10 cents. *)
Definition column_limit : Z := 10 ^ 10.
Definition in_column (c : Z) : Prop := Z.abs c < column_limit.

(** The text [toFixed(2)] prints for a whole number of cents. *)
Definition fixed_text (c : Z) : string :=
  let m := JS.pad3 (JS.N_digits (Z.to_N (Z.abs c))) in
  let k := length m in
  (if c <? 0 then "-" else "") ++ JS.string_of_digits (firstn (k - 2) m)
    ++ "." ++ JS.string_of_digits (skipn (k - 2) m).

(** A decimal text with exactly two fractional digits: an optional minus
    sign, at least one digit, a point and two digits, and nothing else. *)
Definition two_decimals (s : string) : bool :=
  let body := match s with
              | String "-" r => r
              | _ => s
              end in
  let (units, rest) := JS.scan_digits body in
  negb (length units =? 0)%nat
  && match rest with
     | String "." fraction =>
         match JS.scan_digits fraction with
         | ([_; _], EmptyString) => true
         | _ => false
         end
     | _ => false
     end.

(** Primary keys are unique, and so is the account of a user
    ([upsertUser] opens one only for a student who has none). *)
Definition keys_unique (s : Store) : Prop :=
  NoDup (map User.id (users s))
  /\ NoDup (map Account.id (accounts s))
  /\ NoDup (map Account.userId (accounts s)).

Definition is_teacher (s : Store) (userId : string) : Prop :=
  exists u, find (fun u => User.id u =? userId)%string (users s) = Some u
            /\ User.role u = "teacher".

Definition is_student (s : Store) (userId : string) : Prop :=
  exists u, find (fun u => User.id u =? userId)%string (users s) = Some u
            /\ User.role u = "student".

(** The accounts of the store that belong to a student. *)
Definition owner_is_student (s : Store) (a : Account.t) : bool :=
  existsb (fun u => (User.id u =? Account.userId a)%string
                    && (User.role u =? "student")%string) (users s).

Definition student_accounts (s : Store) : list Account.t :=
  filter (owner_is_student s) (accounts s).

(** Every student has an account. *)
Definition students_have_accounts (s : Store) : Prop :=
  forall u, In u (users s) -> User.role u = "student" ->
  exists a, In a (accounts s) /\ Account.userId a = User.id u.

(** The transactions of an account and the sum of their amounts. *)
Definition transactions_of (id : Z) (l : list Transaction.t)
  : list Transaction.t :=
  filter (fun t => Transaction.accountId t =? id) l.

(** The sum of decimals, exact as in the database. *)
Definition decimal_add (x y : JS.Number) : JS.Number :=
  match x, y with
  | JS.Fin p, JS.Fin q => JS.Fin (Qred (p + q))
  | _, _ => JS.NaN
  end.

Definition sum_amounts (l : list Transaction.t) : JS.Number :=
  fold_left (fun acc t =>
               decimal_add acc (JS.literal_value (Transaction.amount t)))
            l JS.zero.

(** Ledger reconciliation: the balance of every account is a whole number
    of cents, and the amounts of its transactions add up to it. *)
Definition reconciled (s : Store) (a : Account.t) : Prop :=
  exists c, denotes (Account.balance a) c
            /\ sum_amounts (transactions_of (Account.id a) (transactions s))
               = money c.

Definition ledger_reconciled (s : Store) : Prop :=
  forall a, In a (accounts s) -> reconciled s a.


(** The mutations of the ledger, each with the caller and the request it
    sends. *)
Inductive Mutation :=
| DistributePaycheck (userId amount : string)
| CollectRent (userId amount : string)
| AdjustBalance (userId studentId amount description type : string)
| ReviewWithdrawal (userId : string) (requestId : Z) (status : string).

Definition mutate (m : Mutation) (s : Store) : Store :=
  match m with
  | DistributePaycheck userId amount =>
      snd (routes.post_distribute_paycheck userId (Str amount) s)
  | CollectRent userId amount =>
      snd (routes.post_collect_rent userId (Str amount) s)
  | AdjustBalance userId studentId amount description type =>
      snd (routes.post_adjust_balance userId
             {| routes.ab_studentId := Str studentId;
                routes.ab_amount := Str amount;
                routes.ab_description := Str description;
                routes.ab_type := Str type |} s)
  | ReviewWithdrawal userId requestId status =>
      snd (routes.patch_withdrawal_request userId requestId (Str status) s)
  end.

Definition mutate_all (ms : list Mutation) (s : Store) : Store :=
  fold_left (fun s m => mutate m s) ms s.

(** An amount as the forms send it: the [toFixed(2)] text of a number of
    cents that is not negative and fits the column. *)
Definition form_amount (amount : string) : Prop :=
  exists c, 0 <= c /\ in_column c /\ amount = fixed_text c.



(** *** What the database stores as it is given

    The text a [decimal(10,2)] column hands back for [c] cents: the value
    fits the column and the text is the one PostgreSQL prints for it, so
    that a write of the text is stored as it is. *)
Definition column_text (s : string) (c : Z) : Prop :=
  in_column c /\ s = fixed_text c.

(** A text without the character NUL, which PostgreSQL refuses in a [text]
    or [varchar] column. *)
Definition plain (s : string) : bool :=
  negb (existsb (Ascii.eqb Ascii.zero) (list_ascii_of_string s)).

(** The range of an [integer] column. *)
Definition int4 (z : Z) : Prop := - 2 ^ 31 <= z < 2 ^ 31.


(** *** The two batch loops as one

    What a loop does for the account of a row: the balance it writes, if
    any, and the transaction it inserts, if any. *)
Record Effect := {
  write : option string;
  insert : option InsertTransaction }.

Definition paycheck_effect (userId amount : string) (a : Account.t)
  : Effect :=
  {| write := Some (JS.toFixed2 (JS.add (JS.parseFloat (Account.balance a))
                                        (JS.parseFloat amount)));
     insert := Some {| it_accountId := Account.id a;
                       it_type := "paycheck";
                       it_amount := amount;
                       it_description := "Weekly Paycheck";
                       it_createdBy := Some userId |} |}.

Definition rent_effect (userId amount : string) (a : Account.t) : Effect :=
  let currentBalance := JS.parseFloat (Account.balance a) in
  let newBalance :=
    JS.toFixed2 (JS.max JS.zero
                   (JS.sub currentBalance (JS.parseFloat amount))) in
  let actualDeduction := JS.sub currentBalance (JS.parseFloat newBalance) in
  if JS.gt currentBalance JS.zero then
    {| write := Some newBalance;
       insert := if JS.gt actualDeduction JS.zero
                 then Some {| it_accountId := Account.id a;
                              it_type := "rent";
                              it_amount := "-" ++ JS.toFixed2 actualDeduction;
                              it_description := "Monthly Rent";
                              it_createdBy := Some userId |}
                 else None |}
  else {| write := None; insert := None |}.

(** The rows a loop gets through before it meets a student without an
    account, and whether it gets through all of them. *)
Fixpoint processed (students : list storage.Student)
  : list (string * Account.t) :=
  match students with
  | [] => []
  | st :: rest =>
      match storage.account st with
      | Some a => (User.id (storage.user st), a) :: processed rest
      | None => []
      end
  end.

Definition complete (students : list storage.Student) : bool :=
  forallb (fun st => match storage.account st with
                     | Some _ => true
                     | None => false
                     end) students.

(** The balance writes of the processed rows, applied to one account. *)
Definition written (w : option string) (a : Account.t) : Account.t :=
  match w with
  | Some newBalance => Account.mk (Account.id a) (Account.userId a) newBalance
  | None => a
  end.

Definition settle_row (eff : Account.t -> Effect) (x : Account.t)
  (row : string * Account.t) : Account.t :=
  if (Account.userId x =? fst row)%string
  then written (write (eff (snd row))) x
  else x.

Definition settle (eff : Account.t -> Effect)
  (rows : list (string * Account.t)) (x : Account.t) : Account.t :=
  fold_left (settle_row eff) rows x.

(** The inserts of the processed rows, and the rows the sequence makes of
    them. *)
Fixpoint inserts (eff : Account.t -> Effect)
  (rows : list (string * Account.t)) : list InsertTransaction :=
  match rows with
  | [] => []
  | row :: rest =>
      match insert (eff (snd row)) with
      | Some t => t :: inserts eff rest
      | None => inserts eff rest
      end
  end.

Fixpoint number_from (seq : Z) (l : list InsertTransaction)
  : list Transaction.t :=
  match l with
  | [] => []
  | t :: rest =>
      Transaction.mk seq (it_accountId t) (it_type t) (it_amount t)
        (it_description t) (it_createdBy t) :: number_from (seq + 1) rest
  end.

Definition batch_store (eff : Account.t -> Effect)
  (students : list storage.Student) (s : Store) : Store :=
  let new := number_from (transactions_seq s)
               (inserts eff (processed students)) in
  {| users := users s;
     accounts := map (settle eff (processed students)) (accounts s);
     transactions := transactions s ++ new;
     withdrawalRequests := withdrawalRequests s;
     transactions_seq := transactions_seq s + Z.of_nat (length new);
     withdrawalRequests_seq := withdrawalRequests_seq s |}.

(** The rows of a loop are sound for a store when each carries an account
    of the store under the identifier of its owner, and no owner comes
    twice. *)
Definition sound_rows (s : Store) (rows : list (string * Account.t)) : Prop :=
  NoDup (map fst rows)
  /\ forall uid a, In (uid, a) rows ->
     In a (accounts s) /\ Account.userId a = uid.

(** An effect inserts transactions of the account it is computed for. *)
Definition tags_account (eff : Account.t -> Effect) : Prop :=
  forall a t, insert (eff a) = Some t -> it_accountId t = Account.id a.

Definition touched (rows : list (string * Account.t)) (x : Account.t) : bool :=
  existsb (fun row => (fst row =? Account.userId x)%string) rows.

Definition inserted (eff : Account.t -> Effect) (x : Account.t)
  : list InsertTransaction :=
  match insert (eff x) with
  | Some t => [t]
  | None => []
  end.

(** What [adjust-balance] does for the account it is asked to adjust. *)
Definition adjust_effect (userId amount description type : string)
  (a : Account.t) : Effect :=
  let currentBalance := JS.parseFloat (Account.balance a) in
  let adjustmentAmount := JS.parseFloat amount in
  let newBalance :=
    if (type =? "add")%string
    then JS.toFixed2 (JS.add currentBalance adjustmentAmount)
    else JS.toFixed2 (JS.sub currentBalance adjustmentAmount) in
  if JS.lt (JS.parseFloat newBalance) JS.zero then
    {| write := None; insert := None |}
  else
    {| write := Some newBalance;
       insert := Some {| it_accountId := Account.id a;
                         it_type := if (type =? "add")%string
                                    then "bonus" else "withdrawal";
                         it_amount := if (type =? "add")%string
                                      then amount else "-" ++ amount;
                         it_description := description;
                         it_createdBy := Some userId |} |}.


Definition account_by_id (s : Store) (id : Z) : option Account.t :=
  find (fun a => Account.id a =? id) (accounts s).

Definition request_by_id (s : Store) (id : Z)
  : option WithdrawalRequest.t :=
  find (fun r => WithdrawalRequest.id r =? id) (withdrawalRequests s).

(** The messages of the two batch handlers. *)
Definition paycheck_message (amount : string) (n : nat) : string :=
  "Paycheck of $" ++ amount ++ " distributed to "
  ++ JS.string_of_N (N.of_nat n) ++ " students".

Definition rent_message (n : N) : string :=
  "Monthly rent collected from " ++ JS.string_of_N n ++ " students".

(** The account of a user, as [getAccount] finds it. *)
Definition account_of (s : Store) (userId : string) : option Account.t :=
  find (fun a => Account.userId a =? userId)%string (accounts s).

(** A number that is strictly positive; [NaN] is not. *)
Definition positive_number (x : JS.Number) : Prop :=
  x = JS.Inf false \/ exists q, x = JS.Fin q /\ (0 < q)%Q.

(** The balance of an account is strictly positive, as the rent loop
    tests it. *)
Definition has_funds (x : Account.t) : bool :=
  JS.gt (JS.parseFloat (Account.balance x)) JS.zero.



(** ** A classroom to run the handlers on *)

Definition teacher : User.t := User.mk "t1" "teacher".
Definition alice : User.t := User.mk "s1" "student".
Definition bob : User.t := User.mk "s2" "student".

(** Two students with their accounts and a teacher; [requests] are the
    withdrawal requests on file. *)
Definition classroom (balance1 balance2 : string)
  (requests : list WithdrawalRequest.t) : Store :=
  {| users := [teacher; alice; bob];
     accounts := [Account.mk 1 "s1" balance1; Account.mk 2 "s2" balance2];
     transactions := [];
     withdrawalRequests := requests;
     transactions_seq := 1;
     withdrawalRequests_seq := 2 |}.

(** Alice's request for 25.00, in a given status. *)
Definition snack (status : string) (reviewedBy : option string)
  : WithdrawalRequest.t :=
  WithdrawalRequest.mk 1 1 "25.00" "snack" status reviewedBy.

(** A week of the classroom: a paycheck, the rent, a bonus, a fine and the
    review of a request. *)
Definition week : list Mutation :=
  [ DistributePaycheck "t1" "30.00";
    CollectRent "t1" "20.00";
    AdjustBalance "t1" "s1" "12.50" "class helper" "add";
    AdjustBalance "t1" "s2" "5.00" "talking back" "subtract";
    ReviewWithdrawal "t1" 1 "approved" ].

(** ** Auxiliary notions of the proofs *)

Definition is_digit (d : N) : Prop := (d < 10)%N.

Definition no_digit_head (s : string) : Prop :=
  match s with
  | String c _ => JS.digit_val c = None
  | EmptyString => True
  end.

(** What one turn of a loop leaves in the store. *)
Definition step_store (eff : Account.t -> Effect) (uid : string)
  (a : Account.t) (s : Store) : Store :=
  let s1 := match write (eff a) with
            | Some nb => snd (storage.updateAccountBalance uid nb s)
            | None => s
            end in
  match insert (eff a) with
  | Some t => snd (storage.createTransaction t s1)
  | None => s1
  end.

(** The double nearest to a number of cents; the magnitudes of which two
    add up to less than 2^29 units, where the doubles are at most 2^-24
    apart; and a double that stands for a number of cents: within a
    ten-thousandth of a cent of it, and zero for zero. *)
Definition dbl (c : Z) : Q := JS.round64 (cents c).

Definition wide (c : Z) : Prop := Z.abs c < 25 * 10 ^ 9.

Definition rep (q : Q) (c : Z) : Prop :=
  (c = 0 -> (q == 0)%Q) /\ (Qabs (q * 100 - inject_Z c) <= 1 # 10000)%Q.

Definition row_uid (st : storage.Student) : string :=
  User.id (storage.user st).


(** * The rest of the server and of the client

    The functions of [server/storage.ts] and [server/routes.ts] that the
    ledger handlers do not go through, and the components of the client
    that send them requests. *)

(** ** The database beyond the four tables *)

Module CustomQuickAction.
Record t := mk {
  id : Z;
  teacherId : string;
  name : string;
  amount : string;
  type : string }.
End CustomQuickAction.

(** The rows a client hands to the other inserts; a field with a default
    may be left out. *)
Record UpsertUser := {
  uu_id : string;
  uu_role : option string }.

Record InsertAccount := {
  ia_userId : string;
  ia_balance : option string }.

Record InsertCustomQuickAction := {
  ic_teacherId : string;
  ic_name : string;
  ic_amount : string;
  ic_type : string }.

(** The four tables with the [serial] of the accounts table and the table
    of custom quick actions with its own. *)
Record Database := {
  tables : Store;
  accounts_seq : Z;
  customQuickActions : list CustomQuickAction.t;
  customQuickActions_seq : Z }.

Definition AsyncD (A : Type) := Database -> Outcome A * Database.

Definition retD {A} (a : A) : AsyncD A := fun d => (Return a, d).
Definition bindD {A B} (m : AsyncD A) (k : A -> AsyncD B) : AsyncD B :=
  fun d => match m d with
           | (Return a, d') => k a d'
           | (Throw, d') => (Throw, d')
           end.

Notation "x <~ m ;; k" := (bindD m (fun x => k))
  (at level 61, m at next level, right associativity).

Definition with_tables (s : Store) (d : Database) : Database :=
  {| tables := s;
     accounts_seq := accounts_seq d;
     customQuickActions := customQuickActions d;
     customQuickActions_seq := customQuickActions_seq d |}.

(** A call that works on the four tables only. *)
Definition on_tables {A} (m : Async A) : AsyncD A :=
  fun d => let (o, s') := m (tables d) in (o, with_tables s' d).

(** An answer of a route that sends rows back: a status with a message, or
    200 with a body. *)
Inductive Reply (A : Type) :=
| Status (code : Z) (message : string)
| Body (body : A).
Arguments Status {A} code message.
Arguments Body {A} body.

Definition try_reply {A} (body : Async (Reply A)) (message : string)
  : Store -> Reply A * Store :=
  fun s => match body s with
           | (Return r, s') => (r, s')
           | (Throw, s') => (Status 500 message, s')
           end.

Definition try_replyD {A} (body : AsyncD (Reply A)) (message : string)
  : Database -> Reply A * Database :=
  fun d => match body d with
           | (Return r, d') => (r, d')
           | (Throw, d') => (Status 500 message, d')
           end.

(** ** The rest of [DatabaseStorage] ([server/storage.ts]) *)

Module DatabaseStorage.

Import storage.

(** [set: { ...userData, updatedAt }] on the row in conflict: a field that
    is [undefined] keeps its value. *)
Definition set_user (userData : UpsertUser) (u : User.t) : User.t :=
  if (User.id u =? uu_id userData)%string
  then User.mk (User.id u)
         (match uu_role userData with
          | Some role => role
          | None => User.role u
          end)
  else u.

(** [insert(users).values(userData).onConflictDoUpdate(...).returning()]:
    the row of the user, updated when the identifier is on file and
    inserted otherwise, where a missing role takes the default of the
    column. *)
Definition upsert_users (userData : UpsertUser) (l : list User.t)
  : User.t * list User.t :=
  match find (fun u => User.id u =? uu_id userData)%string l with
  | Some u => (set_user userData u, map (set_user userData) l)
  | None =>
      let u := User.mk (uu_id userData)
                 (match uu_role userData with
                  | Some role => role
                  | None => "student"
                  end) in
      (u, (l ++ [u])%list)
  end.

Definition createAccount (account : InsertAccount) : AsyncD Account.t :=
  fun d =>
    let s := tables d in
    let row := Account.mk (accounts_seq d) (ia_userId account)
                 (match ia_balance account with
                  | Some balance => balance
                  | None => "0.00"
                  end) in
    (Return row,
     {| tables := {| users := users s;
                     accounts := accounts s ++ [row];
                     transactions := transactions s;
                     withdrawalRequests := withdrawalRequests s;
                     transactions_seq := transactions_seq s;
                     withdrawalRequests_seq := withdrawalRequests_seq s |};
        accounts_seq := accounts_seq d + 1;
        customQuickActions := customQuickActions d;
        customQuickActions_seq := customQuickActions_seq d |}).

Definition upsertUser (userData : UpsertUser) : AsyncD User.t :=
  user <~ (fun d =>
             let s := tables d in
             let (user, rows) := upsert_users userData (users s) in
             (Return user,
              with_tables
                {| users := rows;
                   accounts := accounts s;
                   transactions := transactions s;
                   withdrawalRequests := withdrawalRequests s;
                   transactions_seq := transactions_seq s;
                   withdrawalRequests_seq := withdrawalRequests_seq s |} d)) ;;
  if (User.role user =? "student")%string then
    existingAccount <~ on_tables (getAccount (User.id user)) ;;
    match existingAccount with
    | Some _ => retD user
    | None =>
        _ <~ createAccount {| ia_userId := User.id user;
                              ia_balance := None |} ;;
        retD user
    end
  else retD user.

Definition getTransactionsByAccount (accountId : Z)
  : Async (list Transaction.t) :=
  fun s => (Return (filter (fun t => Transaction.accountId t =? accountId)
                           (transactions s)), s).

Definition getCustomQuickActions (teacherId : string)
  : AsyncD (list CustomQuickAction.t) :=
  fun d => (Return (filter (fun a => CustomQuickAction.teacherId a
                                     =? teacherId)%string
                           (customQuickActions d)), d).

(** [insert(customQuickActions).values(action).returning()]; name, amount
    and type are kept as they are given. *)
Definition createCustomQuickAction (action : InsertCustomQuickAction)
  : AsyncD CustomQuickAction.t :=
  fun d =>
    let row := CustomQuickAction.mk (customQuickActions_seq d)
                 (ic_teacherId action) (ic_name action) (ic_amount action)
                 (ic_type action) in
    (Return row,
     {| tables := tables d;
        accounts_seq := accounts_seq d;
        customQuickActions := customQuickActions d ++ [row];
        customQuickActions_seq := customQuickActions_seq d + 1 |}).

(** [delete ... where id = id and teacherId = teacherId] *)
Definition deleteCustomQuickAction (id : Z) (teacherId : string)
  : AsyncD unit :=
  fun d =>
    (Return tt,
     {| tables := tables d;
        accounts_seq := accounts_seq d;
        customQuickActions :=
          filter (fun a => negb ((CustomQuickAction.id a =? id)
                                 && (CustomQuickAction.teacherId a
                                     =? teacherId)%string))
                 (customQuickActions d);
        customQuickActions_seq := customQuickActions_seq d |}).

End DatabaseStorage.

(** ** The rest of the routes ([server/routes.ts]) *)

Module api.

Import storage DatabaseStorage.

(** [app.get('/api/transactions')] *)
Definition get_transactions (userId : string)
  : Store -> Reply (list Transaction.t) * Store :=
  try_reply (
    account <- getAccount userId ;;
    match account with
    | None => ret (Status 404 "Account not found")
    | Some account =>
        transactions <- getTransactionsByAccount (Account.id account) ;;
        ret (Body transactions)
    end)
  "Failed to fetch transactions".

(** [app.get('/api/students')] *)
Definition get_students (userId : string)
  : Store -> Reply (list Student) * Store :=
  try_reply (
    user <- getUser userId ;;
    if lacks_role user "teacher" then
      ret (Status 403 "Only teachers can view all students")
    else
    students <- getAllStudents ;;
    ret (Body students))
  "Failed to fetch students".

(** [app.get('/api/pending-requests')] *)
Definition get_pending_requests (userId : string)
  : Store -> Reply (list PendingRequest) * Store :=
  try_reply (
    user <- getUser userId ;;
    if lacks_role user "teacher" then
      ret (Status 403 "Only teachers can view withdrawal requests")
    else
    requests <- getPendingWithdrawalRequests ;;
    ret (Body requests))
  "Failed to fetch pending requests".

(** [app.get('/api/custom-actions')] *)
Definition get_custom_actions (userId : string)
  : Database -> Reply (list CustomQuickAction.t) * Database :=
  try_replyD (
    user <~ on_tables (getUser userId) ;;
    if lacks_role user "teacher" then
      retD (Status 403 "Only teachers can view custom actions")
    else
    actions <~ getCustomQuickActions userId ;;
    retD (Body actions))
  "Failed to fetch custom actions".

Record ActionBody := {
  cb_teacherId : Json;
  cb_name : Json;
  cb_amount : Json;
  cb_type : Json }.

(** [insertCustomQuickActionSchema.parse({ ...req.body, teacherId: userId })]:
    the insert schema of the table without [id] and [createdAt]; the
    [teacherId] of the body, if it has one, is overwritten. *)
Definition insertCustomQuickActionSchema_parse (b : ActionBody)
  (teacherId : string) : Async InsertCustomQuickAction :=
  name <- z_string (cb_name b) ;;
  amount <- z_string (cb_amount b) ;;
  type <- z_string (cb_type b) ;;
  ret {| ic_teacherId := teacherId; ic_name := name; ic_amount := amount;
         ic_type := type |}.

(** [app.post('/api/custom-actions')] *)
Definition post_custom_actions (userId : string) (body : ActionBody)
  : Database -> Reply CustomQuickAction.t * Database :=
  try_replyD (
    user <~ on_tables (getUser userId) ;;
    if lacks_role user "teacher" then
      retD (Status 403 "Only teachers can create custom actions")
    else
    validatedData <~ on_tables
                       (insertCustomQuickActionSchema_parse body userId) ;;
    action <~ createCustomQuickAction validatedData ;;
    retD (Body action))
  "Failed to create custom action".

(** [app.delete('/api/custom-actions/:id')]; [actionId] is
    [parseInt(req.params.id)]. *)
Definition delete_custom_action (userId : string) (actionId : Z)
  : Database -> Reply string * Database :=
  try_replyD (
    user <~ on_tables (getUser userId) ;;
    if lacks_role user "teacher" then
      retD (Status 403 "Only teachers can delete custom actions")
    else
    _ <~ deleteCustomQuickAction actionId userId ;;
    retD (Body "Custom action deleted successfully"))
  "Failed to delete custom action".

End api.

(** ** The other components of the client *)

(** [Math.abs] *)
Definition Math_abs (x : JS.Number) : JS.Number :=
  match x with
  | JS.NaN => JS.NaN
  | JS.Inf _ => JS.Inf false
  | JS.Fin q => JS.Fin (Qabs q)
  end.

Module components.

Import client.

(** [WithdrawalModal.handleSubmit]; the request carries the amount and the
    reason. *)
Definition WithdrawalModal_handleSubmit (amount reason currentBalance : string)
  : Submit routes.WithdrawalBody :=
  if ((amount =? "") || (reason =? ""))%string then
    Toast "Missing Information" "Please fill in both the amount and reason."
  else
  let amountNum := JS.parseFloat amount in
  let balanceNum := JS.parseFloat currentBalance in
  if invalid_amount amountNum then
    Toast "Invalid Amount" "Please enter a valid amount greater than 0."
  else
  if JS.gt amountNum balanceNum then
    Toast "Insufficient Balance"
          "You cannot withdraw more than your current balance."
  else
  Mutate {| routes.wb_accountId := Absent;
            routes.wb_amount := Str (JS.toFixed2 amountNum);
            routes.wb_reason := Str reason |}.

Definition submit_withdrawal (userId amount reason currentBalance : string)
  : Store -> Submitted * Store :=
  send (WithdrawalModal_handleSubmit amount reason currentBalance)
       (routes.post_withdrawal_requests userId).

(** [quickActionMutation] of [QuickActionsModal]: without a student the
    mutation fails before any request; with one, the request names the
    student under the key [userId], which is not a field of the body the
    route reads. *)
Definition QuickActionsModal_quickActionMutation (student : option StudentProp)
  (amount description type : string) : Submit routes.AdjustBody :=
  match student with
  | None => Toast "Error" "No student selected"
  | Some _ =>
      Mutate {| routes.ab_studentId := Absent;
                routes.ab_amount := Str amount;
                routes.ab_description := Str description;
                routes.ab_type := Str type |}
  end.

(** [QuickActionsModal.handleQuickAction], the buttons of the rewards and
    of the fines. *)
Definition QuickActionsModal_handleQuickAction (student : option StudentProp)
  (amount description type : string) : Submit routes.AdjustBody :=
  QuickActionsModal_quickActionMutation student amount description type.

(** [QuickActionsModal.handleCustomAction] *)
Definition QuickActionsModal_handleCustomAction
  (student : option StudentProp) (customAmount customDescription : string)
  : Submit routes.AdjustBody :=
  if ((customAmount =? "") || (customDescription =? ""))%string then
    Toast "Missing Information" "Please fill in both amount and description."
  else
  let amountNum := JS.parseFloat customAmount in
  if invalid_amount amountNum then
    Toast "Invalid Amount" "Please enter a valid amount greater than 0."
  else
  QuickActionsModal_quickActionMutation student (JS.toFixed2 amountNum)
    customDescription "add".

(** [QuickActionsModal.handleCreateCustomAction] *)
Definition QuickActionsModal_handleCreateCustomAction
  (newActionName newActionAmount newActionType : string)
  : Submit api.ActionBody :=
  if ((newActionName =? "") || (newActionAmount =? ""))%string then
    Toast "Missing Information" "Please fill in both name and amount."
  else
  let amountNum := JS.parseFloat newActionAmount in
  if invalid_amount amountNum then
    Toast "Invalid Amount" "Please enter a valid amount greater than 0."
  else
  Mutate {| api.cb_teacherId := Absent;
            api.cb_name := Str newActionName;
            api.cb_amount := Str (JS.toFixed2 amountNum);
            api.cb_type := Str newActionType |}.

Definition submit_quick_action (userId : string)
  (student : option StudentProp) (amount description type : string)
  : Store -> Submitted * Store :=
  send (QuickActionsModal_handleQuickAction student amount description type)
       (routes.post_adjust_balance userId).

Definition submit_custom_action (userId : string)
  (student : option StudentProp) (customAmount customDescription : string)
  : Store -> Submitted * Store :=
  send (QuickActionsModal_handleCustomAction student customAmount
          customDescription)
       (routes.post_adjust_balance userId).

(** [StudentDashboard.getTransactionColor] and [formatAmount] *)
Definition getTransactionColor (amount : string) : string :=
  if JS.ge (JS.parseFloat amount) JS.zero
  then "text-green-600" else "text-red-600".

Definition formatAmount (amount : string) : string :=
  let num := JS.parseFloat amount in
  if JS.ge num JS.zero then "+$" ++ amount
  else "-$" ++ JS.toFixed2 (Math_abs num).

End components.

(** The sequence of the accounts table is ahead of the identifiers in
    use. *)
Definition accounts_seq_fresh (d : Database) : Prop :=
  forall a, In a (accounts (tables d)) -> Account.id a < accounts_seq d.

(** The identifiers of the transactions are unique and the sequence of the
    table is ahead of them. *)
Definition transactions_fresh (s : Store) : Prop :=
  NoDup (map Transaction.id (transactions s))
  /\ forall t, In t (transactions s) -> Transaction.id t < transactions_seq s.

(** The classroom as a database, with no custom action on file. *)
Definition school : Database :=
  {| tables := classroom "30.00" "0.00" [];
     accounts_seq := 3;
     customQuickActions := [];
     customQuickActions_seq := 1 |}.

(** * Properties *)

Import JS.
Import storage routes.

(** ** Decimal digits *)

Ltac digit_cases d H :=
  unfold is_digit in H;
  let p := fresh "p" in
  destruct d as [|p]; [| do 4 (try destruct p as [p|p|]) ];
  try (exfalso; clear - H; lia).

Lemma digit_val_char d : (d < 10)%N -> digit_val (digit_char d) = Some d.
Proof. intros H. digit_cases d H; reflexivity. Qed.

Lemma digit_val_dot : digit_val "." = None.
Proof. reflexivity. Qed.

Lemma digits_value_acc ds acc :
  fold_left (fun a d => (a * 10 + d)%N) ds acc
  = (acc * 10 ^ N.of_nat (length ds) + digits_value ds)%N.
Proof.
  unfold digits_value. revert acc.
  induction ds as [|d ds IH]; intros acc.
  - simpl. lia.
  - cbn [fold_left length]. rewrite IH, (IH (0 * 10 + d)%N).
    rewrite Nat2N.inj_succ, N.pow_succ_r'. lia.
Qed.

Lemma digits_value_app a b :
  digits_value (a ++ b)
  = (digits_value a * 10 ^ N.of_nat (length b) + digits_value b)%N.
Proof.
  unfold digits_value at 1. rewrite fold_left_app.
  fold (digits_value a). apply digits_value_acc.
Qed.

Lemma digits_value_zeros k ds :
  digits_value (repeat 0%N k ++ ds) = digits_value ds.
Proof.
  induction k as [|k IH]; [reflexivity|].
  cbn [repeat app]. unfold digits_value in *. cbn [fold_left]. exact IH.
Qed.

Lemma digits_fuel_spec f n :
  (n < 2 ^ N.of_nat (S f))%N ->
  digits_value (digits_fuel (S f) n) = n
  /\ Forall is_digit (digits_fuel (S f) n)
  /\ digits_fuel (S f) n <> [].
Proof.
  revert n. induction f as [|f IH]; intros n Hn.
  - cbn [digits_fuel]. change (2 ^ N.of_nat 1)%N with 2%N in Hn.
    replace (n <? 10)%N with true by (symmetry; apply N.ltb_lt; lia).
    (split; [|split]); [unfold digits_value; cbn [fold_left]; lia | | discriminate].
    constructor; [unfold is_digit; lia | constructor].
  - remember (S f) as g. cbn [digits_fuel].
    destruct (n <? 10)%N eqn:E.
    + apply N.ltb_lt in E.
      (split; [|split]); [unfold digits_value; cbn [fold_left]; lia | | discriminate].
      constructor; [exact E | constructor].
    + apply N.ltb_ge in E.
      assert (Hq : (n / 10 < 2 ^ N.of_nat g)%N).
      { rewrite Nat2N.inj_succ, N.pow_succ_r' in Hn.
        apply N.Div0.div_lt_upper_bound. lia. }
      destruct (IH _ Hq) as (Hv & Hd & Hne).
      split; [|split].
      * rewrite digits_value_app, Hv. cbn [length].
        change (digits_value [(n mod 10)%N]) with (0 * 10 + n mod 10)%N.
        change (10 ^ N.of_nat 1)%N with 10%N.
        pose proof (N.div_mod n 10). lia.
      * apply Forall_app. split; [exact Hd|].
        constructor; [|constructor]. unfold is_digit.
        apply N.mod_lt. lia.
      * intros Habs. apply app_eq_nil in Habs. destruct Habs; discriminate.
Qed.

Lemma N_digits_spec n :
  digits_value (N_digits n) = n
  /\ Forall is_digit (N_digits n)
  /\ N_digits n <> [].
Proof.
  apply digits_fuel_spec. rewrite Nat2N.inj_succ, N2Nat.id.
  destruct n as [|p]; [reflexivity|].
  apply N.log2_spec. lia.
Qed.

Lemma string_of_digits_cons d ds rest :
  string_of_digits (d :: ds) ++ rest
  = String (digit_char d) (string_of_digits ds ++ rest).
Proof. reflexivity. Qed.

Lemma scan_digits_none s : no_digit_head s -> scan_digits s = ([], s).
Proof. destruct s as [|c r]; cbn; [reflexivity|]. now intros ->. Qed.

Lemma scan_digits_app ds rest :
  Forall is_digit ds -> no_digit_head rest ->
  scan_digits (string_of_digits ds ++ rest) = (ds, rest).
Proof.
  intros Hds Hrest. induction Hds as [|d ds Hd _ IH].
  - cbn. now apply scan_digits_none.
  - rewrite string_of_digits_cons. cbn [scan_digits].
    rewrite (digit_val_char d Hd), IH. reflexivity.
Qed.

Lemma trimStart_digit d r :
  is_digit d -> trimStart (String (digit_char d) r) = String (digit_char d) r.
Proof. intros H. digit_cases d H; reflexivity. Qed.

Lemma scan_sign_digit d r :
  is_digit d ->
  scan_sign (String (digit_char d) r) = (false, String (digit_char d) r).
Proof. intros H. digit_cases d H; reflexivity. Qed.

Lemma prefix_Infinity_digit d r :
  is_digit d -> prefix "Infinity" (String (digit_char d) r) = false.
Proof. intros H. digit_cases d H; reflexivity. Qed.

Lemma append_empty_r s : s ++ "" = s.
Proof. induction s as [|c s IH]; cbn; [reflexivity|now rewrite IH]. Qed.

(** Reading back a sign, digits, a point and digits. *)
Lemma literal_value_fixed (sg : bool) (a b : list N) :
  Forall is_digit a -> Forall is_digit b -> a <> [] ->
  literal_value ((if sg then "-" else "") ++ string_of_digits a ++ "."
              ++ string_of_digits b)
  = Fin (Qred (inject_Z (if sg then - Z.of_N (digits_value (a ++ b))
                         else Z.of_N (digits_value (a ++ b)))
               * pow10 (- Z.of_nat (length b)))).
Proof.
  intros Ha Hb Hne.
  destruct a as [|d a]; [contradiction|].
  pose proof (Forall_inv Ha) as Hd.
  set (body := string_of_digits (d :: a) ++ "." ++ string_of_digits b).
  assert (Hbody : body = String (digit_char d)
                           (string_of_digits a ++ "." ++ string_of_digits b))
    by reflexivity.
  assert (Hscan : scan_digits body
                  = (d :: a, String "." (string_of_digits b))).
  { unfold body. apply scan_digits_app; [exact Ha|reflexivity]. }
  assert (Hfrac : scan_digits (string_of_digits b) = (b, "")).
  { rewrite <- (append_empty_r (string_of_digits b)).
    apply scan_digits_app; [exact Hb|exact I]. }
  assert (Hsign : scan_sign (trimStart ((if sg then "-" else "") ++ body))
                  = (sg, body)).
  { destruct sg.
    - reflexivity.
    - change ("" ++ body) with body. rewrite Hbody.
      rewrite trimStart_digit, scan_sign_digit by exact Hd. reflexivity. }
  unfold literal_value. rewrite Hsign.
  rewrite Hbody at 1. rewrite prefix_Infinity_digit by exact Hd.
  rewrite Hscan, Hfrac.
  cbn [scan_exponent].
  destruct ((d :: a) ++ b)%list eqn:E; [discriminate|].
  rewrite <- E. reflexivity.
Qed.

Lemma Qfloor_eq x z :
  (inject_Z z <= x)%Q -> (x < inject_Z (z + 1))%Q -> Qfloor x = z.
Proof.
  intros Hlo Hhi.
  pose proof (Qfloor_le x) as H1. pose proof (Qlt_floor x) as H2.
  assert (A : (Qfloor x < z + 1)%Z).
  { rewrite Zlt_Qlt. eapply Qle_lt_trans; eassumption. }
  assert (B : (z < Qfloor x + 1)%Z).
  { rewrite Zlt_Qlt. eapply Qle_lt_trans; eassumption. }
  lia.
Qed.

Lemma pad3_spec m :
  Forall is_digit m ->
  Forall is_digit (pad3 m)
  /\ digits_value (pad3 m) = digits_value m
  /\ (3 <= length (pad3 m))%nat.
Proof.
  intros Hm. unfold pad3. split; [|split].
  - apply Forall_app. split; [|exact Hm].
    apply Forall_forall. intros d Hd. apply repeat_spec in Hd. subst d.
    unfold is_digit. lia.
  - apply digits_value_zeros.
  - rewrite length_app, repeat_length. lia.
Qed.

(** Reading back the text of an amount, with or without a minus sign in
    front of it. *)
Lemma literal_value_signed (sg : bool) (c : Z) :
  0 <= c ->
  literal_value ((if sg then "-" else "") ++ fixed_text c)
  = money (if sg then - c else c).
Proof.
  intros Hc. unfold fixed_text.
  replace (c <? 0) with false by (symmetry; apply Z.ltb_ge; lia).
  change ("" ++ ?x) with x.
  destruct (N_digits_spec (Z.to_N (Z.abs c))) as (Hv & Hd & _).
  destruct (pad3_spec _ Hd) as (Hd' & Hv' & Hlen).
  set (m := pad3 (N_digits (Z.to_N (Z.abs c)))) in *.
  set (k := length m) in *.
  assert (Hsplit : (firstn (k - 2) m ++ skipn (k - 2) m)%list = m)
    by apply firstn_skipn.
  assert (Hb : length (skipn (k - 2) m) = 2%nat)
    by (rewrite length_skipn; fold k; lia).
  assert (Ha : firstn (k - 2) m <> []).
  { intros E. apply (f_equal (@length N)) in E.
    rewrite length_firstn in E. fold k in E. simpl in E. lia. }
  rewrite <- Hsplit in Hd'. apply Forall_app in Hd'. destruct Hd' as [Fa Fb].
  rewrite (literal_value_fixed sg _ _ Fa Fb Ha).
  rewrite Hsplit, Hb, Hv', Hv. unfold money, cents. f_equal.
  apply Qred_complete.
  change (pow10 (- Z.of_nat 2)) with (1 # 100)%Q.
  destruct sg; unfold Qeq; simpl; lia.
Qed.

Lemma fixed_text_sign c :
  fixed_text c = (if c <? 0 then "-" else "") ++ fixed_text (Z.abs c).
Proof.
  unfold fixed_text. rewrite Z.abs_idemp.
  replace (Z.abs c <? 0) with false by (symmetry; apply Z.ltb_ge; lia).
  reflexivity.
Qed.

Lemma literal_value_fixed_text c : literal_value (fixed_text c) = money c.
Proof.
  rewrite fixed_text_sign, literal_value_signed by lia. f_equal.
  destruct (c <? 0) eqn:E; [apply Z.ltb_lt in E|apply Z.ltb_ge in E]; lia.
Qed.


(** [`-${s}`] for the text of a positive amount. *)
Lemma minus_fixed_text c : 0 < c -> "-" ++ fixed_text c = fixed_text (- c).
Proof.
  intros H. unfold fixed_text.
  replace (c <? 0) with false by (symmetry; apply Z.ltb_ge; lia).
  replace (- c <? 0) with true by (symmetry; apply Z.ltb_lt; lia).
  rewrite Z.abs_opp. reflexivity.
Qed.

Lemma money_inj c d : money c = money d -> c = d.
Proof.
  intros H. assert (E : cents c = cents d) by (unfold money in H; congruence).
  unfold cents in E. apply Qred_eq_iff in E. unfold Qeq in E. simpl in E. lia.
Qed.


(** ** binary64 *)

Section Rounding.

Local Open Scope Q_scope.

Lemma round_half_even_close m :
  Qabs (inject_Z (round_half_even m) - m) <= 1 # 2.
Proof.
  unfold round_half_even.
  pose proof (Qfloor_le m) as Hlo. pose proof (Qlt_floor m) as Hhi.
  rewrite inject_Z_plus in Hhi. change (inject_Z 1) with 1 in Hhi.
  apply Qabs_Qle_condition.
  destruct (Qcompare (m - inject_Z (Qfloor m)) (1 # 2)) eqn:C.
  - apply Qeq_alt in C.
    destruct (Z.even (Qfloor m));
      rewrite ?inject_Z_plus; change (inject_Z 1) with 1; lra.
  - apply Qlt_alt in C. lra.
  - apply Qgt_alt in C. rewrite inject_Z_plus. change (inject_Z 1) with 1. lra.
Qed.

Lemma pow2_pos e : 0 < 2 ^ e.
Proof. apply Qpower_0_lt. lra. Qed.

Lemma pow2_Z n : (0 <= n)%Z -> 2 ^ n == inject_Z (2 ^ n).
Proof. intros H. now rewrite (Zpower_Qpower 2 n H). Qed.

Lemma inject_Z_pos d : (0 < d)%Z -> 0 < inject_Z d.
Proof. intros H. unfold Qlt. simpl. lia. Qed.

(** [n / d] between two powers of two, from the binary logarithms of [n]
    and [d]. *)
Lemma log2_bounds (n d : Z) :
  (0 < n)%Z -> (0 < d)%Z ->
  2 ^ (Z.log2 n - Z.log2 d - 1) <= inject_Z n / inject_Z d
  /\ inject_Z n / inject_Z d < 2 ^ (Z.log2 n - Z.log2 d + 1).
Proof.
  intros Hn Hd.
  destruct (Z.log2_spec n Hn) as [N1 N2].
  destruct (Z.log2_spec d Hd) as [D1 D2].
  pose proof (Z.log2_nonneg n) as Ln. pose proof (Z.log2_nonneg d) as Ld.
  assert (Hd' : 0 < inject_Z d) by now apply inject_Z_pos.
  assert (P2 : ~ 2 == 0) by lra.
  split.
  - apply Qle_shift_div_l; [exact Hd'|].
    replace (Z.log2 n - Z.log2 d - 1)%Z
      with (Z.log2 n - Z.succ (Z.log2 d))%Z by lia.
    rewrite (Qpower_minus 2 _ _ P2).
    rewrite (pow2_Z (Z.log2 n) Ln), (pow2_Z (Z.succ (Z.log2 d))) by lia.
    set (p := (2 ^ Z.log2 n)%Z) in *. set (q := (2 ^ Z.succ (Z.log2 d))%Z) in *.
    assert (Hq : 0 < inject_Z q) by (apply inject_Z_pos; lia).
    unfold Qdiv. rewrite <- Qmult_assoc, (Qmult_comm (/ inject_Z q)), Qmult_assoc.
    apply Qle_shift_div_r; [exact Hq|].
    rewrite <- !inject_Z_mult. rewrite <- Zle_Qle. nia.
  - apply Qlt_shift_div_r; [exact Hd'|].
    replace (Z.log2 n - Z.log2 d + 1)%Z
      with (Z.succ (Z.log2 n) - Z.log2 d)%Z by lia.
    rewrite (Qpower_minus 2 _ _ P2).
    rewrite (pow2_Z (Z.succ (Z.log2 n))), (pow2_Z (Z.log2 d)) by lia.
    set (p := (2 ^ Z.succ (Z.log2 n))%Z) in *. set (q := (2 ^ Z.log2 d)%Z) in *.
    assert (Hq : 0 < inject_Z q) by (apply inject_Z_pos; lia).
    unfold Qdiv. rewrite <- Qmult_assoc, (Qmult_comm (/ inject_Z q)), Qmult_assoc.
    apply Qlt_shift_div_l; [exact Hq|].
    rewrite <- !inject_Z_mult. rewrite <- Zlt_Qlt. nia.
Qed.

Lemma ilog2_spec a :
  0 < a -> 2 ^ ilog2 a <= a /\ a < 2 ^ (ilog2 a + 1).
Proof.
  intros Ha. unfold ilog2.
  assert (Hn : (0 < Qnum a)%Z).
  { destruct a as [n d]. unfold Qlt in Ha. simpl in *. lia. }
  destruct (log2_bounds (Qnum a) (Zpos (Qden a)) Hn eq_refl) as [Lo Hi].
  assert (E : inject_Z (Qnum a) / inject_Z (Zpos (Qden a)) == a).
  { destruct a as [n d]. cbn [Qnum Qden]. symmetry. apply Qmake_Qdiv. }
  rewrite E in Lo, Hi.
  set (k := (Z.log2 (Qnum a) - Z.log2 (Zpos (Qden a)))%Z) in *.
  destruct (Qle_bool (2 ^ k) a) eqn:B.
  - apply Qle_bool_iff in B. split; [exact B|exact Hi].
  - split; [exact Lo|].
    replace (k - 1 + 1)%Z with k by lia.
    apply Qnot_le_lt. intros H. apply Qle_bool_iff in H. congruence.
Qed.

Lemma Qltb_true p q : Qltb p q = true <-> p < q.
Proof.
  unfold Qltb. rewrite negb_true_iff. split.
  - intros H. apply Qnot_le_lt. intros L. apply Qle_bool_iff in L. congruence.
  - intros H. destruct (Qle_bool q p) eqn:E; [|reflexivity].
    apply Qle_bool_iff in E. lra.
Qed.

Lemma Qltb_false p q : Qltb p q = false <-> q <= p.
Proof.
  unfold Qltb. rewrite negb_false_iff. apply Qle_bool_iff.
Qed.

(** The error of [round64] is half a unit in the last place. *)
Lemma round64_ulp x :
  Qabs (round64 x - x) <= 2 ^ ulp_exponent (Qabs x) * (1 # 2).
Proof.
  unfold round64. set (e := ulp_exponent (Qabs x)).
  pose proof (pow2_pos e) as He.
  destruct (Qeq_bool x 0) eqn:Z0.
  - apply Qeq_bool_iff in Z0. rewrite Z0.
    change (Qabs (0 - 0)) with 0. nra.
  - rewrite Qred_correct.
    pose proof (round_half_even_close (Qabs x / 2 ^ e)) as Hr.
    set (n := round_half_even (Qabs x / 2 ^ e)) in *.
    assert (Hn : Qabs (inject_Z n * 2 ^ e - Qabs x) <= 2 ^ e * (1 # 2)).
    { assert (E : inject_Z n * 2 ^ e - Qabs x
                  == (inject_Z n - Qabs x / 2 ^ e) * 2 ^ e) by (field; lra).
      rewrite E, Qabs_Qmult, (Qabs_pos (2 ^ e)) by lra.
      rewrite (Qmult_comm (2 ^ e)). apply Qmult_le_compat_r; lra. }
    destruct (Qltb x 0) eqn:S.
    + apply Qltb_true in S.
      rewrite (Qabs_neg x) in Hn by lra.
      rewrite inject_Z_opp.
      assert (E : - inject_Z n * 2 ^ e - x == - (inject_Z n * 2 ^ e - - x))
        by ring.
      now rewrite E, Qabs_opp.
    + apply Qltb_false in S. now rewrite (Qabs_pos x) in Hn by lra.
Qed.

Lemma round64_zero x : x == 0 -> round64 x = 0.
Proof.
  intros H. unfold round64.
  replace (Qeq_bool x 0) with true; [reflexivity|].
  symmetry. now apply Qeq_bool_iff.
Qed.

Lemma Qabs_opp_eq x : Qabs (- x) = Qabs x.
Proof. destruct x as [n d]. unfold Qabs, Qopp. cbn. now rewrite Z.abs_opp. Qed.

Lemma round64_opp x : round64 (- x) = - round64 x.
Proof.
  unfold round64.
  destruct (Qeq_bool x 0) eqn:Z0.
  - replace (Qeq_bool (- x) 0) with true; [reflexivity|].
    symmetry. apply Qeq_bool_iff. apply Qeq_bool_iff in Z0. lra.
  - replace (Qeq_bool (- x) 0) with false.
    2:{ symmetry. destruct (Qeq_bool (- x) 0) eqn:E; [|reflexivity].
        apply Qeq_bool_iff in E. apply Qeq_bool_neq in Z0. exfalso. lra. }
    rewrite Qabs_opp_eq. rewrite <- Qred_opp. apply Qred_complete.
    apply Qeq_bool_neq in Z0.
    destruct (Qltb x 0) eqn:S.
    + apply Qltb_true in S.
      replace (Qltb (- x) 0) with false
        by (symmetry; apply Qltb_false; lra).
      rewrite inject_Z_opp. ring.
    + apply Qltb_false in S.
      replace (Qltb (- x) 0) with true
        by (symmetry; apply Qltb_true; lra).
      rewrite inject_Z_opp. ring.
Qed.

(** Below 2^29 the unit in the last place is at most 2^-24. *)
Lemma round64_near x :
  Qabs x < 2 ^ 29 -> Qabs (round64 x - x) <= 1 # 33554432.
Proof.
  intros Hx.
  destruct (Qeq_bool x 0) eqn:Z0.
  - apply Qeq_bool_iff in Z0. rewrite (round64_zero x Z0), Z0. discriminate.
  - apply Qeq_bool_neq in Z0.
    assert (Ha : 0 < Qabs x).
    { destruct (Qlt_le_dec 0 (Qabs x)) as [H|H]; [exact H|].
      exfalso. apply Z0. pose proof (Qabs_nonneg x).
      apply Qabs_Qle_condition in H. lra. }
    destruct (ilog2_spec (Qabs x) Ha) as [Lo _].
    assert (Hk : (ilog2 (Qabs x) < 29)%Z).
    { apply (Qpower_lt_compat_l_inv 2); [|lra].
      eapply Qle_lt_trans; eassumption. }
    eapply Qle_trans; [apply round64_ulp|].
    assert (He : (ulp_exponent (Qabs x) <= -24)%Z)
      by (unfold ulp_exponent; lia).
    assert (Hp : 2 ^ ulp_exponent (Qabs x) <= 2 ^ (-24))
      by (apply Qpower_le_compat_l; [exact He|lra]).
    change (2 ^ (-24)) with (1 # 16777216) in Hp. lra.
Qed.
End Rounding.

(** ** Doubles that stand for cents *)

Section Cents.

Local Open Scope Q_scope.

Lemma cents_scaled c : cents c * 100 == inject_Z c.
Proof.
  unfold cents. rewrite Qred_correct. unfold Qeq, Qmult. simpl. lia.
Qed.

Lemma wide_cents c : wide c -> Qabs (cents c) < 2 ^ 29.
Proof.
  intros H. unfold wide in H. change (2 ^ 29) with (inject_Z 536870912).
  unfold cents. rewrite Qred_correct.
  unfold Qlt, Qabs. simpl. lia.
Qed.

Lemma dbl_near c :
  wide c -> Qabs (dbl c * 100 - inject_Z c) <= 100 # 33554432.
Proof.
  intros H. pose proof (round64_near (cents c) (wide_cents c H)) as Hn.
  fold (dbl c) in Hn. rewrite <- (cents_scaled c).
  apply Qabs_Qle_condition in Hn. apply Qabs_Qle_condition. lra.
Qed.

Lemma dbl_zero : dbl 0 = 0.
Proof. reflexivity. Qed.

Lemma dbl_opp c : dbl (- c) = - dbl c.
Proof.
  unfold dbl. rewrite <- round64_opp. f_equal.
  unfold cents. now rewrite <- Qred_opp.
Qed.

Lemma dbl_rep c : wide c -> rep (dbl c) c.
Proof.
  intros H. split.
  - intros ->. now rewrite dbl_zero.
  - pose proof (dbl_near c H) as Hn.
    apply Qabs_Qle_condition in Hn. apply Qabs_Qle_condition. lra.
Qed.

Lemma pow2_1024 : 1073741824 <= 2 ^ 1024.
Proof.
  change 1073741824 with (2 ^ 30).
  apply Qpower_le_compat_l; [lia|lra].
Qed.

Lemma Number_of_small x :
  Qabs x < 2 ^ 29 -> Number_of x = Fin (round64 x).
Proof.
  intros H. unfold Number_of. cbv zeta.
  replace (Qle_bool (2 ^ 1024) (Qabs (round64 x))) with false; [reflexivity|].
  symmetry. destruct (Qle_bool _ _) eqn:E; [|reflexivity].
  apply Qle_bool_iff in E. pose proof pow2_1024 as P.
  pose proof (round64_near x H) as Hn.
  change (2 ^ 29) with 536870912 in H.
  apply Qabs_Qle_condition in Hn. apply Qabs_Qlt_condition in H.
  assert (Qabs (round64 x) < 536870913).
  { apply Qabs_Qlt_condition. lra. }
  lra.
Qed.

Lemma round64_canon x : Qred (round64 x) = round64 x.
Proof.
  unfold round64. destruct (Qeq_bool x 0); [reflexivity|].
  apply Qred_complete, Qred_correct.
Qed.

Lemma neg_dbl c : neg (Fin (dbl c)) = Fin (dbl (- c)).
Proof.
  unfold neg. rewrite dbl_opp. f_equal.
  rewrite Qred_opp. f_equal. apply round64_canon.
Qed.

Lemma parseFloat_denotes s c :
  denotes s c -> wide c -> parseFloat s = Fin (dbl c).
Proof.
  intros H W. unfold parseFloat. unfold denotes in H. rewrite H.
  unfold money. apply Number_of_small. now apply wide_cents.
Qed.

Lemma wide_Q c :
  wide c -> - 25000000000 < inject_Z c < 25000000000.
Proof.
  unfold wide. intros H. split.
  - change (- 25000000000) with (inject_Z (- 25000000000)).
    rewrite <- Zlt_Qlt. lia.
  - change 25000000000 with (inject_Z 25000000000).
    rewrite <- Zlt_Qlt. lia.
Qed.

(** A sum of two doubles of cents stands for the sum of the cents. *)
Lemma add_dbl c d :
  wide c -> wide d ->
  exists q, JS.add (Fin (dbl c)) (Fin (dbl d)) = Fin q /\ rep q (c + d).
Proof.
  intros Cc Cd.
  pose proof (dbl_near c Cc) as Nc. pose proof (dbl_near d Cd) as Nd.
  pose proof (wide_Q c Cc) as Bc. pose proof (wide_Q d Cd) as Bd.
  apply Qabs_Qle_condition in Nc, Nd.
  assert (Hs : Qabs (dbl c + dbl d) < 2 ^ 29).
  { change (2 ^ 29) with 536870912. apply Qabs_Qlt_condition. lra. }
  exists (round64 (dbl c + dbl d)). split.
  - cbn [JS.add]. now apply Number_of_small.
  - split.
    + intros E. assert (d = (- c)%Z) by lia. subst d.
      rewrite dbl_opp, (round64_zero (dbl c + - dbl c)); [reflexivity|ring].
    + pose proof (round64_near _ Hs) as Hn.
      apply Qabs_Qle_condition in Hn. apply Qabs_Qle_condition.
      rewrite inject_Z_plus. lra.
Qed.

Lemma sub_dbl c d :
  wide c -> wide d ->
  exists q, JS.sub (Fin (dbl c)) (Fin (dbl d)) = Fin q /\ rep q (c - d).
Proof.
  intros Cc Cd. unfold JS.sub. rewrite neg_dbl.
  apply (add_dbl c (- d)); [exact Cc|].
  unfold wide in *. now rewrite Z.abs_opp.
Qed.

Lemma rep_sign q c :
  rep q c ->
  (c = 0%Z /\ q == 0)
  \/ ((0 < c)%Z /\ 1 <= inject_Z c /\ 0 < q)
  \/ ((c < 0)%Z /\ inject_Z c <= - 1 /\ q < 0).
Proof.
  intros [Hz Hn]. apply Qabs_Qle_condition in Hn.
  destruct (Z.lt_trichotomy c 0) as [H|[H|H]].
  - right. right.
    assert (inject_Z c <= - 1).
    { change (- 1) with (inject_Z (- 1)). rewrite <- Zle_Qle. lia. }
    repeat split; [exact H|assumption|lra].
  - left. split; [exact H|now apply Hz].
  - right. left.
    assert (1 <= inject_Z c).
    { change 1 with (inject_Z 1). rewrite <- Zle_Qle. lia. }
    repeat split; [exact H|assumption|lra].
Qed.

Lemma lt_zero_rep q c : rep q c -> JS.lt (Fin q) zero = (c <? 0)%Z.
Proof.
  intros H. cbn [JS.lt zero].
  destruct (rep_sign q c H) as [[-> E]|[(L & _ & Hq)|(L & _ & Hq)]].
  - apply Qltb_false. lra.
  - replace (c <? 0)%Z with false by (symmetry; apply Z.ltb_ge; lia).
    apply Qltb_false. lra.
  - replace (c <? 0)%Z with true by (symmetry; now apply Z.ltb_lt).
    now apply Qltb_true.
Qed.

Lemma gt_zero_rep q c : rep q c -> JS.gt (Fin q) zero = (0 <? c)%Z.
Proof.
  intros H. unfold JS.gt. cbn [JS.lt zero].
  destruct (rep_sign q c H) as [[-> E]|[(L & _ & Hq)|(L & _ & Hq)]].
  - apply Qltb_false. lra.
  - replace (0 <? c)%Z with true by (symmetry; now apply Z.ltb_lt).
    now apply Qltb_true.
  - replace (0 <? c)%Z with false by (symmetry; apply Z.ltb_ge; lia).
    apply Qltb_false. lra.
Qed.

Lemma rep_zero : rep 0 0.
Proof. split; [reflexivity|discriminate]. Qed.

Lemma max_zero_rep q c :
  rep q c ->
  exists q', JS.max zero (Fin q) = Fin q' /\ rep q' (Z.max 0 c).
Proof.
  intros H. unfold JS.max.
  change (JS.lt zero (Fin q)) with (JS.gt (Fin q) zero).
  rewrite (gt_zero_rep q c H). cbn [zero].
  destruct (0 <? c)%Z eqn:E.
  - apply Z.ltb_lt in E. exists q. split; [reflexivity|].
    now replace (Z.max 0 c) with c by lia.
  - apply Z.ltb_ge in E. exists 0. split; [reflexivity|].
    replace (Z.max 0 c) with 0%Z by lia. apply rep_zero.
Qed.

(** [toFixed(2)] prints the cents a double stands for. *)
Lemma toFixed2_rep q c :
  rep q c -> wide c -> toFixed2 (Fin q) = fixed_text c.
Proof.
  intros H Hc. pose proof H as [_ Hn]. apply Qabs_Qle_condition in Hn.
  pose proof (wide_Q c Hc) as Bc.
  assert (F1 : Qltb q 0 = (c <? 0)%Z) by apply (lt_zero_rep q c H).
  assert (F3 : Qfloor (Qabs q * 100 + (1 # 2)) = Z.abs c).
  { apply Qfloor_eq; rewrite ?inject_Z_plus;
      destruct (rep_sign q c H) as [[-> E]|[(L & L' & Hq)|(L & L' & Hq)]].
    - rewrite E. discriminate.
    - rewrite (Qabs_pos q), Z.abs_eq by (lra || lia). lra.
    - rewrite (Qabs_neg q), Z.abs_neq, inject_Z_opp by (lra || lia). lra.
    - rewrite E. reflexivity.
    - rewrite (Qabs_pos q), Z.abs_eq by (lra || lia).
      change (inject_Z 1) with 1. lra.
    - rewrite (Qabs_neg q), Z.abs_neq, inject_Z_opp by (lra || lia).
      change (inject_Z 1) with 1. lra. }
  assert (F2 : Qle_bool (inject_Z (10 ^ 21)) (Qabs q) = false).
  { destruct (Qle_bool _ _) eqn:E; [|reflexivity].
    apply Qle_bool_iff in E.
    change (inject_Z (10 ^ 21)) with 1000000000000000000000 in E.
    exfalso.
    destruct (rep_sign q c H) as [[-> E0]|[(L & L' & Hq)|(L & L' & Hq)]].
    - rewrite E0 in E. now apply E.
    - rewrite (Qabs_pos q) in E by lra. lra.
    - rewrite (Qabs_neg q) in E by lra. lra. }
  unfold toFixed2, fixed_text. now rewrite F1, F2, F3.
Qed.

Lemma lt_dbl c d :
  wide c -> wide d -> JS.lt (Fin (dbl c)) (Fin (dbl d)) = (c <? d)%Z.
Proof.
  intros Wc Wd. cbn [JS.lt].
  pose proof (dbl_near c Wc) as Nc. pose proof (dbl_near d Wd) as Nd.
  apply Qabs_Qle_condition in Nc, Nd.
  destruct (c <? d)%Z eqn:E.
  - apply Z.ltb_lt in E. apply Qltb_true.
    assert (inject_Z c + 1 <= inject_Z d).
    { change 1 with (inject_Z 1). rewrite <- inject_Z_plus, <- Zle_Qle. lia. }
    lra.
  - apply Z.ltb_ge in E. apply Qltb_false.
    destruct (Z.eq_dec c d) as [->|Hne]; [lra|].
    assert (inject_Z d + 1 <= inject_Z c).
    { change 1 with (inject_Z 1). rewrite <- inject_Z_plus, <- Zle_Qle. lia. }
    lra.
Qed.

Lemma gt_dbl c d :
  wide c -> wide d -> JS.gt (Fin (dbl c)) (Fin (dbl d)) = (d <? c)%Z.
Proof. intros Wc Wd. now apply lt_dbl. Qed.

Lemma parseFloat_fixed_text c :
  wide c -> parseFloat (fixed_text c) = Fin (dbl c).
Proof. apply parseFloat_denotes, literal_value_fixed_text. Qed.

End Cents.

(** ** The batch loops *)

Lemma store_eta s :
  {| users := users s; accounts := accounts s;
     transactions := transactions s;
     withdrawalRequests := withdrawalRequests s;
     transactions_seq := transactions_seq s;
     withdrawalRequests_seq := withdrawalRequests_seq s |} = s.
Proof. destruct s; reflexivity. Qed.

Lemma batch_store_stop eff students s :
  processed students = [] -> batch_store eff students s = s.
Proof.
  intros E. unfold batch_store. rewrite E. cbn [inserts number_from length].
  unfold settle. cbn [fold_left]. rewrite map_id, app_nil_r, Z.add_0_r.
  apply store_eta.
Qed.

Lemma settle_cons eff row rows x :
  settle eff (row :: rows) x = settle eff rows (settle_row eff x row).
Proof. reflexivity. Qed.

Lemma batch_store_cons eff st rest a s :
  account st = Some a ->
  batch_store eff (st :: rest) s
  = batch_store eff rest (step_store eff (User.id (user st)) a s).
Proof.
  intros Ha. unfold batch_store, step_store. cbn [processed]. rewrite Ha.
  cbn [inserts snd].
  assert (Hacc : forall accs,
            map (settle eff ((User.id (user st), a) :: processed rest)) accs
            = map (settle eff (processed rest))
                (match write (eff a) with
                 | Some nb => map (set_balance (User.id (user st)) nb) accs
                 | None => accs
                 end)).
  { intros accs. destruct (write (eff a)) as [nb|] eqn:W.
    - rewrite map_map. apply map_ext. intros x. rewrite settle_cons.
      unfold settle_row, set_balance. cbn [fst snd]. rewrite W. reflexivity.
    - apply map_ext. intros x. rewrite settle_cons.
      unfold settle_row. cbn [fst snd]. rewrite W. cbn [written].
      now destruct (_ =? _)%string. }
  destruct (insert (eff a)) as [t|], (write (eff a)) as [nb|];
    cbn [updateAccountBalance createTransaction snd accounts transactions
         users withdrawalRequests transactions_seq withdrawalRequests_seq
         number_from length];
    rewrite ?Hacc; f_equal; rewrite <- ?app_assoc; cbn [app]; try reflexivity;
    lia.
Qed.

Lemma paycheck_loop_batch userId amount students created s :
  paycheck_loop userId amount students created s
  = ((if complete students
      then Return (created
                   ++ number_from (transactions_seq s)
                        (inserts (paycheck_effect userId amount)
                                 (processed students)))%list
      else Throw),
     batch_store (paycheck_effect userId amount) students s).
Proof.
  revert created s. induction students as [|st rest IH]; intros created s.
  - rewrite batch_store_stop by reflexivity. cbn. now rewrite app_nil_r.
  - cbn [paycheck_loop complete forallb processed].
    destruct (account st) as [a|] eqn:Ha.
    + rewrite (batch_store_cons _ st rest a s Ha).
      unfold bind at 1. cbn [deref ret].
      unfold bind at 1. cbn [updateAccountBalance].
      unfold bind at 1. cbn [createTransaction].
      rewrite IH. cbn [andb]. fold (complete rest).
      unfold step_store, paycheck_effect at 3 4 5.
      cbn [write insert inserts snd updateAccountBalance createTransaction
           transactions_seq number_from it_accountId it_type it_amount
           it_description it_createdBy].
      rewrite <- app_assoc. reflexivity.
    + rewrite batch_store_stop by (cbn [processed]; now rewrite Ha).
      reflexivity.
Qed.

Lemma rent_loop_batch userId amount students created n s :
  rent_loop userId amount students created n s
  = (let new := number_from (transactions_seq s)
                  (inserts (rent_effect userId amount) (processed students)) in
     if complete students
     then Return ((created ++ new)%list, (n + N.of_nat (length new))%N)
     else Throw,
     batch_store (rent_effect userId amount) students s).
Proof.
  revert created n s.
  induction students as [|st rest IH]; intros created n s.
  - rewrite batch_store_stop by reflexivity. cbn.
    now rewrite app_nil_r, N.add_0_r.
  - cbn [rent_loop complete forallb processed].
    destruct (account st) as [a|] eqn:Ha.
    + rewrite (batch_store_cons _ st rest a s Ha).
      unfold bind at 1. cbn [deref ret]. cbv zeta.
      unfold step_store. cbn [inserts snd].
      destruct (JS.gt (parseFloat (Account.balance a)) zero) eqn:G1.
      * unfold bind at 1. cbn [updateAccountBalance].
        destruct (JS.gt (JS.sub (parseFloat (Account.balance a)) _) zero)
          eqn:G2.
        -- assert (E : rent_effect userId amount a
                       = {| write := Some (toFixed2 (JS.max zero
                              (JS.sub (parseFloat (Account.balance a))
                                      (parseFloat amount))));
                            insert := Some
                              {| it_accountId := Account.id a;
                                 it_type := "rent";
                                 it_amount := "-" ++ toFixed2
                                   (JS.sub (parseFloat (Account.balance a))
                                      (parseFloat (toFixed2 (JS.max zero
                                         (JS.sub (parseFloat (Account.balance a))
                                                 (parseFloat amount))))));
                                 it_description := "Monthly Rent";
                                 it_createdBy := Some userId |} |}).
           { unfold rent_effect. cbv zeta. now rewrite G1, G2. }
           rewrite E. cbn [write insert].
           unfold bind at 1. cbn [createTransaction].
           rewrite IH. cbn [andb]. fold (complete rest).
           cbv zeta.
           cbn [snd updateAccountBalance createTransaction
                transactions_seq number_from it_accountId it_type it_amount
                it_description it_createdBy length].
           rewrite <- app_assoc. cbn [app].
           destruct (complete rest); [|reflexivity].
           f_equal; f_equal; f_equal; lia.
        -- assert (E : rent_effect userId amount a
                       = {| write := Some (toFixed2 (JS.max zero
                              (JS.sub (parseFloat (Account.balance a))
                                      (parseFloat amount))));
                            insert := None |}).
           { unfold rent_effect. cbv zeta. now rewrite G1, G2. }
           rewrite E. cbn [write insert].
           rewrite IH. cbn [andb]. fold (complete rest). reflexivity.
      * assert (E : rent_effect userId amount a
                    = {| write := None; insert := None |}).
        { unfold rent_effect. cbv zeta. now rewrite G1. }
        rewrite E. cbn [write insert]. rewrite IH. cbn [andb].
        fold (complete rest). reflexivity.
    + rewrite batch_store_stop by (cbn [processed]; now rewrite Ha).
      reflexivity.
Qed.

(** ** Keys *)

Lemma NoDup_map_eq {A B} (f : A -> B) l a b :
  NoDup (map f l) -> In a l -> In b l -> f a = f b -> a = b.
Proof.
  induction l as [|x l IH]; intros Hnd Ha Hb E; [contradiction|].
  cbn [map] in Hnd. inversion Hnd as [|? ? Hnot Hnd']; subst.
  destruct Ha as [<-|Ha], Hb as [<-|Hb].
  - reflexivity.
  - exfalso. apply Hnot. rewrite E. now apply in_map.
  - exfalso. apply Hnot. rewrite <- E. now apply in_map.
  - now apply IH.
Qed.

Lemma NoDup_map_filter {A B} (f : A -> B) p l :
  NoDup (map f l) -> NoDup (map f (filter p l)).
Proof.
  induction l as [|x l IH]; intros Hnd; [constructor|].
  cbn [map] in Hnd. inversion Hnd as [|? ? Hnot Hnd']; subst.
  cbn [filter]. destruct (p x); [|now apply IH].
  cbn [map]. constructor; [|now apply IH].
  intros Hin. apply Hnot. apply in_map_iff in Hin.
  destruct Hin as (y & <- & Hy). apply filter_In in Hy.
  apply in_map. tauto.
Qed.

Lemma filter_key_unique (accs : list Account.t) k :
  NoDup (map Account.userId accs) ->
  filter (fun a => Account.userId a =? k)%string accs = []
  \/ exists a, filter (fun a => Account.userId a =? k)%string accs = [a].
Proof.
  induction accs as [|x l IH]; intros Hnd; [now left|].
  cbn [map] in Hnd. inversion Hnd as [|? ? Hnot Hnd']; subst.
  cbn [filter]. destruct (Account.userId x =? k)%string eqn:E.
  - right. exists x. f_equal.
    apply String.eqb_eq in E.
    destruct (filter _ l) as [|y r] eqn:F; [reflexivity|].
    exfalso. apply Hnot.
    assert (Hy : In y (filter (fun a => Account.userId a =? k)%string l))
      by (rewrite F; now left).
    apply filter_In in Hy. destruct Hy as [Hy Ey].
    apply String.eqb_eq in Ey. rewrite E, <- Ey. now apply in_map.
  - now apply IH.
Qed.

Lemma find_user_In (l : list User.t) k u :
  find (fun u => User.id u =? k)%string l = Some u ->
  In u l /\ User.id u = k.
Proof.
  intros H. apply find_some in H. destruct H as [H E].
  now apply String.eqb_eq in E.
Qed.

Lemma find_user_unique (l : list User.t) u :
  NoDup (map User.id l) -> In u l ->
  find (fun v => User.id v =? User.id u)%string l = Some u.
Proof.
  intros Hnd Hin.
  destruct (find _ l) as [v|] eqn:F.
  - apply find_user_In in F. destruct F as [Hv Ev].
    f_equal. now apply (NoDup_map_eq User.id l).
  - exfalso. apply (find_none _ _ F) in Hin.
    now rewrite String.eqb_refl in Hin.
Qed.

Lemma find_account_In (l : list Account.t) k a :
  find (fun a => Account.userId a =? k)%string l = Some a ->
  In a l /\ Account.userId a = k.
Proof.
  intros H. apply find_some in H. destruct H as [H E].
  now apply String.eqb_eq in E.
Qed.

(** ** The rows of [getAllStudents] *)

Lemma join_accounts_In accs u st :
  In st (join_accounts accs u) ->
  user st = u
  /\ forall a, account st = Some a ->
     In a accs /\ Account.userId a = User.id u.
Proof.
  unfold join_accounts.
  destruct (filter _ accs) as [|y r] eqn:F.
  - intros [<-|[]]. split; [reflexivity|]. discriminate.
  - intros Hin. apply in_map_iff in Hin. destruct Hin as (a & <- & Ha).
    split; [reflexivity|]. cbn. intros a' [= <-].
    rewrite <- F in Ha. apply filter_In in Ha. destruct Ha as [Ha E].
    now apply String.eqb_eq in E.
Qed.

Lemma join_accounts_uid accs u :
  NoDup (map Account.userId accs) ->
  map row_uid (join_accounts accs u) = [User.id u].
Proof.
  intros Hnd. unfold join_accounts.
  destruct (filter_key_unique accs (User.id u) Hnd) as [E|[a E]];
    rewrite E; reflexivity.
Qed.

Lemma select_students_uid s :
  NoDup (map Account.userId (accounts s)) ->
  map row_uid (select_students s)
  = map User.id (filter (fun u => User.role u =? "student")%string (users s)).
Proof.
  intros Hnd. unfold select_students.
  induction (filter _ (users s)) as [|u l IH]; [reflexivity|].
  cbn [flat_map map]. rewrite map_app, IH, (join_accounts_uid _ _ Hnd).
  reflexivity.
Qed.

Lemma processed_prefix students :
  exists rest, map row_uid students = (map fst (processed students) ++ rest)%list.
Proof.
  induction students as [|st l [rest IH]]; [now exists []|].
  cbn [processed]. destruct (account st).
  - exists rest. cbn [map fst app]. now rewrite <- IH.
  - now exists (map row_uid (st :: l)).
Qed.

Lemma processed_In students uid a :
  In (uid, a) (processed students) ->
  exists st, In st students /\ account st = Some a /\ row_uid st = uid.
Proof.
  induction students as [|st l IH]; [contradiction|].
  cbn [processed]. destruct (account st) as [b|] eqn:E; [|contradiction].
  intros [[= <- <-]|Hin].
  - exists st. repeat split; [now left|exact E].
  - destruct (IH Hin) as (st' & ? & ? & ?). exists st'.
    repeat split; [now right|assumption|assumption].
Qed.

Lemma processed_complete students :
  complete students = true ->
  forall st a, In st students -> account st = Some a ->
  In (row_uid st, a) (processed students).
Proof.
  induction students as [|st l IH]; intros Hc st' a Hin Ha; [contradiction|].
  cbn [complete forallb] in Hc. apply andb_true_iff in Hc.
  destruct Hc as [H1 H2]. cbn [processed].
  destruct (account st) as [b|] eqn:E; [|discriminate].
  destruct Hin as [<-|Hin].
  - left. unfold row_uid. congruence.
  - right. now apply IH.
Qed.

Lemma select_students_sound s :
  keys_unique s -> sound_rows s (processed (select_students s)).
Proof.
  intros (Hu & _ & Ha). split.
  - destruct (processed_prefix (select_students s)) as [rest E].
    rewrite (select_students_uid s Ha) in E.
    pose proof (NoDup_map_filter User.id
                  (fun u => User.role u =? "student")%string _ Hu) as Hnd.
    rewrite E in Hnd. now apply NoDup_app_remove_r in Hnd.
  - intros uid a Hin. apply processed_In in Hin.
    destruct Hin as (st & Hst & Hacc & <-).
    unfold select_students in Hst. apply in_flat_map in Hst.
    destruct Hst as (u & _ & Hj). apply join_accounts_In in Hj.
    destruct Hj as [<- Hj]. now apply Hj.
Qed.

(** ** What a batch leaves for one account *)

Lemma written_idem w x : written w (written w x) = written w x.
Proof. now destruct w. Qed.

Lemma written_userId w x : Account.userId (written w x) = Account.userId x.
Proof. now destruct w. Qed.

Lemma written_id w x : Account.id (written w x) = Account.id x.
Proof. now destruct w. Qed.

Lemma settle_spec eff rows x y :
  Account.userId y = Account.userId x ->
  (forall uid a, In (uid, a) rows -> uid = Account.userId x -> a = x) ->
  settle eff rows y
  = if touched rows x then written (write (eff x)) y else y.
Proof.
  revert y. induction rows as [|[uid a] rows IH]; intros y Hy Hrows;
    [reflexivity|].
  rewrite settle_cons. unfold settle_row. cbn [fst snd touched existsb].
  fold (touched rows x). rewrite Hy, (String.eqb_sym (Account.userId x) uid).
  destruct (uid =? Account.userId x)%string eqn:E.
  - apply String.eqb_eq in E.
    rewrite (Hrows uid a (or_introl eq_refl) E).
    rewrite IH.
    + rewrite written_idem. now destruct (touched rows x).
    + now rewrite written_userId.
    + intros uid' a' Hin. apply Hrows. now right.
  - cbn [orb]. apply IH; [exact Hy|].
    intros uid' a' Hin. apply Hrows. now right.
Qed.

Lemma sound_rows_account s rows x uid a :
  keys_unique s -> sound_rows s rows -> In x (accounts s) ->
  In (uid, a) rows -> uid = Account.userId x -> a = x.
Proof.
  intros (_ & _ & Hnd) (_ & Hrows) Hx Hin ->.
  destruct (Hrows _ _ Hin) as [Ha E].
  now apply (NoDup_map_eq Account.userId (accounts s)).
Qed.

Lemma batch_accounts eff students s :
  keys_unique s -> sound_rows s (processed students) ->
  accounts (batch_store eff students s)
  = map (fun x => if touched (processed students) x
                  then written (write (eff x)) x else x) (accounts s).
Proof.
  intros Hk Hs. cbn [batch_store accounts]. apply map_ext_in.
  intros x Hx. apply settle_spec; [reflexivity|].
  intros uid a. now apply (sound_rows_account s).
Qed.

Lemma transactions_of_app id l1 l2 :
  transactions_of id (l1 ++ l2)
  = (transactions_of id l1 ++ transactions_of id l2)%list.
Proof. apply filter_app. Qed.

Lemma inserts_untouched eff s rows x z :
  tags_account eff -> keys_unique s -> In x (accounts s) ->
  (forall uid a, In (uid, a) rows ->
                 In a (accounts s) /\ Account.userId a = uid) ->
  touched rows x = false ->
  transactions_of (Account.id x) (number_from z (inserts eff rows)) = [].
Proof.
  intros Htag (_ & Hid & _) Hx. revert z.
  induction rows as [|[uid a] rows IH]; intros z Hrows Ht; [reflexivity|].
  cbn [touched existsb fst] in Ht. apply orb_false_iff in Ht.
  destruct Ht as [Hne Ht]. apply String.eqb_neq in Hne.
  assert (IH' : forall z, transactions_of (Account.id x)
                            (number_from z (inserts eff rows)) = []).
  { intros z'. apply IH; [|exact Ht].
    intros uid' a' Hin. apply Hrows. now right. }
  cbn [inserts snd]. destruct (insert (eff a)) as [t|] eqn:E; [|apply IH'].
  cbn [number_from transactions_of filter Transaction.accountId].
  fold (transactions_of (Account.id x) (number_from (z + 1) (inserts eff rows))).
  rewrite IH'. rewrite (Htag a t E).
  destruct (Account.id a =? Account.id x) eqn:F; [|reflexivity].
  exfalso. apply Z.eqb_eq in F.
  destruct (Hrows uid a (or_introl eq_refl)) as [Ha Eu].
  apply Hne. rewrite <- Eu. f_equal.
  now apply (NoDup_map_eq Account.id (accounts s)).
Qed.

Lemma inserts_touched eff s rows x z :
  tags_account eff -> keys_unique s -> In x (accounts s) ->
  sound_rows s rows ->
  touched rows x = true ->
  exists z', transactions_of (Account.id x) (number_from z (inserts eff rows))
             = number_from z' (inserted eff x).
Proof.
  intros Htag Hk Hx. revert z.
  induction rows as [|[uid a] rows IH]; intros z Hs Ht; [discriminate|].
  destruct Hs as [Hnd Hrows]. cbn [map fst] in Hnd.
  inversion Hnd as [|? ? Hnot Hnd']; subst.
  assert (Hs' : sound_rows s rows).
  { split; [exact Hnd'|]. intros uid' a' Hin. apply Hrows. now right. }
  cbn [touched existsb fst] in Ht.
  destruct (uid =? Account.userId x)%string eqn:E.
  - apply String.eqb_eq in E.
    assert (a = x).
    { apply (sound_rows_account s ((uid, a) :: rows) x uid a); auto.
      - now split.
      - now left. }
    subst a.
    assert (Hrest : forall z, transactions_of (Account.id x)
                                (number_from z (inserts eff rows)) = []).
    { intros z'. apply (inserts_untouched eff s); auto.
      - apply Hs'.
      - destruct (touched rows x) eqn:T; [|reflexivity].
        exfalso. apply Hnot. unfold touched in T.
        apply existsb_exists in T. destruct T as ([uid' a'] & Hin & Eq).
        apply String.eqb_eq in Eq. cbn [fst] in Eq.
        rewrite E, <- Eq. now apply (in_map fst) in Hin. }
    cbn [inserts snd]. unfold inserted.
    destruct (insert (eff x)) as [t|] eqn:F.
    + exists z. cbn [number_from transactions_of filter Transaction.accountId].
      fold (transactions_of (Account.id x)
              (number_from (z + 1) (inserts eff rows))).
      rewrite Hrest, (Htag x t F), Z.eqb_refl. reflexivity.
    + exists z. now rewrite Hrest.
  - cbn [orb] in Ht. apply String.eqb_neq in E.
    destruct (Hrows uid a (or_introl eq_refl)) as [Ha Eu].
    assert (Hne : Account.id a <> Account.id x).
    { intros F. apply E. rewrite <- Eu. f_equal.
      destruct Hk as (_ & Hid & _).
      now apply (NoDup_map_eq Account.id (accounts s)). }
    cbn [inserts snd]. destruct (insert (eff a)) as [t|] eqn:F.
    + cbn [number_from transactions_of filter Transaction.accountId].
      rewrite (Htag a t F).
      replace (Account.id a =? Account.id x) with false
        by (symmetry; now apply Z.eqb_neq).
      apply (IH (z + 1) Hs' Ht).
    + apply (IH z Hs' Ht).
Qed.

Lemma batch_transactions eff students s x :
  tags_account eff -> keys_unique s -> In x (accounts s) ->
  sound_rows s (processed students) ->
  exists z,
    transactions_of (Account.id x) (transactions (batch_store eff students s))
    = (transactions_of (Account.id x) (transactions s)
       ++ if touched (processed students) x
          then number_from z (inserted eff x) else [])%list.
Proof.
  intros Htag Hk Hx Hs. cbn [batch_store transactions].
  destruct (touched (processed students) x) eqn:T.
  - destruct (inserts_touched eff s _ x (transactions_seq s) Htag Hk Hx Hs T)
      as [z Hz].
    exists z. now rewrite transactions_of_app, Hz.
  - exists 0. rewrite transactions_of_app.
    rewrite (inserts_untouched eff s); auto. apply Hs.
Qed.

(** ** The effects on whole numbers of cents *)

Ltac widen := unfold wide, in_column, column_limit in *; lia.

Lemma paycheck_effect_money userId amount x b a :
  denotes (Account.balance x) b -> denotes amount a ->
  in_column b -> in_column a ->
  paycheck_effect userId amount x
  = {| write := Some (fixed_text (b + a));
       insert := Some {| it_accountId := Account.id x;
                         it_type := "paycheck";
                         it_amount := amount;
                         it_description := "Weekly Paycheck";
                         it_createdBy := Some userId |} |}.
Proof.
  intros Hb Ha Cb Ca. unfold paycheck_effect.
  rewrite (parseFloat_denotes _ _ Hb), (parseFloat_denotes _ _ Ha) by widen.
  destruct (add_dbl b a) as (q & -> & Hq); [widen..|].
  rewrite (toFixed2_rep q _ Hq) by widen. reflexivity.
Qed.

Lemma rent_effect_money userId amount x b a :
  denotes (Account.balance x) b -> denotes amount a ->
  in_column b -> in_column a ->
  rent_effect userId amount x
  = if 0 <? b then
      {| write := Some (fixed_text (Z.max 0 (b - a)));
         insert := if 0 <? b - Z.max 0 (b - a)
                   then Some {| it_accountId := Account.id x;
                                it_type := "rent";
                                it_amount :=
                                  "-" ++ fixed_text (b - Z.max 0 (b - a));
                                it_description := "Monthly Rent";
                                it_createdBy := Some userId |}
                   else None |}
    else {| write := None; insert := None |}.
Proof.
  intros Hb Ha Cb Ca. unfold rent_effect. cbv zeta.
  assert (Wb : wide b) by widen.
  rewrite (parseFloat_denotes _ _ Hb Wb), (parseFloat_denotes _ _ Ha)
    by widen.
  destruct (sub_dbl b a) as (q1 & -> & H1); [widen..|].
  destruct (max_zero_rep q1 _ H1) as (q2 & -> & H2).
  rewrite (toFixed2_rep q2 _ H2) by widen.
  rewrite parseFloat_fixed_text by widen.
  destruct (sub_dbl b (Z.max 0 (b - a))) as (q3 & -> & H3); [widen..|].
  rewrite (gt_zero_rep _ _ (dbl_rep b Wb)), (gt_zero_rep q3 _ H3).
  rewrite (toFixed2_rep q3 _ H3) by widen. reflexivity.
Qed.

Lemma adjust_effect_add userId amount description x b a :
  denotes (Account.balance x) b -> denotes amount a ->
  in_column b -> in_column a ->
  adjust_effect userId amount description "add" x
  = if b + a <? 0 then {| write := None; insert := None |}
    else {| write := Some (fixed_text (b + a));
            insert := Some {| it_accountId := Account.id x;
                              it_type := "bonus";
                              it_amount := amount;
                              it_description := description;
                              it_createdBy := Some userId |} |}.
Proof.
  intros Hb Ha Cb Ca. unfold adjust_effect. cbv zeta.
  change ("add" =? "add")%string with true. cbv iota.
  assert (W : wide (b + a)) by widen.
  rewrite (parseFloat_denotes _ _ Hb), (parseFloat_denotes _ _ Ha) by widen.
  destruct (add_dbl b a) as (q & -> & Hq); [widen..|].
  rewrite (toFixed2_rep q _ Hq W), (parseFloat_fixed_text _ W).
  rewrite (lt_zero_rep _ _ (dbl_rep _ W)). reflexivity.
Qed.

Lemma adjust_effect_subtract userId amount description type x b a :
  (type =? "add")%string = false ->
  denotes (Account.balance x) b -> denotes amount a ->
  in_column b -> in_column a ->
  adjust_effect userId amount description type x
  = if b - a <? 0 then {| write := None; insert := None |}
    else {| write := Some (fixed_text (b - a));
            insert := Some {| it_accountId := Account.id x;
                              it_type := "withdrawal";
                              it_amount := "-" ++ amount;
                              it_description := description;
                              it_createdBy := Some userId |} |}.
Proof.
  intros Ht Hb Ha Cb Ca. unfold adjust_effect. cbv zeta. rewrite Ht.
  assert (W : wide (b - a)) by widen.
  rewrite (parseFloat_denotes _ _ Hb), (parseFloat_denotes _ _ Ha) by widen.
  destruct (sub_dbl b a) as (q & -> & Hq); [widen..|].
  rewrite (toFixed2_rep q _ Hq W), (parseFloat_fixed_text _ W).
  rewrite (lt_zero_rep _ _ (dbl_rep _ W)). reflexivity.
Qed.

Lemma has_funds_denotes x b :
  denotes (Account.balance x) b -> in_column b -> has_funds x = (0 <? b).
Proof.
  intros Hb Cb. unfold has_funds. assert (W : wide b) by widen.
  rewrite (parseFloat_denotes _ _ Hb W). apply gt_zero_rep, dbl_rep, W.
Qed.

Lemma tags_paycheck userId amount : tags_account (paycheck_effect userId amount).
Proof. intros a t [= <-]. reflexivity. Qed.

Lemma tags_rent userId amount : tags_account (rent_effect userId amount).
Proof.
  intros a t. unfold rent_effect. cbv zeta.
  destruct (JS.gt (parseFloat (Account.balance a)) zero); [|discriminate].
  cbn [insert]. destruct (JS.gt _ zero); [|discriminate].
  intros [= <-]. reflexivity.
Qed.

Lemma tags_adjust userId amount description type :
  tags_account (adjust_effect userId amount description type).
Proof.
  intros a t. unfold adjust_effect. cbv zeta.
  destruct (JS.lt _ zero); [discriminate|].
  intros [= <-]. reflexivity.
Qed.





(** ** The texts of the computed amounts *)

Lemma digit_not_minus d r s :
  is_digit d ->
  match String (digit_char d) r with
  | String "-" r' => r'
  | _ => s
  end = s.
Proof. intros H. digit_cases d H; reflexivity. Qed.

Lemma two_decimals_digits (sg : bool) (a b : list N) :
  Forall is_digit a -> Forall is_digit b -> a <> [] -> length b = 2%nat ->
  two_decimals ((if sg then "-" else "") ++ string_of_digits a ++ "."
                ++ string_of_digits b) = true.
Proof.
  intros Fa Fb Ha Hb. unfold two_decimals.
  assert (E : match (if sg then "-" else "") ++ string_of_digits a ++ "."
                    ++ string_of_digits b with
              | String "-" r => r
              | _ => (if sg then "-" else "") ++ string_of_digits a ++ "."
                     ++ string_of_digits b
              end = string_of_digits a ++ "." ++ string_of_digits b).
  { destruct sg; [reflexivity|]. change ("" ++ ?x) with x.
    destruct a as [|d a']; [contradiction|].
    rewrite string_of_digits_cons. apply digit_not_minus.
    now inversion Fa. }
  rewrite E, (scan_digits_app a _ Fa) by reflexivity.
  replace (negb (length a =? 0)%nat) with true
    by (destruct a; [contradiction|reflexivity]).
  change ("." ++ ?x) with (String "." x). cbn [andb].
  rewrite <- (append_empty_r (string_of_digits b)).
  rewrite (scan_digits_app b "" Fb) by exact I.
  destruct b as [|d1 [|d2 [|d3 b']]]; try discriminate. reflexivity.
Qed.


Lemma two_decimals_signed (sg : bool) (c : Z) :
  0 <= c ->
  two_decimals ((if sg then "-" else "") ++ fixed_text c) = true.
Proof.
  intros Hc. unfold fixed_text.
  replace (c <? 0) with false by (symmetry; apply Z.ltb_ge; lia).
  change ("" ++ ?x) with x.
  destruct (N_digits_spec (Z.to_N (Z.abs c))) as (_ & Hd & _).
  destruct (pad3_spec _ Hd) as (Hd' & _ & Hlen).
  set (m := pad3 (N_digits (Z.to_N (Z.abs c)))) in *.
  set (k := length m) in *.
  assert (Hsplit : (firstn (k - 2) m ++ skipn (k - 2) m)%list = m)
    by apply firstn_skipn.
  rewrite <- Hsplit in Hd'. apply Forall_app in Hd'. destruct Hd' as [Fa Fb].
  apply (two_decimals_digits sg); try assumption.
  - intros E. apply (f_equal (@length N)) in E.
    rewrite length_firstn in E. fold k in E. simpl in E. lia.
  - rewrite length_skipn. fold k. lia.
Qed.

(** ** The handlers, reduced *)

Lemma teacher_passes s userId :
  is_teacher s userId ->
  exists u, getUser userId s = (Return (Some u), s)
            /\ lacks_role (Some u) "teacher" = false.
Proof.
  intros (u & Hf & Hr). exists u. unfold getUser. rewrite Hf.
  split; [reflexivity|]. cbn. now rewrite Hr.
Qed.

Lemma teacher_lacks_nothing s userId :
  is_teacher s userId ->
  lacks_role (find (fun u => User.id u =? userId)%string (users s)) "teacher"
  = false.
Proof.
  intros (u & -> & Hr). cbn [lacks_role]. now rewrite Hr.
Qed.

Lemma student_passes s userId :
  is_student s userId ->
  exists u, getUser userId s = (Return (Some u), s)
            /\ lacks_role (Some u) "student" = false
            /\ In u (users s) /\ User.id u = userId.
Proof.
  intros (u & Hf & Hr). exists u. unfold getUser. rewrite Hf.
  split; [reflexivity|]. split; [cbn; now rewrite Hr|].
  now apply find_user_In.
Qed.

Lemma post_distribute_paycheck_teacher userId amount s :
  is_teacher s userId ->
  post_distribute_paycheck userId (Str amount) s
  = let rows := select_students s in
    let created := number_from (transactions_seq s)
                     (inserts (paycheck_effect userId amount)
                              (processed rows)) in
    (if complete rows
     then json (PaycheckJson (paycheck_message amount (length rows)) created)
     else status_json 500 "Failed to distribute paycheck",
     batch_store (paycheck_effect userId amount) rows s).
Proof.
  intros Ht. destruct (teacher_passes s userId Ht) as (u & Hu & Hl).
  unfold post_distribute_paycheck, try_catch.
  unfold bind at 1. rewrite Hu, Hl.
  unfold bind at 1. cbn [z_string ret].
  unfold bind at 1. cbn [getAllStudents].
  unfold bind at 1. rewrite paycheck_loop_batch. cbv zeta.
  destruct (complete (select_students s)); reflexivity.
Qed.

Lemma post_collect_rent_teacher userId amount s :
  is_teacher s userId ->
  post_collect_rent userId (Str amount) s
  = let rows := select_students s in
    let created := number_from (transactions_seq s)
                     (inserts (rent_effect userId amount)
                              (processed rows)) in
    (if complete rows
     then json (RentJson (rent_message (N.of_nat (length created))) created
                         (N.of_nat (length created)))
     else status_json 500 "Failed to collect rent",
     batch_store (rent_effect userId amount) rows s).
Proof.
  intros Ht. destruct (teacher_passes s userId Ht) as (u & Hu & Hl).
  unfold post_collect_rent, try_catch.
  unfold bind at 1. rewrite Hu, Hl.
  unfold bind at 1. cbn [z_string ret].
  unfold bind at 1. cbn [getAllStudents].
  unfold bind at 1. rewrite rent_loop_batch. cbv zeta.
  destruct (complete (select_students s)); reflexivity.
Qed.

Lemma paycheck_store userId amount s :
  snd (post_distribute_paycheck userId (Str amount) s)
  = if lacks_role (find (fun u => User.id u =? userId)%string (users s))
                  "teacher"
    then s
    else batch_store (paycheck_effect userId amount) (select_students s) s.
Proof.
  unfold post_distribute_paycheck, try_catch.
  unfold bind at 1. unfold getUser.
  destruct (lacks_role _ "teacher"); [reflexivity|].
  unfold bind at 1. cbn [z_string ret].
  unfold bind at 1. cbn [getAllStudents].
  unfold bind at 1. rewrite paycheck_loop_batch.
  now destruct (complete (select_students s)).
Qed.

Lemma mutate_paycheck userId amount s :
  mutate (DistributePaycheck userId amount) s = s
  \/ mutate (DistributePaycheck userId amount) s
     = batch_store (paycheck_effect userId amount) (select_students s) s.
Proof.
  cbn [mutate]. rewrite paycheck_store.
  destruct (lacks_role _ _); [now left|now right].
Qed.

Lemma rent_store userId amount s :
  snd (post_collect_rent userId (Str amount) s)
  = if lacks_role (find (fun u => User.id u =? userId)%string (users s))
                  "teacher"
    then s
    else batch_store (rent_effect userId amount) (select_students s) s.
Proof.
  unfold post_collect_rent, try_catch.
  unfold bind at 1. unfold getUser.
  destruct (lacks_role _ "teacher"); [reflexivity|].
  unfold bind at 1. cbn [z_string ret].
  unfold bind at 1. cbn [getAllStudents].
  unfold bind at 1. rewrite rent_loop_batch. cbv zeta.
  now destruct (complete (select_students s)).
Qed.

Lemma mutate_rent userId amount s :
  mutate (CollectRent userId amount) s = s
  \/ mutate (CollectRent userId amount) s
     = batch_store (rent_effect userId amount) (select_students s) s.
Proof.
  cbn [mutate]. rewrite rent_store.
  destruct (lacks_role _ _); [now left|now right].
Qed.

Lemma batch_store_one eff st a s :
  account st = Some a ->
  batch_store eff [st] s = step_store eff (User.id (user st)) a s.
Proof.
  intros Ha. rewrite (batch_store_cons eff st [] a s Ha).
  now apply batch_store_stop.
Qed.

(** [adjust-balance] once the caller, the body, the student and the account
    have passed the checks. *)
Lemma post_adjust_balance_checked userId studentId amount description type
  st acct s :
  is_teacher s userId ->
  existsb (String.eqb type) ["add"; "subtract"] = true ->
  find (fun u => User.id u =? studentId)%string (users s) = Some st ->
  User.role st = "student" ->
  find (fun a => Account.userId a =? studentId)%string (accounts s)
  = Some acct ->
  let eff := adjust_effect userId amount description type in
  post_adjust_balance userId
    {| ab_studentId := Str studentId; ab_amount := Str amount;
       ab_description := Str description; ab_type := Str type |} s
  = (match insert (eff acct) with
     | Some t =>
         json (AdjustJson "Balance adjusted successfully"
                 (Transaction.mk (transactions_seq s) (it_accountId t)
                    (it_type t) (it_amount t) (it_description t)
                    (it_createdBy t)))
     | None => status_json 400 "Balance cannot be negative"
     end,
     batch_store eff [ {| user := st; account := Some acct |} ] s).
Proof.
  intros Ht Hty Hst Hrole Hacct eff.
  destruct (teacher_passes s userId Ht) as (u & Hu & Hl).
  rewrite (batch_store_one eff {| user := st; account := Some acct |} acct s
             eq_refl).
  unfold post_adjust_balance, try_catch.
  unfold bind at 1. rewrite Hu, Hl.
  cbn [ab_studentId ab_amount ab_description ab_type z_string z_enum].
  rewrite Hty.
  do 4 (unfold bind at 1; cbn [ret]).
  unfold bind at 1. unfold getUser. rewrite Hst.
  cbn [lacks_role]. rewrite Hrole. cbn [String.eqb Ascii.eqb Bool.eqb negb].
  unfold bind at 1. unfold getAccount. rewrite Hacct.
  cbv zeta. unfold step_store, eff, adjust_effect. cbv zeta.
  apply find_user_In in Hst. destruct Hst as [_ <-]. cbn [user].
  destruct (JS.lt _ zero); [reflexivity|].
  unfold bind at 1. cbn [updateAccountBalance].
  unfold bind at 1. cbn [createTransaction write insert snd].
  reflexivity.
Qed.

Ltac case_finds :=
  repeat match goal with
         | |- context [match find ?p ?l with _ => _ end] =>
             destruct (find p l)
         end;
  reflexivity.

Lemma adjust_store userId studentId amount description type s :
  snd (post_adjust_balance userId
         {| ab_studentId := Str studentId; ab_amount := Str amount;
            ab_description := Str description; ab_type := Str type |} s)
  = match find (fun u => User.id u =? studentId)%string (users s),
          find (fun a => Account.userId a =? studentId)%string (accounts s)
    with
    | Some st, Some acct =>
        if negb (lacks_role
                   (find (fun u => User.id u =? userId)%string (users s))
                   "teacher")
           && existsb (String.eqb type) ["add"; "subtract"]
           && negb (lacks_role (Some st) "student")
        then batch_store (adjust_effect userId amount description type)
               [ {| user := st; account := Some acct |} ] s
        else s
    | _, _ => s
    end.
Proof.
  unfold post_adjust_balance, try_catch.
  unfold bind at 1. unfold getUser at 1.
  destruct (lacks_role _ "teacher").
  { cbn [negb andb]. case_finds. }
  cbn [ab_studentId ab_amount ab_description ab_type z_string z_enum].
  do 3 (unfold bind at 1; cbn [ret]).
  destruct (existsb (String.eqb type) ["add"; "subtract"]).
  2:{ cbn [negb andb]. case_finds. }
  unfold bind at 1; cbn [ret].
  unfold bind at 1. unfold getUser.
  destruct (find _ (users s)) as [st|] eqn:Hst; [|reflexivity].
  destruct (lacks_role (Some st) "student") eqn:L.
  { cbn [negb andb]. case_finds. }
  unfold bind at 1. unfold getAccount.
  destruct (find _ (accounts s)) as [acct|] eqn:Hacct; [|reflexivity].
  cbn [negb andb].
  rewrite (batch_store_one _ {| user := st; account := Some acct |} acct s
             eq_refl).
  cbv zeta. unfold step_store, adjust_effect. cbv zeta.
  apply find_user_In in Hst. destruct Hst as [_ <-]. cbn [user].
  destruct (JS.lt _ zero); [reflexivity|].
  unfold bind at 1. cbn [updateAccountBalance].
  unfold bind at 1. cbn [createTransaction write insert snd].
  reflexivity.
Qed.

Lemma mutate_adjust userId studentId amount description type s :
  mutate (AdjustBalance userId studentId amount description type) s = s
  \/ exists st acct,
       find (fun u => User.id u =? studentId)%string (users s) = Some st
       /\ find (fun a => Account.userId a =? studentId)%string (accounts s)
          = Some acct
       /\ mutate (AdjustBalance userId studentId amount description type) s
          = batch_store (adjust_effect userId amount description type)
              [ {| user := st; account := Some acct |} ] s.
Proof.
  cbn [mutate]. rewrite adjust_store.
  destruct (find _ (users s)) as [st|]; [|now left].
  destruct (find _ (accounts s)) as [acct|]; [|now left].
  destruct (_ && _); [|now left].
  right. now exists st, acct.
Qed.

(** ** Reviewing a withdrawal request *)

Lemma join_request_request s r x :
  In x (join_request s r) -> request x = r.
Proof.
  unfold join_request. destruct (filter _ (accounts s)) as [|a la].
  - now intros [<-|[]].
  - intros Hin. apply in_flat_map in Hin. destruct Hin as (b & _ & Hin).
    destruct (filter _ (users s)) as [|u lu].
    + now destruct Hin as [<-|[]].
    + apply in_map_iff in Hin. now destruct Hin as (v & <- & _).
Qed.

Lemma set_request_id id u r :
  WithdrawalRequest.id (set_request id u r) = WithdrawalRequest.id r.
Proof. unfold set_request. now destruct (_ =? _). Qed.

(** Once the update has marked the request approved, the handler does not
    find it among the pending ones. *)
Lemma approved_not_pending requestId u s :
  is_approved u = true ->
  let s1 := snd (updateWithdrawalRequest requestId u s) in
  find (fun r => WithdrawalRequest.id (request r) =? requestId)
       (flat_map (join_request s1)
          (filter (fun r => WithdrawalRequest.status r =? "pending")%string
                  (withdrawalRequests s1)))
  = None.
Proof.
  intros Ha s1.
  destruct (find _ _) as [x|] eqn:F; [exfalso|reflexivity].
  apply find_some in F. destruct F as [Hin Hid].
  apply in_flat_map in Hin. destruct Hin as (r & Hr & Hx).
  apply join_request_request in Hx. subst r.
  apply filter_In in Hr. destruct Hr as [Hr Hp].
  cbn [s1 updateWithdrawalRequest snd withdrawalRequests] in Hr.
  apply in_map_iff in Hr. destruct Hr as (r0 & E & _).
  rewrite <- E in Hid, Hp. rewrite set_request_id in Hid.
  unfold set_request in Hp. rewrite Hid in Hp.
  unfold is_approved in Ha. destruct (uw_status u) as [st|]; [|discriminate].
  cbn [WithdrawalRequest.status] in Hp.
  apply String.eqb_eq in Ha. subst st. discriminate.
Qed.

(** The answer and the store of the handler for a teacher. *)
Lemma patch_teacher userId requestId status s :
  is_teacher s userId ->
  patch_withdrawal_request userId requestId (Str status) s
  = let u := {| uw_status := Some status; uw_reviewedBy := Some userId |} in
    let rows := map (set_request requestId u) (withdrawalRequests s) in
    (json (RequestJson
             (find (fun r => WithdrawalRequest.id r =? requestId) rows)),
     snd (updateWithdrawalRequest requestId u s)).
Proof.
  intros Ht. destruct (teacher_passes s userId Ht) as (usr & Hu & Hl).
  unfold patch_withdrawal_request, try_catch.
  unfold bind at 1. rewrite Hu, Hl.
  unfold updateWithdrawalRequestSchema_parse.
  unfold bind at 1. unfold bind at 1. cbn [z_string_optional ret].
  unfold bind at 1.
  set (u := {| uw_status := Some status; uw_reviewedBy := Some userId |}).
  change (updateWithdrawalRequest requestId u s)
    with (Return (find (fun r => WithdrawalRequest.id r =? requestId)
                       (map (set_request requestId u) (withdrawalRequests s))),
          snd (updateWithdrawalRequest requestId u s)).
  cbv iota beta.
  destruct (is_approved u) eqn:A.
  - unfold bind at 1. unfold bind at 1.
    unfold getPendingWithdrawalRequests.
    rewrite (approved_not_pending requestId u s A). reflexivity.
  - reflexivity.
Qed.

Lemma patch_store userId requestId status s :
  snd (patch_withdrawal_request userId requestId status s)
  = if lacks_role (find (fun u => User.id u =? userId)%string (users s))
                  "teacher"
    then s
    else match status with
         | Absent =>
             snd (updateWithdrawalRequest requestId
                    {| uw_status := None; uw_reviewedBy := Some userId |} s)
         | Str st =>
             snd (updateWithdrawalRequest requestId
                    {| uw_status := Some st; uw_reviewedBy := Some userId |} s)
         | _ => s
         end.
Proof.
  unfold patch_withdrawal_request, try_catch.
  unfold bind at 1. unfold getUser.
  destruct (lacks_role _ "teacher"); [reflexivity|].
  unfold updateWithdrawalRequestSchema_parse.
  unfold bind at 1. unfold bind at 1.
  destruct status as [|st|z|]; cbn [z_string_optional ret throw];
    try reflexivity.
  set (u := {| uw_status := Some st; uw_reviewedBy := Some userId |}).
  unfold bind at 1.
  change (updateWithdrawalRequest requestId u s)
    with (Return (find (fun r => WithdrawalRequest.id r =? requestId)
                       (map (set_request requestId u) (withdrawalRequests s))),
          snd (updateWithdrawalRequest requestId u s)).
  cbv iota beta.
  destruct (is_approved u) eqn:A; [|reflexivity].
  unfold bind at 1. unfold bind at 1.
  unfold getPendingWithdrawalRequests.
  rewrite (approved_not_pending requestId u s A). reflexivity.
Qed.


(** ** Ledger reconciliation *)


Lemma settle_id eff rows x : Account.id (settle eff rows x) = Account.id x.
Proof.
  revert x. induction rows as [|row rows IH]; intros x; [reflexivity|].
  rewrite settle_cons, IH. unfold settle_row.
  destruct (_ =? _)%string; [apply written_id|reflexivity].
Qed.

Lemma settle_userId eff rows x :
  Account.userId (settle eff rows x) = Account.userId x.
Proof.
  revert x. induction rows as [|row rows IH]; intros x; [reflexivity|].
  rewrite settle_cons, IH. unfold settle_row.
  destruct (_ =? _)%string; [apply written_userId|reflexivity].
Qed.

Lemma keys_unique_batch eff students s :
  keys_unique s -> keys_unique (batch_store eff students s).
Proof.
  intros (Hu & Hi & Ha). unfold keys_unique. cbn [batch_store users accounts].
  rewrite !map_map.
  rewrite (map_ext _ Account.id) by (intros; apply settle_id).
  rewrite (map_ext (fun x => Account.userId _) Account.userId)
    by (intros; apply settle_userId).
  repeat split; assumption.
Qed.



Lemma column_text_denotes t c :
  column_text t c -> denotes t c /\ in_column c.
Proof.
  intros [Hc ->]. split; [apply literal_value_fixed_text|exact Hc].
Qed.





(** ** Student rows and student accounts *)

Lemma same_members_length {A} (l1 l2 : list A) :
  NoDup l1 -> NoDup l2 -> (forall x, In x l1 <-> In x l2) ->
  length l1 = length l2.
Proof.
  intros H1 H2 H. apply Nat.le_antisymm; apply NoDup_incl_length;
    try assumption; intros x Hx; now apply H.
Qed.

Lemma NoDup_filter_list {A} (p : A -> bool) l : NoDup l -> NoDup (filter p l).
Proof.
  induction 1 as [|x l Hx Hl IH]; cbn [filter]; [constructor|].
  destruct (p x); [|exact IH]. constructor; [|exact IH].
  intros Hin. apply filter_In in Hin. tauto.
Qed.

Lemma select_students_In s st :
  In st (select_students s) ->
  In (user st) (users s) /\ User.role (user st) = "student"
  /\ forall a, account st = Some a ->
     In a (accounts s) /\ Account.userId a = User.id (user st).
Proof.
  unfold select_students. intros Hin. apply in_flat_map in Hin.
  destruct Hin as (u & Hu & Hj). apply filter_In in Hu.
  destruct Hu as [Hu Hr]. apply String.eqb_eq in Hr.
  apply join_accounts_In in Hj. destruct Hj as [-> Hj]. auto.
Qed.

Lemma student_row s u x :
  In u (users s) -> User.role u = "student" ->
  In x (accounts s) -> Account.userId x = User.id u ->
  In {| user := u; account := Some x |} (select_students s).
Proof.
  intros Hu Hr Hx E. unfold select_students. apply in_flat_map.
  exists u. split.
  - apply filter_In. split; [exact Hu|]. now apply String.eqb_eq.
  - unfold join_accounts.
    assert (Hf : In x (filter (fun a => Account.userId a =? User.id u)%string
                              (accounts s))).
    { apply filter_In. split; [exact Hx|]. now apply String.eqb_eq. }
    destruct (filter _ (accounts s)) as [|y l]; [contradiction|].
    apply in_map_iff. now exists x.
Qed.

Lemma complete_students s :
  students_have_accounts s -> complete (select_students s) = true.
Proof.
  intros Hall. unfold complete. apply forallb_forall. intros st Hin.
  unfold select_students in Hin. apply in_flat_map in Hin.
  destruct Hin as (u & Hu & Hj). apply filter_In in Hu.
  destruct Hu as [Hu Hr]. apply String.eqb_eq in Hr.
  destruct (Hall u Hu Hr) as (a & Ha & E).
  unfold join_accounts in Hj.
  assert (Hf : In a (filter (fun a => Account.userId a =? User.id u)%string
                            (accounts s))).
  { apply filter_In. split; [exact Ha|]. now apply String.eqb_eq. }
  destruct (filter _ (accounts s)) as [|y l]; [contradiction|].
  apply in_map_iff in Hj. now destruct Hj as (b & <- & _).
Qed.

Lemma owner_is_student_spec s x :
  owner_is_student s x = true <->
  exists u, In u (users s) /\ User.id u = Account.userId x
            /\ User.role u = "student".
Proof.
  unfold owner_is_student. rewrite existsb_exists. split.
  - intros (u & Hu & H). apply andb_true_iff in H. destruct H as [H1 H2].
    apply String.eqb_eq in H1, H2. now exists u.
  - intros (u & Hu & H1 & H2). exists u. split; [exact Hu|].
    apply andb_true_iff. split; now apply String.eqb_eq.
Qed.

Lemma processed_length students :
  complete students = true ->
  length (processed students) = length students.
Proof.
  induction students as [|st l IH]; intros Hc; [reflexivity|].
  cbn [complete forallb] in Hc. apply andb_true_iff in Hc.
  destruct Hc as [H1 H2]. cbn [processed].
  destruct (account st); [|discriminate].
  cbn [length]. f_equal. now apply IH.
Qed.

Lemma student_rows_members s x :
  keys_unique s -> students_have_accounts s ->
  In x (map snd (processed (select_students s)))
  <-> In x (student_accounts s).
Proof.
  intros Hk Hall. unfold student_accounts. rewrite filter_In.
  rewrite owner_is_student_spec. split.
  - intros Hin. apply in_map_iff in Hin. destruct Hin as ([uid a] & <- & Hin).
    apply processed_In in Hin. destruct Hin as (st & Hst & Ha & Huid).
    apply select_students_In in Hst. destruct Hst as (Hu & Hr & Hacc).
    destruct (Hacc a Ha) as [Hin E]. cbn [snd]. split; [exact Hin|].
    exists (user st). now repeat split.
  - intros (Hx & u & Hu & E & Hr).
    pose proof (student_row s u x Hu Hr Hx (eq_sym E)) as Hrow.
    apply (processed_complete _ (complete_students s Hall) _ x) in Hrow;
      [|reflexivity].
    apply in_map_iff. now exists (row_uid {| user := u; account := Some x |}, x).
Qed.

Lemma student_rows_NoDup s :
  keys_unique s -> NoDup (map snd (processed (select_students s))).
Proof.
  intros Hk. destruct (select_students_sound s Hk) as [Hnd Hrows].
  apply (NoDup_map_inv Account.userId). rewrite map_map.
  erewrite map_ext_in; [exact Hnd|].
  intros [uid a] Hin. cbn [fst snd]. now apply Hrows.
Qed.

Lemma student_accounts_NoDup s : keys_unique s -> NoDup (student_accounts s).
Proof.
  intros (_ & Hi & _). apply NoDup_filter_list.
  now apply (NoDup_map_inv Account.id).
Qed.

Lemma student_touched s x :
  keys_unique s -> students_have_accounts s -> In x (student_accounts s) ->
  touched (processed (select_students s)) x = true.
Proof.
  intros Hk Hall Hx. apply (student_rows_members s x Hk Hall) in Hx.
  apply in_map_iff in Hx. destruct Hx as ([uid a] & E & Hin).
  cbn [snd] in E. subst a. unfold touched. apply existsb_exists.
  exists (uid, x). split; [exact Hin|]. cbn [fst]. apply String.eqb_eq.
  destruct (select_students_sound s Hk) as [_ Hrows].
  symmetry. now apply Hrows.
Qed.

Lemma student_count s :
  keys_unique s -> students_have_accounts s ->
  length (select_students s) = length (student_accounts s).
Proof.
  intros Hk Hall.
  rewrite <- (processed_length _ (complete_students s Hall)).
  rewrite <- (length_map snd).
  apply same_members_length.
  - now apply student_rows_NoDup.
  - now apply student_accounts_NoDup.
  - intros x. now apply student_rows_members.
Qed.

(** ** Looking an account up after a batch *)

Lemma account_by_id_In s x :
  keys_unique s -> In x (accounts s) ->
  account_by_id s (Account.id x) = Some x.
Proof.
  intros (_ & Hi & _) Hx. unfold account_by_id.
  destruct (find _ (accounts s)) as [y|] eqn:F.
  - apply find_some in F. destruct F as [Hy E]. apply Z.eqb_eq in E.
    f_equal. now apply (NoDup_map_eq Account.id (accounts s)).
  - exfalso. apply (find_none _ _ F) in Hx. now rewrite Z.eqb_refl in Hx.
Qed.

Lemma batch_account_by_id eff students s x :
  keys_unique s -> sound_rows s (processed students) ->
  In x (accounts s) ->
  account_by_id (batch_store eff students s) (Account.id x)
  = Some (if touched (processed students) x
          then written (write (eff x)) x else x).
Proof.
  intros Hk Hs Hx.
  set (g := fun x => if touched (processed students) x
                     then written (write (eff x)) x else x).
  assert (Hg : forall y, Account.id (g y) = Account.id y).
  { intros y. unfold g. destruct (touched _ y); [apply written_id|reflexivity]. }
  replace (Account.id x) with (Account.id (g x)) by apply Hg.
  fold (g x). apply account_by_id_In.
  - now apply keys_unique_batch.
  - rewrite (batch_accounts eff students s Hk Hs). fold g.
    now apply (in_map g).
Qed.

(** ** Paycheck distribution *)

Lemma number_from_length z l : length (number_from z l) = length l.
Proof.
  revert z. induction l as [|t l IH]; intros z; [reflexivity|].
  cbn [number_from length]. now rewrite IH.
Qed.

Lemma inserts_paycheck_length userId amount rows :
  length (inserts (paycheck_effect userId amount) rows) = length rows.
Proof.
  induction rows as [|row rows IH]; [reflexivity|].
  cbn [inserts paycheck_effect insert length]. now rewrite IH.
Qed.

Lemma inserts_paycheck_kind userId amount rows z :
  Forall (fun t => Transaction.type t = "paycheck"
                   /\ Transaction.amount t = amount)
         (number_from z (inserts (paycheck_effect userId amount) rows)).
Proof.
  revert z. induction rows as [|row rows IH]; intros z; [constructor|].
  cbn [inserts paycheck_effect insert number_from]. constructor; [|apply IH].
  now split.
Qed.

(** C5: a paycheck of [a] cents sent by a teacher raises the balance of
    every student account by exactly [a] cents, a zero balance included,
    creates one transaction of kind paycheck per student account, [N] in
    all, and reports [N] students.  The amount is the two-decimal text of
    [a] cents, the balances of the students are texts of the column, and
    none of them leaves the column with [a] cents more. *)
Theorem paycheck_distribution (s : Store) (userId amount : string) (a : Z) :
  keys_unique s -> students_have_accounts s -> is_teacher s userId ->
  column_text amount a ->
  (forall x, In x (student_accounts s) ->
     exists b, column_text (Account.balance x) b /\ in_column (b + a)) ->
  let N := length (student_accounts s) in
  exists created s',
    post_distribute_paycheck userId (Str amount) s
    = (json (PaycheckJson (paycheck_message amount N) created), s')
    /\ transactions s' = (transactions s ++ created)%list
    /\ length created = N
    /\ Forall (fun t => Transaction.type t = "paycheck"
                        /\ Transaction.amount t = amount) created
    /\ forall x b,
         In x (student_accounts s) ->
         Account.balance x = fixed_text b ->
         account_by_id s' (Account.id x)
         = Some (Account.mk (Account.id x) (Account.userId x)
                            (fixed_text (b + a)))
         /\ denotes (fixed_text (b + a)) (b + a)
         /\ length (transactions_of (Account.id x) created) = 1%nat.
Proof.
  intros Hk Hall Ht Hamount Hfit N.
  destruct (column_text_denotes _ _ Hamount) as [Ha Ca].
  set (eff := paycheck_effect userId amount).
  exists (number_from (transactions_seq s)
            (inserts eff (processed (select_students s)))),
         (batch_store eff (select_students s) s).
  pose proof (select_students_sound s Hk) as Hs.
  pose proof (complete_students s Hall) as Hc.
  split; [|split; [|split; [|split]]].
  - rewrite (post_distribute_paycheck_teacher userId amount s Ht). cbv zeta.
    fold eff. rewrite Hc. now rewrite (student_count s Hk Hall).
  - reflexivity.
  - rewrite number_from_length. unfold eff.
    rewrite inserts_paycheck_length, (processed_length _ Hc).
    now apply student_count.
  - apply inserts_paycheck_kind.
  - intros x b Hx Eb.
    assert (Hb : denotes (Account.balance x) b)
      by (rewrite Eb; apply literal_value_fixed_text).
    assert (Cb : in_column b).
    { destruct (Hfit x Hx) as (b' & Hb' & _).
      apply column_text_denotes in Hb'. destruct Hb' as [Hb' Cb'].
      replace b with b'; [exact Cb'|].
      apply money_inj. unfold denotes in *. congruence. }
    assert (Hin : In x (accounts s)).
    { unfold student_accounts in Hx. apply filter_In in Hx. tauto. }
    pose proof (student_touched s x Hk Hall Hx) as Htouch.
    split; [|split].
    + rewrite (batch_account_by_id eff _ s x Hk Hs Hin).
      rewrite Htouch. unfold eff.
      now rewrite (paycheck_effect_money userId amount x b a).
    + apply literal_value_fixed_text.
    + destruct (inserts_touched eff s _ x (transactions_seq s)
                  (tags_paycheck userId amount) Hk Hin Hs Htouch) as (z & ->).
      reflexivity.
Qed.

(** ** Rent collection *)

Lemma student_account_In s x : In x (student_accounts s) -> In x (accounts s).
Proof. unfold student_accounts. intros H. apply filter_In in H. tauto. Qed.

(** C4: a rent of [a] cents, [a] positive, leaves every student account
    that held [b] cents, [b] not negative, with [max 0 (b - a)] cents, and
    the transaction of an account that held something records what was
    really taken, [b - max 0 (b - a)] cents, with a minus sign. *)
Theorem rent_collection (s : Store) (userId amount : string) (a : Z) :
  keys_unique s -> students_have_accounts s -> is_teacher s userId ->
  denotes amount a -> 0 < a -> in_column a ->
  exists created n s',
    post_collect_rent userId (Str amount) s
    = (json (RentJson (rent_message n) created n), s')
    /\ transactions s' = (transactions s ++ created)%list
    /\ forall x b,
         In x (student_accounts s) ->
         denotes (Account.balance x) b -> 0 <= b -> in_column b ->
         exists x',
           account_by_id s' (Account.id x) = Some x'
           /\ Account.userId x' = Account.userId x
           /\ denotes (Account.balance x') (Z.max 0 (b - a))
           /\ (0 < b ->
               Account.balance x' = fixed_text (Z.max 0 (b - a))
               /\ exists z,
                    transactions_of (Account.id x) created
                    = [Transaction.mk z (Account.id x) "rent"
                         ("-" ++ fixed_text (b - Z.max 0 (b - a)))
                         "Monthly Rent" (Some userId)]).
Proof.
  intros Hk Hall Ht Ha Hpos Ca.
  set (eff := rent_effect userId amount).
  exists (number_from (transactions_seq s)
            (inserts eff (processed (select_students s)))),
         (N.of_nat (length (number_from (transactions_seq s)
                              (inserts eff (processed (select_students s)))))),
         (batch_store eff (select_students s) s).
  pose proof (select_students_sound s Hk) as Hs.
  pose proof (complete_students s Hall) as Hc.
  split; [|split].
  - rewrite (post_collect_rent_teacher userId amount s Ht). cbv zeta.
    fold eff. now rewrite Hc.
  - reflexivity.
  - intros x b Hx Hb Hb0 Cb.
    pose proof (student_account_In s x Hx) as Hin.
    pose proof (student_touched s x Hk Hall Hx) as Htouch.
    pose proof (rent_effect_money userId amount x b a Hb Ha Cb Ca) as Heff.
    fold eff in Heff.
    rewrite (batch_account_by_id eff _ s x Hk Hs Hin), Htouch.
    destruct (inserts_touched eff s _ x (transactions_seq s)
                (tags_rent userId amount) Hk Hin Hs Htouch) as (z & Hz).
    rewrite Hz. unfold inserted. rewrite Heff.
    destruct (0 <? b) eqn:E.
    + apply Z.ltb_lt in E. cbn [write insert written].
      eexists. split; [reflexivity|]. cbn [Account.userId Account.balance].
      split; [reflexivity|]. split; [apply literal_value_fixed_text|].
      intros _. split; [reflexivity|].
      replace (0 <? b - Z.max 0 (b - a)) with true
        by (symmetry; apply Z.ltb_lt; lia).
      exists z. reflexivity.
    + apply Z.ltb_ge in E. cbn [write written].
      exists x. split; [reflexivity|]. split; [reflexivity|].
      split; [|lia].
      replace (Z.max 0 (b - a)) with b by lia. exact Hb.
Qed.

Lemma rent_effect_broke userId amount x :
  has_funds x = false ->
  rent_effect userId amount x = {| write := None; insert := None |}.
Proof.
  unfold has_funds, rent_effect. cbv zeta. now intros ->.
Qed.

Lemma rent_insert_funds userId amount x t :
  insert (rent_effect userId amount x) = Some t -> has_funds x = true.
Proof.
  destruct (has_funds x) eqn:E; [reflexivity|].
  now rewrite (rent_effect_broke userId amount x E).
Qed.

Lemma inserts_rent_members userId amount rows z t :
  In t (number_from z (inserts (rent_effect userId amount) rows)) ->
  exists row, In row rows
              /\ Transaction.accountId t = Account.id (snd row)
              /\ has_funds (snd row) = true.
Proof.
  revert z. induction rows as [|row rows IH]; intros z Hin; [contradiction|].
  cbn [inserts] in Hin.
  destruct (insert (rent_effect userId amount (snd row))) as [t0|] eqn:E.
  - cbn [number_from] in Hin. destruct Hin as [<-|Hin].
    + exists row. split; [now left|].
      cbn [Transaction.accountId].
      split; [now apply (tags_rent userId amount)|].
      now apply (rent_insert_funds userId amount _ t0).
    + destruct (IH _ Hin) as (r & Hr & H). exists r. split; [now right|exact H].
  - destruct (IH _ Hin) as (r & Hr & H). exists r. split; [now right|exact H].
Qed.

Lemma inserts_rent_count userId amount a rows :
  denotes amount a -> 0 < a -> in_column a ->
  (forall row, In row rows ->
     exists b, denotes (Account.balance (snd row)) b /\ in_column b) ->
  length (inserts (rent_effect userId amount) rows)
  = length (filter has_funds (map snd rows)).
Proof.
  intros Ha Hpos Ca. induction rows as [|row rows IH]; intros Hrows;
    [reflexivity|].
  destruct (Hrows row (or_introl eq_refl)) as (b & Hb & Cb).
  cbn [inserts map filter].
  rewrite (rent_effect_money userId amount (snd row) b a Hb Ha Cb Ca).
  rewrite (has_funds_denotes _ b Hb Cb).
  assert (IH' := IH (fun r Hr => Hrows r (or_intror Hr))).
  destruct (0 <? b) eqn:E; cbn [insert]; [|exact IH'].
  apply Z.ltb_lt in E.
  replace (0 <? b - Z.max 0 (b - a)) with true
    by (symmetry; apply Z.ltb_lt; lia).
  cbn [length]. now rewrite IH'.
Qed.

(** C7: rent collection passes over an account whose balance is zero: the
    loop leaves the store, the transactions and the count as they are, no
    transaction of the account is created, and the count reported is the
    number of transactions created, each of them for a student account
    that held something; for a positive rent in whole cents it is the
    number of student accounts that held something. *)
Theorem rent_skips_empty_accounts (s : Store) (userId amount : string) :
  keys_unique s -> students_have_accounts s -> is_teacher s userId ->
  (forall st x rest created n s0,
     account st = Some x -> denotes (Account.balance x) 0 ->
     rent_loop userId amount (st :: rest) created n s0
     = rent_loop userId amount rest created n s0)
  /\ exists created s',
       post_collect_rent userId (Str amount) s
       = (json (RentJson (rent_message (N.of_nat (length created))) created
                         (N.of_nat (length created))), s')
       /\ transactions s' = (transactions s ++ created)%list
       /\ (forall x, In x (accounts s) -> denotes (Account.balance x) 0 ->
             transactions_of (Account.id x) created = []
             /\ account_by_id s' (Account.id x) = Some x)
       /\ (forall t, In t created ->
             exists x, In x (student_accounts s)
                       /\ Account.id x = Transaction.accountId t
                       /\ has_funds x = true)
       /\ (forall a, denotes amount a -> 0 < a -> in_column a ->
             (forall x, In x (student_accounts s) ->
                exists b, denotes (Account.balance x) b /\ in_column b) ->
             length created
             = length (filter has_funds (student_accounts s))).
Proof.
  intros Hk Hall Ht. split.
  { intros st x rest created n s0 Hx H0.
    cbn [rent_loop]. rewrite Hx. unfold bind at 1. cbn [deref ret]. cbv zeta.
    rewrite (parseFloat_denotes _ _ H0), dbl_zero by widen. reflexivity. }
  set (eff := rent_effect userId amount).
  exists (number_from (transactions_seq s)
            (inserts eff (processed (select_students s)))),
         (batch_store eff (select_students s) s).
  pose proof (select_students_sound s Hk) as Hs.
  pose proof (complete_students s Hall) as Hc.
  assert (Hbroke : forall x, denotes (Account.balance x) 0 ->
                             eff x = {| write := None; insert := None |}).
  { intros x H0. apply rent_effect_broke.
    rewrite (has_funds_denotes x 0 H0); [reflexivity|widen]. }
  split; [|split; [|split; [|split]]].
  - rewrite (post_collect_rent_teacher userId amount s Ht). cbv zeta.
    fold eff. now rewrite Hc.
  - reflexivity.
  - intros x Hin H0. split.
    + destruct (batch_transactions eff (select_students s) s x
                  (tags_rent userId amount) Hk Hin Hs) as (z & Hz).
      cbn [batch_store transactions] in Hz.
      rewrite transactions_of_app in Hz. apply app_inv_head in Hz.
      rewrite Hz. unfold inserted. rewrite (Hbroke x H0).
      now destruct (touched _ x).
    + rewrite (batch_account_by_id eff _ s x Hk Hs Hin), (Hbroke x H0).
      now destruct (touched _ x).
  - intros t Hin. apply inserts_rent_members in Hin.
    destruct Hin as ([uid x] & Hrow & E & Hf). cbn [snd] in E, Hf.
    exists x. split; [|now split].
    apply (student_rows_members s x Hk Hall).
    apply in_map_iff. now exists (uid, x).
  - intros a Ha Hpos Ca Hbal. rewrite number_from_length. unfold eff.
    rewrite (inserts_rent_count userId amount a _ Ha Hpos Ca).
    + apply same_members_length.
      * apply NoDup_filter_list. now apply student_rows_NoDup.
      * apply NoDup_filter_list. now apply student_accounts_NoDup.
      * intros x. rewrite !filter_In.
        now rewrite (student_rows_members s x Hk Hall).
    + intros row Hrow. apply Hbal.
      apply (student_rows_members s _ Hk Hall). now apply in_map.
Qed.

(** ** Manual adjustment *)

(** C6: a teacher's subtraction of more cents than the account holds is
    answered with 400, "Balance cannot be negative", and leaves the store,
    balance and transactions, as it was. *)
Theorem subtract_beyond_balance_rejected (s : Store)
  (userId studentId amount description : string) (acct : Account.t)
  (b a : Z) :
  is_teacher s userId -> is_student s studentId ->
  account_of s studentId = Some acct ->
  denotes (Account.balance acct) b -> denotes amount a ->
  in_column b -> in_column a -> b < a ->
  post_adjust_balance userId
    {| ab_studentId := Str studentId; ab_amount := Str amount;
       ab_description := Str description; ab_type := Str "subtract" |} s
  = (status_json 400 "Balance cannot be negative", s).
Proof.
  intros Ht (st & Hst & Hrole) Hacct Hb Ha Cb Ca Hlt.
  rewrite (post_adjust_balance_checked userId studentId amount description
             "subtract" st acct s Ht eq_refl Hst Hrole Hacct).
  cbv zeta.
  rewrite (batch_store_one _ {| user := st; account := Some acct |} acct s
             eq_refl).
  unfold step_store.
  rewrite (adjust_effect_subtract userId amount description "subtract" acct
             b a eq_refl Hb Ha Cb Ca).
  replace (b - a <? 0) with true by (symmetry; apply Z.ltb_lt; lia).
  reflexivity.
Qed.

(** ** Creating a withdrawal request *)

(** C10: a student's request for more cents than the account holds is
    answered with 400, "Insufficient balance", and no row is created. *)
Theorem request_beyond_balance_rejected (s : Store) (userId : string)
  (accountId : Z) (amount reason : string) (acct : Account.t) (b a : Z) :
  is_student s userId -> account_of s userId = Some acct ->
  denotes (Account.balance acct) b -> denotes amount a ->
  in_column b -> in_column a -> b < a ->
  post_withdrawal_requests userId
    {| wb_accountId := Num accountId; wb_amount := Str amount;
       wb_reason := Str reason |} s
  = (status_json 400 "Insufficient balance", s).
Proof.
  intros Hs Hacct Hb Ha Cb Ca Hlt.
  destruct (student_passes s userId Hs) as (u & Hu & Hl & _).
  unfold post_withdrawal_requests, try_catch.
  unfold bind at 1. rewrite Hu, Hl.
  unfold bind at 1. unfold getAccount. unfold account_of in Hacct.
  rewrite Hacct.
  unfold insertWithdrawalRequestSchema_parse.
  cbn [wb_accountId wb_amount wb_reason z_number z_string].
  do 4 (unfold bind at 1; cbn [ret]).
  cbn [iw_amount].
  rewrite (parseFloat_denotes _ _ Ha), (parseFloat_denotes _ _ Hb) by widen.
  rewrite gt_dbl by widen.
  replace (b <? a) with true by (symmetry; now apply Z.ltb_lt).
  reflexivity.
Qed.

(** ** Reviewing a withdrawal request *)

Lemma find_request_map id u rows :
  find (fun r => WithdrawalRequest.id r =? id) (map (set_request id u) rows)
  = option_map (set_request id u)
      (find (fun r => WithdrawalRequest.id r =? id) rows).
Proof.
  induction rows as [|r rows IH]; [reflexivity|].
  cbn [map find]. rewrite set_request_id.
  destruct (WithdrawalRequest.id r =? id); [reflexivity|exact IH].
Qed.

(** C3 (amended): approving a request that is no longer pending
    is answered with 200 and the row, marked approved once more and signed
    by the caller; no balance changes and no transaction is created. *)
Theorem review_of_resolved_request (s : Store) (userId : string)
  (requestId : Z) (r : WithdrawalRequest.t) :
  is_teacher s userId ->
  request_by_id s requestId = Some r ->
  WithdrawalRequest.status r <> "pending" ->
  let r' := WithdrawalRequest.mk (WithdrawalRequest.id r)
              (WithdrawalRequest.accountId r) (WithdrawalRequest.amount r)
              (WithdrawalRequest.reason r) "approved" (Some userId) in
  exists s',
    patch_withdrawal_request userId requestId (Str "approved") s
    = (json (RequestJson (Some r')), s')
    /\ request_by_id s' requestId = Some r'
    /\ accounts s' = accounts s
    /\ transactions s' = transactions s.
Proof.
  intros Ht Hr _ r'.
  rewrite (patch_teacher userId requestId "approved" s Ht). cbv zeta.
  exists (snd (updateWithdrawalRequest requestId
                 {| uw_status := Some "approved";
                    uw_reviewedBy := Some userId |} s)).
  split; [|split; [|split]]; try reflexivity.
  - unfold request_by_id in Hr. rewrite find_request_map, Hr.
    cbn [option_map]. apply find_some in Hr. destruct Hr as [_ E].
    unfold set_request. now rewrite E.
  - unfold request_by_id. cbn [updateWithdrawalRequest snd withdrawalRequests].
    unfold request_by_id in Hr. rewrite find_request_map, Hr.
    cbn [option_map]. apply find_some in Hr. destruct Hr as [_ E].
    unfold set_request. now rewrite E.
Qed.

(** ** The forms *)

Lemma not_positive_invalid x :
  ~ positive_number x -> client.invalid_amount x = true.
Proof.
  intros H. unfold client.invalid_amount.
  destruct x as [|[|]|q]; try reflexivity.
  - exfalso. apply H. now left.
  - cbn [isNaN orb JS.le zero].
    destruct (Qle_bool q 0) eqn:E; [reflexivity|].
    exfalso. apply H. right. exists q. split; [reflexivity|].
    apply Qnot_le_lt. intros Hle. apply Qle_bool_iff in Hle. congruence.
Qed.

(** C8 (amended): an amount that does not parse to a positive
    number never leaves the form: the modal shows a toast, no request is
    sent and the store is untouched. *)
Theorem forms_refuse_invalid_amounts (s : Store)
  (userId amount description type : string)
  (student : option client.StudentProp) :
  ~ positive_number (parseFloat amount) ->
  (exists title text,
     client.submit_paycheck userId amount s = (client.Refused title text, s))
  /\ (exists title text,
        client.submit_rent userId amount s = (client.Refused title text, s))
  /\ (exists title text,
        client.submit_adjustment userId amount description student type s
        = (client.Refused title text, s)).
Proof.
  intros H. apply not_positive_invalid in H.
  split; [|split].
  - unfold client.submit_paycheck, client.PaycheckModal_handleSubmit.
    destruct (amount =? "")%string; [|rewrite H]; now eexists; eexists.
  - unfold client.submit_rent, client.RentCollectionModal_handleSubmit.
    destruct (amount =? "")%string; [|rewrite H]; now eexists; eexists.
  - unfold client.submit_adjustment, client.AdjustBalanceModal_handleSubmit.
    destruct student as [st|]; [|now eexists; eexists].
    destruct ((amount =? "") || (description =? ""))%string;
      [|rewrite H]; now eexists; eexists.
Qed.

(** ** Decimal handling *)

Lemma fixed_text_inj b c : fixed_text b = fixed_text c -> b = c.
Proof.
  intros E. apply money_inj. rewrite <- !literal_value_fixed_text.
  now rewrite E.
Qed.








(** ** The classroom *)

Lemma classroom_keys b1 b2 rs : keys_unique (classroom b1 b2 rs).
Proof.
  unfold keys_unique. cbn.
  repeat split; repeat constructor; cbn; intuition discriminate.
Qed.

Lemma classroom_students b1 b2 rs : students_have_accounts (classroom b1 b2 rs).
Proof.
  intros u [<-|[<-|[<-|[]]]] Hr; try discriminate.
  - exists (Account.mk 1 "s1" b1). split; [now left|reflexivity].
  - exists (Account.mk 2 "s2" b2). split; [right; now left|reflexivity].
Qed.

Lemma classroom_teacher b1 b2 rs : is_teacher (classroom b1 b2 rs) "t1".
Proof. exists teacher. now split. Qed.

Lemma classroom_alice b1 b2 rs : is_student (classroom b1 b2 rs) "s1".
Proof. exists alice. now split. Qed.

Lemma column_cents c : (Z.abs c <? column_limit) = true -> in_column c.
Proof. apply Z.ltb_lt. Qed.

(** C1: the scenario of the specification, on the code.  Alice holds 25.00
    and has a pending request for 25.00; the teacher approves it.  The
    handler answers 200 with the request marked approved, and the balance
    is still 25.00 with no transaction on file: the update runs before the
    look-up among the pending requests, which then finds nothing. *)
Theorem approval_deducts_nothing :
  patch_withdrawal_request "t1" 1 (Str "approved")
    (classroom "25.00" "0.00" [snack "pending" None])
  = (json (RequestJson (Some (snack "approved" (Some "t1")))),
     classroom "25.00" "0.00" [snack "approved" (Some "t1")]).
Proof. vm_compute. reflexivity. Qed.

(** Against C3 as stated: a request the teacher has denied is
    approved afterwards and the handler answers 200, not an error. *)
Lemma denied_request_approved_afterwards :
  request_by_id (classroom "25.00" "0.00" [snack "denied" (Some "t1")]) 1
  = Some (snack "denied" (Some "t1"))
  /\ patch_withdrawal_request "t1" 1 (Str "approved")
       (classroom "25.00" "0.00" [snack "denied" (Some "t1")])
     = (json (RequestJson (Some (snack "approved" (Some "t1")))),
        classroom "25.00" "0.00" [snack "approved" (Some "t1")]).
Proof. split; vm_compute; reflexivity. Qed.

Lemma review_of_resolved_request_witness :
  exists s',
    patch_withdrawal_request "t1" 1 (Str "approved")
      (classroom "25.00" "0.00" [snack "approved" (Some "t1")])
    = (json (RequestJson (Some (snack "approved" (Some "t1")))), s')
    /\ accounts s' = [Account.mk 1 "s1" "25.00"; Account.mk 2 "s2" "0.00"]
    /\ transactions s' = [].
Proof.
  destruct (review_of_resolved_request
              (classroom "25.00" "0.00" [snack "approved" (Some "t1")])
              "t1" 1 (snack "approved" (Some "t1")))
    as (s' & H1 & _ & H2 & H3).
  - apply classroom_teacher.
  - reflexivity.
  - discriminate.
  - exists s'. split; [exact H1|]. split; [exact H2|exact H3].
Defined.

(** Against C8 as stated, on the server: a paycheck of -5.00 posted
    to the route is carried out. *)
Lemma negative_paycheck_accepted :
  ~ positive_number (parseFloat "-5.00")
  /\ post_distribute_paycheck "t1" (Str "-5.00") (classroom "30.00" "5.00" [])
     = (json (PaycheckJson "Paycheck of $-5.00 distributed to 2 students"
                [Transaction.mk 1 1 "paycheck" "-5.00" "Weekly Paycheck"
                   (Some "t1");
                 Transaction.mk 2 2 "paycheck" "-5.00" "Weekly Paycheck"
                   (Some "t1")]),
        {| users := [teacher; alice; bob];
           accounts := [Account.mk 1 "s1" "25.00"; Account.mk 2 "s2" "0.00"];
           transactions :=
             [Transaction.mk 1 1 "paycheck" "-5.00" "Weekly Paycheck"
                (Some "t1");
              Transaction.mk 2 2 "paycheck" "-5.00" "Weekly Paycheck"
                (Some "t1")];
           withdrawalRequests := [];
           transactions_seq := 3;
           withdrawalRequests_seq := 2 |}).
Proof.
  split; [|vm_compute; reflexivity].
  intros [H|(q & H & Hq)]; [discriminate|].
  vm_compute in H. injection H as <-. discriminate Hq.
Qed.

Lemma forms_refuse_invalid_amounts_witness :
  (exists title text,
     client.submit_paycheck "t1" "-5.00" (classroom "30.00" "5.00" [])
     = (client.Refused title text, classroom "30.00" "5.00" []))
  /\ (exists title text,
        client.submit_rent "t1" "-5.00" (classroom "30.00" "5.00" [])
        = (client.Refused title text, classroom "30.00" "5.00" []))
  /\ (exists title text,
        client.submit_adjustment "t1" "-5.00" "fine"
          (Some {| client.sp_id := "s1"; client.sp_balance := "30.00" |})
          "add" (classroom "30.00" "5.00" [])
        = (client.Refused title text, classroom "30.00" "5.00" [])).
Proof.
  apply (forms_refuse_invalid_amounts (classroom "30.00" "5.00" []) "t1"
           "-5.00" "fine" "add").
  intros [H|(q & H & Hq)]; [discriminate|].
  vm_compute in H. injection H as <-. discriminate Hq.
Defined.

Lemma subtract_beyond_balance_rejected_witness :
  post_adjust_balance "t1"
    {| ab_studentId := Str "s1"; ab_amount := Str "150.00";
       ab_description := Str "fine"; ab_type := Str "subtract" |}
    (classroom "100.00" "0.00" [])
  = (status_json 400 "Balance cannot be negative",
     classroom "100.00" "0.00" []).
Proof.
  apply (subtract_beyond_balance_rejected (classroom "100.00" "0.00" [])
           "t1" "s1" "150.00" "fine" (Account.mk 1 "s1" "100.00")
           10000 15000).
  - apply classroom_teacher.
  - apply classroom_alice.
  - reflexivity.
  - reflexivity.
  - reflexivity.
  - now apply column_cents.
  - now apply column_cents.
  - lia.
Defined.

Lemma request_beyond_balance_rejected_witness :
  post_withdrawal_requests "s1"
    {| wb_accountId := Num 1; wb_amount := Str "30.00";
       wb_reason := Str "snack" |}
    (classroom "25.00" "0.00" [])
  = (status_json 400 "Insufficient balance", classroom "25.00" "0.00" []).
Proof.
  apply (request_beyond_balance_rejected (classroom "25.00" "0.00" []) "s1"
           1 "30.00" "snack" (Account.mk 1 "s1" "25.00") 2500 3000).
  - apply classroom_alice.
  - reflexivity.
  - reflexivity.
  - reflexivity.
  - now apply column_cents.
  - now apply column_cents.
  - lia.
Defined.

(** The scenario of the specification: 30.00 on the account, a rent of
    50.00. *)
Example rent_scenario :
  post_collect_rent "t1" (Str "50.00") (classroom "30.00" "0.00" [])
  = (json (RentJson "Monthly rent collected from 1 students"
             [Transaction.mk 1 1 "rent" "-30.00" "Monthly Rent" (Some "t1")]
             1),
     {| users := [teacher; alice; bob];
        accounts := [Account.mk 1 "s1" "0.00"; Account.mk 2 "s2" "0.00"];
        transactions :=
          [Transaction.mk 1 1 "rent" "-30.00" "Monthly Rent" (Some "t1")];
        withdrawalRequests := [];
        transactions_seq := 2;
        withdrawalRequests_seq := 2 |}).
Proof. vm_compute. reflexivity. Qed.

Lemma alice_student b1 b2 rs :
  In (Account.mk 1 "s1" b1) (student_accounts (classroom b1 b2 rs)).
Proof. now left. Qed.

Lemma bob_student b1 b2 rs :
  In (Account.mk 2 "s2" b2) (student_accounts (classroom b1 b2 rs)).
Proof. right. now left. Qed.

Lemma rent_collection_witness :
  exists created n s' x',
    post_collect_rent "t1" (Str "50.00") (classroom "30.00" "0.00" [])
    = (json (RentJson (rent_message n) created n), s')
    /\ account_by_id s' 1 = Some x'
    /\ Account.balance x' = "0.00"
    /\ exists z, transactions_of 1 created
                 = [Transaction.mk z 1 "rent" "-30.00" "Monthly Rent"
                      (Some "t1")].
Proof.
  destruct (rent_collection (classroom "30.00" "0.00" []) "t1" "50.00" 5000)
    as (created & n & s' & H1 & _ & H3).
  - apply classroom_keys.
  - apply classroom_students.
  - apply classroom_teacher.
  - reflexivity.
  - lia.
  - now apply column_cents.
  - destruct (H3 (Account.mk 1 "s1" "30.00") 3000)
      as (x' & Hx & _ & _ & H4).
    + apply alice_student.
    + reflexivity.
    + lia.
    + now apply column_cents.
    + destruct H4 as (Hb & z & Hz); [lia|].
      exists created, n, s', x'. split; [exact H1|]. split; [exact Hx|].
      split; [exact Hb|]. exists z. exact Hz.
Defined.

Lemma paycheck_distribution_witness :
  exists created s',
    post_distribute_paycheck "t1" (Str "10.00") (classroom "30.00" "0.00" [])
    = (json (PaycheckJson (paycheck_message "10.00" 2) created), s')
    /\ length created = 2%nat
    /\ account_by_id s' 1 = Some (Account.mk 1 "s1" "40.00")
    /\ account_by_id s' 2 = Some (Account.mk 2 "s2" "10.00").
Proof.
  destruct (paycheck_distribution (classroom "30.00" "0.00" []) "t1" "10.00"
              1000)
    as (created & s' & H1 & _ & H2 & _ & H3).
  - apply classroom_keys.
  - apply classroom_students.
  - apply classroom_teacher.
  - split; [now apply column_cents|reflexivity].
  - intros x [<-|[<-|[]]].
    + exists 3000. split; [split|]; [now apply column_cents|reflexivity|].
      now apply column_cents.
    + exists 0. split; [split|]; [now apply column_cents|reflexivity|].
      now apply column_cents.
  - exists created, s'. split; [exact H1|]. split; [exact H2|]. split.
    + apply (H3 (Account.mk 1 "s1" "30.00") 3000).
      * apply alice_student.
      * reflexivity.
    + apply (H3 (Account.mk 2 "s2" "0.00") 0).
      * apply bob_student.
      * reflexivity.
Defined.

Lemma rent_skips_empty_accounts_witness :
  exists created s',
    post_collect_rent "t1" (Str "50.00") (classroom "30.00" "0.00" [])
    = (json (RentJson (rent_message (N.of_nat (length created))) created
                      (N.of_nat (length created))), s')
    /\ transactions_of 2 created = []
    /\ account_by_id s' 2 = Some (Account.mk 2 "s2" "0.00")
    /\ length created = 1%nat.
Proof.
  destruct (rent_skips_empty_accounts (classroom "30.00" "0.00" []) "t1"
              "50.00")
    as (_ & created & s' & H1 & _ & H2 & _ & H3).
  - apply classroom_keys.
  - apply classroom_students.
  - apply classroom_teacher.
  - exists created, s'. split; [exact H1|].
    destruct (H2 (Account.mk 2 "s2" "0.00")) as [Ht Ha].
    + right. now left.
    + reflexivity.
    + split; [exact Ht|]. split; [exact Ha|].
      apply (H3 5000).
      * reflexivity.
      * lia.
      * now apply column_cents.
      * intros x [<-|[<-|[]]].
        -- exists 3000. split; [reflexivity|now apply column_cents].
        -- exists 0. split; [reflexivity|now apply column_cents].
Defined.

Ltac amount_of_form :=
  split; [now apply column_cents|reflexivity].



Example week_ends :
  accounts (mutate_all week (classroom "0.00" "0.00" [snack "pending" None]))
  = [Account.mk 1 "s1" "22.50"; Account.mk 2 "s2" "5.00"].
Proof. vm_compute. reflexivity. Qed.


(** ** The number model on examples *)

Example parseFloat_25 : JS.parseFloat "25.00" = JS.Fin 25.
Proof. reflexivity. Qed.
Example parseFloat_neg : JS.parseFloat "  -12.5e1abc" = JS.Fin (-125).
Proof. reflexivity. Qed.
Example parseFloat_frac : JS.parseFloat ".5" = JS.Fin (1 # 2).
Proof. reflexivity. Qed.
Example parseFloat_abc : JS.parseFloat "abc" = JS.NaN.
Proof. reflexivity. Qed.
Example parseFloat_dot : JS.parseFloat "." = JS.NaN.
Proof. reflexivity. Qed.
Example parseFloat_1e : JS.parseFloat "1e" = JS.Fin 1.
Proof. reflexivity. Qed.
Example parseFloat_tenth :
  JS.parseFloat "0.1" = JS.Fin (3602879701896397 # 36028797018963968).
Proof. vm_compute. reflexivity. Qed.
Example parseFloat_huge : JS.parseFloat "1e309" = JS.Inf false.
Proof. vm_compute. reflexivity. Qed.
Example add_tenths :
  JS.add (JS.parseFloat "0.1") (JS.parseFloat "0.2")
  = JS.Fin (1351079888211149 # 4503599627370496).
Proof. vm_compute. reflexivity. Qed.
Example add_tenths_drifts :
  JS.lt (JS.parseFloat "0.3")
        (JS.add (JS.parseFloat "0.1") (JS.parseFloat "0.2")) = true.
Proof. vm_compute. reflexivity. Qed.
Example toFixed_tenths :
  JS.toFixed2 (JS.add (JS.parseFloat "0.10") (JS.parseFloat "0.20")) = "0.30".
Proof. vm_compute. reflexivity. Qed.
Example toFixed_0 : JS.toFixed2 (JS.Fin 0) = "0.00".
Proof. reflexivity. Qed.
Example toFixed_neg : JS.toFixed2 (JS.parseFloat "-0.001") = "-0.00".
Proof. vm_compute. reflexivity. Qed.
Example toFixed_1005 : JS.toFixed2 (JS.parseFloat "1.005") = "1.00".
Proof. vm_compute. reflexivity. Qed.
Example toFixed_big : JS.toFixed2 (JS.parseFloat "12e20") = "1.2e+21".
Proof. vm_compute. reflexivity. Qed.
Example toFixed_1234 : JS.toFixed2 (JS.parseFloat "1234.56") = "1234.56".
Proof. vm_compute. reflexivity. Qed.

(** Outside the whole cents the texts are no longer two-decimal: the routes
    take any string, and an amount that is not a number is written as it
    prints. *)
Example unparsable_paycheck :
  write (paycheck_effect "t1" "abc" (Account.mk 1 "s1" "30.00"))
  = Some "NaN".
Proof. reflexivity. Qed.

(** * Properties of the rest of the code *)

Import DatabaseStorage api components.

(** ** [toFixed(2)] and [parseFloat] on their own *)

Section Printing.

Local Open Scope Q_scope.

Lemma rounded_cents_nonneg q : (0 <= Qfloor (Qabs q * 100 + (1 # 2)))%Z.
Proof.
  change 0%Z with (Qfloor 0). apply Qfloor_resp_le.
  pose proof (Qabs_nonneg q). lra.
Qed.

(** Below 10^21, [toFixed(2)] prints a sign and the text of the nearest
    number of cents. *)
Lemma toFixed2_small q :
  Qabs q < inject_Z (10 ^ 21) ->
  toFixed2 (Fin q)
  = ((if Qltb q 0 then "-" else "")
     ++ fixed_text (Qfloor (Qabs q * 100 + (1 # 2))))%string.
Proof.
  intros H. pose proof (rounded_cents_nonneg q) as Hn.
  unfold toFixed2, fixed_text.
  replace (Qle_bool (inject_Z (10 ^ 21)) (Qabs q)) with false
    by (symmetry; apply Qltb_true in H; unfold Qltb in H;
        now apply negb_true_iff in H).
  replace (Qfloor (Qabs q * 100 + (1 # 2)) <? 0)%Z with false
    by (symmetry; apply Z.ltb_ge; exact Hn).
  rewrite Z.abs_eq by exact Hn. reflexivity.
Qed.

End Printing.

(** The text [toFixed(2)] prints for a finite number below 10^21 has
    exactly two fractional digits, and it reads back as the whole number of
    cents nearest to the number, a half going away from zero. *)
Theorem toFixed2_rounds_to_cents (q : Q) :
  (Qabs q < inject_Z (10 ^ 21))%Q ->
  let n := Qfloor (Qabs q * 100 + (1 # 2)) in
  two_decimals (toFixed2 (Fin q)) = true
  /\ denotes (toFixed2 (Fin q)) (if Qltb q 0 then - n else n).
Proof.
  intros H n. rewrite (toFixed2_small q H). fold n.
  pose proof (rounded_cents_nonneg q) as Hn. fold n in Hn. split.
  - now apply two_decimals_signed.
  - now apply literal_value_signed.
Qed.

Lemma toFixed2_rounds_to_cents_witness :
  two_decimals (toFixed2 (Fin (- (12345 # 1000)))) = true
  /\ denotes (toFixed2 (Fin (- (12345 # 1000)))) (- 1235).
Proof.
  apply (toFixed2_rounds_to_cents (- (12345 # 1000))). reflexivity.
Defined.

(** Parsing a text that denotes a whole number of cents and printing the
    double again gives the two-decimal text of the same cents: the text of
    a balance survives the round trip through a double, and a text such as
    [5] comes back as [5.00]. *)
Theorem parse_then_print (s : string) (c : Z) :
  denotes s c -> wide c -> toFixed2 (parseFloat s) = fixed_text c.
Proof.
  intros Hs W. rewrite (parseFloat_denotes s c Hs W).
  apply toFixed2_rep; [now apply dbl_rep|exact W].
Qed.

Lemma parse_then_print_witness :
  toFixed2 (parseFloat "5") = fixed_text 500
  /\ toFixed2 (parseFloat (fixed_text (- 1999))) = fixed_text (- 1999).
Proof.
  split.
  - apply (parse_then_print "5" 500); [reflexivity|].
    unfold wide. lia.
  - apply (parse_then_print (fixed_text (- 1999)) (- 1999)); [reflexivity|].
    unfold wide. lia.
Defined.

(** ** What the forms send *)

Section Forms.

Local Open Scope Q_scope.

Lemma valid_is_positive q :
  client.invalid_amount (Fin q) = false -> 0 < q.
Proof.
  unfold client.invalid_amount. cbn [isNaN orb JS.le zero]. intros E.
  apply Qnot_le_lt. intros Hle. apply Qle_bool_iff in Hle. congruence.
Qed.

(** The text sent for a positive number that fits the column after
    rounding. *)
Lemma sent_amount q :
  0 < q -> q < 99999999995 # 1000 -> form_amount (toFixed2 (Fin q)).
Proof.
  intros Hpos Hlt.
  assert (Ha : Qabs q == q) by (apply Qabs_pos; lra).
  assert (Hsmall : Qabs q < inject_Z (10 ^ 21)).
  { rewrite Ha. change (inject_Z (10 ^ 21)) with 1000000000000000000000.
    lra. }
  pose proof (rounded_cents_nonneg q) as Hn.
  exists (Qfloor (Qabs q * 100 + (1 # 2))). split; [exact Hn|]. split.
  - unfold in_column, column_limit. rewrite Z.abs_eq by exact Hn.
    rewrite Zlt_Qlt.
    apply Qle_lt_trans with (Qabs q * 100 + (1 # 2)); [apply Qfloor_le|].
    rewrite Ha. change (inject_Z (10 ^ 10)) with 10000000000. lra.
  - rewrite (toFixed2_small q Hsmall).
    replace (Qltb q 0) with false; [reflexivity|].
    symmetry. apply Qltb_false. lra.
Qed.

End Forms.

(** An amount that passes the check of a form leaves it as the two-decimal
    text of a whole number of cents that is not negative and fits the
    [decimal(10,2)] column, provided the number typed does: this holds of
    the paycheck, rent and adjustment forms, of the withdrawal form, and of
    the two forms of the quick actions. *)
Theorem forms_send_whole_cents (amount text kind balance : string)
  (student : option client.StudentProp) (q : Q) :
  parseFloat amount = Fin q -> (q < 99999999995 # 1000)%Q ->
  (forall a, client.PaycheckModal_handleSubmit amount = client.Mutate a ->
             form_amount a)
  /\ (forall a, client.RentCollectionModal_handleSubmit amount
                = client.Mutate a -> form_amount a)
  /\ (forall body,
        client.AdjustBalanceModal_handleSubmit amount text student kind
        = client.Mutate body ->
        exists a, ab_amount body = Str a /\ form_amount a)
  /\ (forall body,
        WithdrawalModal_handleSubmit amount text balance
        = client.Mutate body ->
        exists a, wb_amount body = Str a /\ form_amount a)
  /\ (forall body,
        QuickActionsModal_handleCustomAction student amount text
        = client.Mutate body ->
        exists a, ab_amount body = Str a /\ form_amount a)
  /\ (forall body,
        QuickActionsModal_handleCreateCustomAction text amount kind
        = client.Mutate body ->
        exists a, cb_amount body = Str a /\ form_amount a).
Proof.
  intros Hq Hlt.
  assert (Hsend : client.invalid_amount (Fin q) = false ->
                  form_amount (toFixed2 (Fin q))).
  { intros E. apply sent_amount; [now apply valid_is_positive|exact Hlt]. }
  split; [|split; [|split; [|split; [|split]]]].
  - intros a. unfold client.PaycheckModal_handleSubmit. rewrite Hq.
    destruct (amount =? "")%string; [discriminate|].
    destruct (client.invalid_amount (Fin q)); [discriminate|].
    intros [= <-]. now apply Hsend.
  - intros a. unfold client.RentCollectionModal_handleSubmit. rewrite Hq.
    destruct (amount =? "")%string; [discriminate|].
    destruct (client.invalid_amount (Fin q)); [discriminate|].
    intros [= <-]. now apply Hsend.
  - intros body. unfold client.AdjustBalanceModal_handleSubmit. rewrite Hq.
    destruct student as [st|]; [|discriminate].
    destruct (_ || _)%bool; [discriminate|].
    destruct (client.invalid_amount (Fin q)); [discriminate|].
    destruct (_ && _)%bool; [discriminate|].
    intros [= <-]. exists (toFixed2 (Fin q)). split; [reflexivity|].
    now apply Hsend.
  - intros body. unfold WithdrawalModal_handleSubmit. rewrite Hq.
    destruct (_ || _)%bool; [discriminate|]. cbv zeta.
    destruct (client.invalid_amount (Fin q)); [discriminate|].
    destruct (JS.gt _ _); [discriminate|].
    intros [= <-]. exists (toFixed2 (Fin q)). split; [reflexivity|].
    now apply Hsend.
  - intros body. unfold QuickActionsModal_handleCustomAction. rewrite Hq.
    destruct (_ || _)%bool; [discriminate|]. cbv zeta.
    destruct (client.invalid_amount (Fin q)); [discriminate|].
    unfold QuickActionsModal_quickActionMutation.
    destruct student as [st|]; [|discriminate].
    intros [= <-]. exists (toFixed2 (Fin q)). split; [reflexivity|].
    now apply Hsend.
  - intros body. unfold QuickActionsModal_handleCreateCustomAction.
    rewrite Hq.
    destruct (_ || _)%bool; [discriminate|]. cbv zeta.
    destruct (client.invalid_amount (Fin q)); [discriminate|].
    intros [= <-]. exists (toFixed2 (Fin q)). split; [reflexivity|].
    now apply Hsend.
Qed.

Lemma forms_send_whole_cents_witness :
  client.PaycheckModal_handleSubmit "12.5" = client.Mutate "12.50"
  /\ form_amount "12.50".
Proof.
  split; [reflexivity|].
  refine (proj1 (forms_send_whole_cents "12.5" "chores" "add" "30.00" None
                   (25 # 2) _ _) "12.50" _); reflexivity.
Defined.

(** A number too small to round to a cent passes the check of the form
    all the same, and goes out as [0.00]. *)
Example tiny_paycheck_sent :
  client.PaycheckModal_handleSubmit "0.001" = client.Mutate "0.00".
Proof. vm_compute. reflexivity. Qed.

(** ** Requests that cannot succeed *)

Lemma request_without_account_id userId body s :
  wb_accountId body = Absent ->
  snd (post_withdrawal_requests userId body s) = s
  /\ (is_student s userId -> account_of s userId <> None ->
      fst (post_withdrawal_requests userId body s)
      = status_json 500 "Failed to create withdrawal request").
Proof.
  intros Hb. split.
  - unfold post_withdrawal_requests, try_catch.
    unfold bind at 1. unfold getUser.
    destruct (lacks_role _ "student"); [reflexivity|].
    unfold bind at 1. unfold getAccount.
    destruct (find _ (accounts s)); [|reflexivity].
    unfold insertWithdrawalRequestSchema_parse. rewrite Hb.
    reflexivity.
  - intros (u & Hu & Hr) Hacct. unfold post_withdrawal_requests, try_catch.
    unfold bind at 1. unfold getUser.
    rewrite Hu. cbn [lacks_role]. rewrite Hr.
    cbn [String.eqb Ascii.eqb Bool.eqb negb].
    unfold bind at 1. unfold getAccount. unfold account_of in Hacct.
    destruct (find _ (accounts s)); [|contradiction].
    unfold insertWithdrawalRequestSchema_parse. rewrite Hb.
    reflexivity.
Qed.

Lemma withdrawal_form_body amount reason currentBalance body :
  WithdrawalModal_handleSubmit amount reason currentBalance
  = client.Mutate body ->
  wb_accountId body = Absent.
Proof.
  unfold WithdrawalModal_handleSubmit.
  destruct (_ || _)%bool; [discriminate|]. cbv zeta.
  destruct (client.invalid_amount _); [discriminate|].
  destruct (JS.gt _ _); [discriminate|].
  now intros [= <-].
Qed.

(** The withdrawal form never files a request: the body it sends has no
    [accountId], which the schema of the route requires, so whatever is
    typed the store stays as it is; and when the form lets the request
    through for a student who has an account, the answer is 500. *)
Theorem withdrawal_form_never_files (userId amount reason balance : string)
  (s : Store) :
  snd (submit_withdrawal userId amount reason balance s) = s
  /\ (forall body,
        WithdrawalModal_handleSubmit amount reason balance
        = client.Mutate body ->
        is_student s userId -> account_of s userId <> None ->
        fst (submit_withdrawal userId amount reason balance s)
        = client.Answered
            (status_json 500 "Failed to create withdrawal request")).
Proof.
  unfold submit_withdrawal, client.send.
  destruct (WithdrawalModal_handleSubmit amount reason balance)
    as [title text|body] eqn:E.
  - split; [reflexivity|discriminate].
  - pose proof (withdrawal_form_body _ _ _ _ E) as Hb.
    destruct (request_without_account_id userId body s Hb) as [H1 H2].
    destruct (post_withdrawal_requests userId body s) as [r s'].
    cbn [fst snd] in *. split; [exact H1|].
    intros body' _ Hs Ha. now rewrite (H2 Hs Ha).
Qed.

(** Alice holds 30.00 and asks for 10.00. *)
Example withdrawal_form_scenario :
  submit_withdrawal "s1" "10" "snack" "30.00" (classroom "30.00" "0.00" [])
  = (client.Answered
       (status_json 500 "Failed to create withdrawal request"),
     classroom "30.00" "0.00" []).
Proof. vm_compute. reflexivity. Qed.

Lemma adjustment_without_student_id userId body s :
  ab_studentId body = Absent ->
  snd (post_adjust_balance userId body s) = s
  /\ (is_teacher s userId ->
      fst (post_adjust_balance userId body s)
      = status_json 500 "Failed to adjust balance").
Proof.
  intros Hb. split.
  - unfold post_adjust_balance, try_catch.
    unfold bind at 1. unfold getUser.
    destruct (lacks_role _ "teacher"); [reflexivity|].
    rewrite Hb. reflexivity.
  - intros (u & Hu & Hr). unfold post_adjust_balance, try_catch.
    unfold bind at 1. unfold getUser.
    rewrite Hu. cbn [lacks_role]. rewrite Hr.
    cbn [String.eqb Ascii.eqb Bool.eqb negb]. rewrite Hb. reflexivity.
Qed.

Lemma quick_action_body student amount description type body :
  QuickActionsModal_quickActionMutation student amount description type
  = client.Mutate body ->
  ab_studentId body = Absent.
Proof.
  unfold QuickActionsModal_quickActionMutation.
  destruct student; [|discriminate]. now intros [= <-].
Qed.

Lemma quick_action_sent userId form s :
  (forall body, form = client.Mutate body -> ab_studentId body = Absent) ->
  snd (client.send form (post_adjust_balance userId) s) = s
  /\ (forall body, form = client.Mutate body -> is_teacher s userId ->
      fst (client.send form (post_adjust_balance userId) s)
      = client.Answered (status_json 500 "Failed to adjust balance")).
Proof.
  intros Hform. unfold client.send. destruct form as [title text|body].
  - split; [reflexivity|discriminate].
  - destruct (adjustment_without_student_id userId body s
                (Hform body eq_refl)) as [H1 H2].
    destruct (post_adjust_balance userId body s) as [r s'].
    cbn [fst snd] in *. split; [exact H1|].
    intros body' _ Ht. now rewrite (H2 Ht).
Qed.

(** No quick action changes a balance: the request of the quick actions
    names the student under [userId], the route reads [studentId], so the
    body fails the schema.  Whatever button is pressed or custom amount
    typed, the store stays as it is, and a teacher gets 500 for a request
    that is sent. *)
Theorem quick_actions_change_nothing (userId : string)
  (student : option client.StudentProp) (amount description type : string)
  (s : Store) :
  snd (submit_quick_action userId student amount description type s) = s
  /\ snd (submit_custom_action userId student amount description s) = s
  /\ (is_teacher s userId ->
      (student <> None ->
       fst (submit_quick_action userId student amount description type s)
       = client.Answered (status_json 500 "Failed to adjust balance"))
      /\ (forall body,
            QuickActionsModal_handleCustomAction student amount description
            = client.Mutate body ->
            fst (submit_custom_action userId student amount description s)
            = client.Answered (status_json 500 "Failed to adjust balance"))).
Proof.
  assert (Hc : forall body,
             QuickActionsModal_handleCustomAction student amount description
             = client.Mutate body -> ab_studentId body = Absent).
  { intros body. unfold QuickActionsModal_handleCustomAction.
    destruct (_ || _)%bool; [discriminate|]. cbv zeta.
    destruct (client.invalid_amount _); [discriminate|].
    apply quick_action_body. }
  destruct (quick_action_sent userId _ s
              (quick_action_body student amount description type))
    as [Q1 Q2].
  destruct (quick_action_sent userId _ s Hc) as [C1 C2].
  split; [exact Q1|]. split; [exact C1|].
  intros Ht. split.
  - intros Hst. destruct student as [st|]; [|contradiction].
    now apply (Q2 _ eq_refl).
  - intros body Hb. now apply (C2 body).
Qed.

(** The teacher presses the reward Class Helper for Alice. *)
Example quick_action_scenario :
  submit_quick_action "t1"
    (Some {| client.sp_id := "s1"; client.sp_balance := "30.00" |})
    "10.00" "Class Helper" "add" (classroom "30.00" "0.00" [])
  = (client.Answered (status_json 500 "Failed to adjust balance"),
     classroom "30.00" "0.00" []).
Proof. vm_compute. reflexivity. Qed.

(** ** Amounts above the balance shown, and amounts on display *)

Lemma denotes_not_empty s c : denotes s c -> (s =? "")%string = false.
Proof.
  intros H. destruct (s =? "")%string eqn:E; [|reflexivity].
  apply String.eqb_eq in E. subst s. discriminate H.
Qed.

Lemma positive_cents_valid a :
  wide a -> 0 < a -> client.invalid_amount (Fin (dbl a)) = false.
Proof.
  intros W Ha. unfold client.invalid_amount. cbn [isNaN orb JS.le zero].
  destruct (rep_sign _ _ (dbl_rep a W)) as [[-> _]|[(_ & _ & Hq)|(L & _)]];
    try lia.
  destruct (Qle_bool (dbl a) 0) eqn:E; [|reflexivity].
  apply Qle_bool_iff in E. exfalso. revert E. now apply Qlt_not_le.
Qed.

(** The adjustment form, asked to subtract, and the withdrawal form stop an
    amount of more cents than the balance they show: the toast says so and
    no request is sent. *)
Theorem forms_refuse_overdraw (amount text balance studentId : string)
  (a b : Z) :
  denotes amount a -> denotes balance b -> wide a -> wide b ->
  0 < a -> b < a -> text <> "" ->
  client.AdjustBalanceModal_handleSubmit amount text
    (Some {| client.sp_id := studentId; client.sp_balance := balance |})
    "subtract"
  = client.Toast "Insufficient Balance"
      "Cannot subtract more than the current balance."
  /\ WithdrawalModal_handleSubmit amount text balance
     = client.Toast "Insufficient Balance"
         "You cannot withdraw more than your current balance.".
Proof.
  intros Ha Hb Wa Wb Hpos Hlt Ht.
  assert (Et : (text =? "")%string = false) by now apply String.eqb_neq.
  assert (Hgt : JS.gt (Fin (dbl a)) (Fin (dbl b)) = true).
  { rewrite gt_dbl by assumption. now apply Z.ltb_lt. }
  split.
  - unfold client.AdjustBalanceModal_handleSubmit.
    rewrite (denotes_not_empty _ _ Ha), Et. cbn [orb]. cbv zeta.
    rewrite (parseFloat_denotes _ _ Ha Wa).
    rewrite (positive_cents_valid a Wa Hpos).
    cbn [client.sp_balance]. rewrite (parseFloat_denotes _ _ Hb Wb), Hgt.
    reflexivity.
  - unfold WithdrawalModal_handleSubmit.
    rewrite (denotes_not_empty _ _ Ha), Et. cbn [orb]. cbv zeta.
    rewrite (parseFloat_denotes _ _ Ha Wa), (parseFloat_denotes _ _ Hb Wb).
    rewrite (positive_cents_valid a Wa Hpos), Hgt. reflexivity.
Qed.

Lemma forms_refuse_overdraw_witness :
  client.AdjustBalanceModal_handleSubmit "150" "late homework"
    (Some {| client.sp_id := "s1"; client.sp_balance := "100.00" |})
    "subtract"
  = client.Toast "Insufficient Balance"
      "Cannot subtract more than the current balance."
  /\ WithdrawalModal_handleSubmit "150" "late homework" "100.00"
     = client.Toast "Insufficient Balance"
         "You cannot withdraw more than your current balance.".
Proof.
  apply (forms_refuse_overdraw "150" "late homework" "100.00" "s1"
           15000 10000); try reflexivity; try (unfold wide; lia).
  discriminate.
Defined.

Section Display.

Local Open Scope Q_scope.

Lemma abs_rep q c : rep q c -> (c < 0)%Z -> rep (Qabs q) (- c).
Proof.
  intros H Hc. destruct (rep_sign q c H) as [[-> _]|[(L & _)|(_ & _ & Hq)]];
    try lia.
  assert (E : Qabs q == - q) by (apply Qabs_neg; lra).
  destruct H as [_ Hn]. split; [lia|].
  apply Qabs_Qle_condition in Hn. apply Qabs_Qle_condition.
  rewrite E, inject_Z_opp. lra.
Qed.

Lemma ge_zero_dbl c : wide c -> JS.ge (Fin (dbl c)) zero = (0 <=? c)%Z.
Proof.
  intros W. unfold JS.ge. cbn [JS.le zero].
  destruct (rep_sign _ _ (dbl_rep c W))
    as [[-> E]|[(L & _ & Hq)|(L & _ & Hq)]].
  - reflexivity.
  - replace (0 <=? c)%Z with true by (symmetry; apply Z.leb_le; lia).
    apply Qle_bool_iff. lra.
  - replace (0 <=? c)%Z with false by (symmetry; apply Z.leb_gt; lia).
    destruct (Qle_bool 0 (dbl c)) eqn:E; [|reflexivity].
    apply Qle_bool_iff in E. lra.
Qed.

End Display.

(** The student dashboard shows a transaction of [c] cents in green with
    [+$] before its own text when [c] is not negative, and in red with
    [-$] before the two-decimal text of [-c] otherwise: the minus sign
    moves in front of the dollar sign. *)
Theorem dashboard_amounts (amount : string) (c : Z) :
  denotes amount c -> wide c ->
  formatAmount amount
  = (if 0 <=? c then "+$" ++ amount else "-$" ++ fixed_text (- c))
  /\ getTransactionColor amount
     = (if 0 <=? c then "text-green-600" else "text-red-600").
Proof.
  intros Ha W. unfold formatAmount, getTransactionColor. cbv zeta.
  rewrite (parseFloat_denotes _ _ Ha W), (ge_zero_dbl c W).
  split; [|reflexivity].
  destruct (0 <=? c) eqn:E; [reflexivity|]. apply Z.leb_gt in E.
  cbn [Math_abs]. f_equal.
  apply toFixed2_rep; [|unfold wide in *; lia].
  apply abs_rep; [now apply dbl_rep|exact E].
Qed.

Lemma dashboard_amounts_witness :
  formatAmount "-30.00" = "-$30.00"
  /\ getTransactionColor "-30.00" = "text-red-600".
Proof.
  apply (dashboard_amounts "-30.00" (- 3000)); [reflexivity|].
  unfold wide. lia.
Defined.

(** ** Roles *)

Lemma not_teacher_lacks s userId :
  ~ is_teacher s userId ->
  lacks_role (find (fun u => User.id u =? userId)%string (users s)) "teacher"
  = true.
Proof.
  intros H. destruct (find _ (users s)) as [u|] eqn:F; [|reflexivity].
  cbn [lacks_role]. destruct (User.role u =? "teacher")%string eqn:E;
    [|reflexivity].
  exfalso. apply H. exists u. split; [exact F|now apply String.eqb_eq].
Qed.

Lemma not_student_lacks s userId :
  ~ is_student s userId ->
  lacks_role (find (fun u => User.id u =? userId)%string (users s)) "student"
  = true.
Proof.
  intros H. destruct (find _ (users s)) as [u|] eqn:F; [|reflexivity].
  cbn [lacks_role]. destruct (User.role u =? "student")%string eqn:E;
    [|reflexivity].
  exfalso. apply H. exists u. split; [exact F|now apply String.eqb_eq].
Qed.

(** A caller who is not on file as a teacher gets 403 from every route of
    the teacher, whatever the request says, and the database stays as it
    is: paycheck, rent, adjustment, review of a request, the list of
    pending requests and the three routes of the custom actions. *)
Theorem teacher_routes_forbidden (d : Database) (userId : string)
  (amount status : Json) (adjustment : AdjustBody) (action : ActionBody)
  (id : Z) :
  ~ is_teacher (tables d) userId ->
  let s := tables d in
  post_distribute_paycheck userId amount s
  = (status_json 403 "Only teachers can distribute paychecks", s)
  /\ post_collect_rent userId amount s
     = (status_json 403 "Only teachers can collect rent", s)
  /\ post_adjust_balance userId adjustment s
     = (status_json 403 "Only teachers can adjust balances", s)
  /\ patch_withdrawal_request userId id status s
     = (status_json 403 "Only teachers can approve/deny requests", s)
  /\ get_pending_requests userId s
     = (Status 403 "Only teachers can view withdrawal requests", s)
  /\ get_custom_actions userId d
     = (Status 403 "Only teachers can view custom actions", d)
  /\ post_custom_actions userId action d
     = (Status 403 "Only teachers can create custom actions", d)
  /\ delete_custom_action userId id d
     = (Status 403 "Only teachers can delete custom actions", d).
Proof.
  intros H s. pose proof (not_teacher_lacks s userId H) as L.
  assert (Hd : with_tables (tables d) d = d) by now destruct d.
  repeat split.
  - unfold post_distribute_paycheck, try_catch, bind, getUser.
    now rewrite L.
  - unfold post_collect_rent, try_catch, bind, getUser. now rewrite L.
  - unfold post_adjust_balance, try_catch, bind, getUser. now rewrite L.
  - unfold patch_withdrawal_request, try_catch, bind, getUser.
    now rewrite L.
  - unfold get_pending_requests, try_reply, bind, getUser. now rewrite L.
  - unfold get_custom_actions, try_replyD, bindD, on_tables, getUser.
    fold s. rewrite L. unfold retD, s. now rewrite Hd.
  - unfold post_custom_actions, try_replyD, bindD, on_tables, getUser.
    fold s. rewrite L. unfold retD, s. now rewrite Hd.
  - unfold delete_custom_action, try_replyD, bindD, on_tables, getUser.
    fold s. rewrite L. unfold retD, s. now rewrite Hd.
Qed.

Lemma teacher_routes_forbidden_witness :
  post_distribute_paycheck "s1" (Str "1000000.00") (tables school)
  = (status_json 403 "Only teachers can distribute paychecks", tables school)
  /\ delete_custom_action "s1" 1 school
     = (Status 403 "Only teachers can delete custom actions", school).
Proof.
  destruct (teacher_routes_forbidden school "s1" (Str "1000000.00") Absent
              {| ab_studentId := Absent; ab_amount := Absent;
                 ab_description := Absent; ab_type := Absent |}
              {| cb_teacherId := Absent; cb_name := Absent;
                 cb_amount := Absent; cb_type := Absent |} 1)
    as (H1 & _ & _ & _ & _ & _ & _ & H8).
  - intros (u & Hu & Hr). vm_compute in Hu. injection Hu as <-.
    discriminate Hr.
  - split; [exact H1|exact H8].
Defined.

(** ** Filing a withdrawal request *)

Lemma request_filed s userId accountId amount reason acct b a :
  is_student s userId -> account_of s userId = Some acct ->
  denotes (Account.balance acct) b -> denotes amount a ->
  in_column b -> in_column a -> a <= b ->
  post_withdrawal_requests userId
    {| wb_accountId := Num accountId; wb_amount := Str amount;
       wb_reason := Str reason |} s
  = (let row := WithdrawalRequest.mk (withdrawalRequests_seq s)
                  (Account.id acct) amount reason "pending" None in
     (json (RequestJson (Some row)),
      {| users := users s;
         accounts := accounts s;
         transactions := transactions s;
         withdrawalRequests := withdrawalRequests s ++ [row];
         transactions_seq := transactions_seq s;
         withdrawalRequests_seq := withdrawalRequests_seq s + 1 |})).
Proof.
  intros Hs Hacct Hb Ha Cb Ca Hle.
  destruct (student_passes s userId Hs) as (u & Hu & Hl & _).
  unfold post_withdrawal_requests, try_catch.
  unfold bind at 1. rewrite Hu, Hl.
  unfold bind at 1. unfold getAccount. unfold account_of in Hacct.
  rewrite Hacct.
  unfold insertWithdrawalRequestSchema_parse.
  cbn [wb_accountId wb_amount wb_reason z_number z_string].
  do 4 (unfold bind at 1; cbn [ret]).
  cbn [iw_amount iw_reason].
  rewrite (parseFloat_denotes _ _ Ha), (parseFloat_denotes _ _ Hb) by widen.
  rewrite gt_dbl by widen.
  replace (b <? a) with false by (symmetry; apply Z.ltb_ge; lia).
  reflexivity.
Qed.

(** A student's request for no more cents than the account holds is put on
    file as pending, with no reviewer, under the next identifier of the
    sequence and against the account of the caller, whatever account the
    body names; balances and transactions stay as they are.  The amount
    is the two-decimal text of the cents and the reason a text the
    database stores, so that the row on file is the row sent. *)
Theorem request_within_balance_filed (s : Store) (userId : string)
  (accountId : Z) (amount reason : string) (acct : Account.t) (b a : Z) :
  is_student s userId -> account_of s userId = Some acct ->
  column_text (Account.balance acct) b -> column_text amount a -> a <= b ->
  int4 accountId -> plain reason = true ->
  let row := WithdrawalRequest.mk (withdrawalRequests_seq s)
               (Account.id acct) amount reason "pending" None in
  exists s',
    post_withdrawal_requests userId
      {| wb_accountId := Num accountId; wb_amount := Str amount;
         wb_reason := Str reason |} s
    = (json (RequestJson (Some row)), s')
    /\ withdrawalRequests s' = (withdrawalRequests s ++ [row])%list
    /\ withdrawalRequests_seq s' = withdrawalRequests_seq s + 1
    /\ users s' = users s /\ accounts s' = accounts s
    /\ transactions s' = transactions s.
Proof.
  intros Hs Hacct Hbal Hamount Hle _ _ row.
  destruct (column_text_denotes _ _ Hbal) as [Hb Cb].
  destruct (column_text_denotes _ _ Hamount) as [Ha Ca].
  rewrite (request_filed s userId accountId amount reason acct b a)
    by assumption.
  cbv zeta. eexists. split; [reflexivity|]. now repeat split.
Qed.

Lemma request_within_balance_filed_witness :
  exists s',
    post_withdrawal_requests "s1"
      {| wb_accountId := Num 2; wb_amount := Str "10.00";
         wb_reason := Str "snack" |} (classroom "30.00" "50.00" [])
    = (json (RequestJson
               (Some (WithdrawalRequest.mk 2 1 "10.00" "snack" "pending"
                        None))), s')
    /\ accounts s' = accounts (classroom "30.00" "50.00" []).
Proof.
  destruct (request_within_balance_filed (classroom "30.00" "50.00" []) "s1"
              2 "10.00" "snack" (Account.mk 1 "s1" "30.00") 3000 1000)
    as (s' & H1 & _ & _ & _ & H5 & _).
  - apply classroom_alice.
  - reflexivity.
  - amount_of_form.
  - amount_of_form.
  - lia.
  - unfold int4. lia.
  - reflexivity.
  - exists s'. split; [exact H1|exact H5].
Defined.

Lemma pending_row_listed s r a u :
  In r (withdrawalRequests s) -> WithdrawalRequest.status r = "pending" ->
  In a (accounts s) -> Account.id a = WithdrawalRequest.accountId r ->
  In u (users s) -> User.id u = Account.userId a ->
  In {| request := r; p_user := Some u; p_account := Some a |}
     (flat_map (join_request s)
        (filter (fun r => WithdrawalRequest.status r =? "pending")%string
                (withdrawalRequests s))).
Proof.
  intros Hr Hp Ha Hid Hu Huid. apply in_flat_map. exists r. split.
  { apply filter_In. split; [exact Hr|]. now apply String.eqb_eq. }
  unfold join_request.
  assert (Fa : In a (filter (fun a => Account.id a
                                      =? WithdrawalRequest.accountId r)
                            (accounts s))).
  { apply filter_In. split; [exact Ha|]. now apply Z.eqb_eq. }
  destruct (filter _ (accounts s)) as [|a0 la] eqn:E; [contradiction|].
  apply in_flat_map. exists a. split; [exact Fa|].
  assert (Fu : In u (filter (fun u => User.id u =? Account.userId a)%string
                            (users s))).
  { apply filter_In. split; [exact Hu|]. now apply String.eqb_eq. }
  destruct (filter _ (users s)) as [|u0 lu] eqn:E'; [contradiction|].
  apply in_map_iff. exists u. split; [reflexivity|exact Fu].
Qed.

Lemma get_pending_requests_teacher s userId :
  is_teacher s userId ->
  get_pending_requests userId s
  = (Body (flat_map (join_request s)
             (filter (fun r => WithdrawalRequest.status r =? "pending")%string
                     (withdrawalRequests s))), s).
Proof.
  intros Ht. destruct (teacher_passes s userId Ht) as (u & Hu & Hl).
  unfold get_pending_requests, try_reply.
  unfold bind at 1. rewrite Hu, Hl. reflexivity.
Qed.

(** A request that has been filed reaches the teacher: the list of pending
    requests then holds it, joined to the account and to the student who
    filed it.  The amount is the two-decimal text of the cents and the
    reason a text the database stores. *)
Theorem filed_request_reaches_teacher (s : Store)
  (userId teacherId : string) (accountId : Z) (amount reason : string)
  (acct : Account.t) (b a : Z) :
  is_student s userId -> account_of s userId = Some acct ->
  column_text (Account.balance acct) b -> column_text amount a -> a <= b ->
  int4 accountId -> plain reason = true ->
  is_teacher s teacherId ->
  let s' := snd (post_withdrawal_requests userId
                   {| wb_accountId := Num accountId; wb_amount := Str amount;
                      wb_reason := Str reason |} s) in
  let row := WithdrawalRequest.mk (withdrawalRequests_seq s)
               (Account.id acct) amount reason "pending" None in
  exists l u,
    get_pending_requests teacherId s' = (Body l, s')
    /\ User.id u = userId
    /\ In {| request := row; p_user := Some u; p_account := Some acct |} l.
Proof.
  intros Hs Hacct Hbal Hamount Hle _ _ Ht s' row.
  destruct (column_text_denotes _ _ Hbal) as [Hb Cb].
  destruct (column_text_denotes _ _ Hamount) as [Ha Ca].
  unfold s'.
  rewrite (request_filed s userId accountId amount reason acct b a)
    by assumption.
  cbv zeta. cbn [snd]. fold row.
  destruct (student_passes s userId Hs) as (u & _ & _ & Hu & Huid).
  apply find_account_In in Hacct. destruct Hacct as [Hin Hown].
  eexists. exists u. split; [|split; [exact Huid|]].
  - apply get_pending_requests_teacher.
    destruct Ht as (t & Hf & Hr). exists t. now split.
  - apply pending_row_listed; cbn [withdrawalRequests accounts users];
      try assumption; try reflexivity.
    + apply in_or_app. right. now left.
    + now rewrite Hown.
Qed.

Lemma filed_request_reaches_teacher_witness :
  exists l u,
    get_pending_requests "t1"
      (snd (post_withdrawal_requests "s1"
              {| wb_accountId := Num 2; wb_amount := Str "10.00";
                 wb_reason := Str "snack" |} (classroom "30.00" "50.00" [])))
    = (Body l,
       snd (post_withdrawal_requests "s1"
              {| wb_accountId := Num 2; wb_amount := Str "10.00";
                 wb_reason := Str "snack" |} (classroom "30.00" "50.00" [])))
    /\ User.id u = "s1"
    /\ In {| request := WithdrawalRequest.mk 2 1 "10.00" "snack" "pending"
                          None;
             p_user := Some u;
             p_account := Some (Account.mk 1 "s1" "30.00") |} l.
Proof.
  apply (filed_request_reaches_teacher (classroom "30.00" "50.00" []) "s1"
           "t1" 2 "10.00" "snack" (Account.mk 1 "s1" "30.00") 3000 1000).
  - apply classroom_alice.
  - reflexivity.
  - amount_of_form.
  - amount_of_form.
  - lia.
  - unfold int4. lia.
  - reflexivity.
  - apply classroom_teacher.
Defined.

(** ** Reviewing a withdrawal request, in general *)

(** The review of a withdrawal request moves no money: whoever calls,
    whatever the identifier and the body, the users, the accounts with
    their balances and the transactions are after the call what they were
    before it; approving a pending request is no exception. *)
Theorem review_moves_no_money (s : Store) (userId : string) (requestId : Z)
  (status : Json) :
  let s' := snd (patch_withdrawal_request userId requestId status s) in
  users s' = users s /\ accounts s' = accounts s
  /\ transactions s' = transactions s
  /\ transactions_seq s' = transactions_seq s.
Proof.
  cbv zeta. rewrite patch_store.
  destruct (lacks_role _ _); [now repeat split|].
  destruct status; now repeat split.
Qed.




(** The status is not held to pending, approved and denied. *)
Example review_with_any_status :
  patch_withdrawal_request "t1" 1 (Str "lost")
    (classroom "25.00" "0.00" [snack "pending" None])
  = (json (RequestJson (Some (snack "lost" (Some "t1")))),
     classroom "25.00" "0.00" [snack "lost" (Some "t1")]).
Proof. vm_compute. reflexivity. Qed.




(** ** Manual adjustment, in general *)

Lemma find_set_balance studentId newBalance acct l :
  find (fun a => Account.userId a =? studentId)%string l = Some acct ->
  find (fun a => Account.userId a =? studentId)%string
       (map (set_balance studentId newBalance) l)
  = Some (Account.mk (Account.id acct) studentId newBalance).
Proof.
  induction l as [|x l IH]; [discriminate|]. intros H.
  cbn [map find] in *.
  destruct (Account.userId x =? studentId)%string eqn:E.
  - injection H as <-. unfold set_balance. rewrite E.
    cbn [Account.userId]. rewrite E.
    apply String.eqb_eq in E. now rewrite E.
  - unfold set_balance at 1. rewrite E, E. now apply IH.
Qed.

Lemma adjustment_applied s userId studentId amount description (add : bool)
  acct b a :
  is_teacher s userId -> is_student s studentId ->
  account_of s studentId = Some acct ->
  denotes (Account.balance acct) b -> denotes amount a ->
  in_column b -> in_column a ->
  0 <= (if add then b + a else b - a) ->
  post_adjust_balance userId
    {| ab_studentId := Str studentId; ab_amount := Str amount;
       ab_description := Str description;
       ab_type := Str (if add then "add" else "subtract") |} s
  = (let transaction :=
       Transaction.mk (transactions_seq s) (Account.id acct)
         (if add then "bonus" else "withdrawal")
         (if add then amount else "-" ++ amount) description (Some userId) in
     (json (AdjustJson "Balance adjusted successfully" transaction),
      {| users := users s;
         accounts := map (set_balance studentId
                            (fixed_text (if add then b + a else b - a)))
                         (accounts s);
         transactions := transactions s ++ [transaction];
         withdrawalRequests := withdrawalRequests s;
         transactions_seq := transactions_seq s + 1;
         withdrawalRequests_seq := withdrawalRequests_seq s |})).
Proof.
  intros Ht (st & Hst & Hrole) Hacct Hb Ha Cb Ca Hn.
  assert (Hid : User.id st = studentId) by now apply find_user_In in Hst.
  destruct add.
  - rewrite (post_adjust_balance_checked userId studentId amount description
               "add" st acct s Ht eq_refl Hst Hrole Hacct).
    cbv zeta.
    rewrite (batch_store_one _ {| user := st; account := Some acct |} acct s
               eq_refl).
    unfold step_store.
    rewrite (adjust_effect_add userId amount description acct b a Hb Ha Cb Ca).
    replace (b + a <? 0) with false by (symmetry; apply Z.ltb_ge; lia).
    cbn [user write insert]. now rewrite Hid.
  - rewrite (post_adjust_balance_checked userId studentId amount description
               "subtract" st acct s Ht eq_refl Hst Hrole Hacct).
    cbv zeta.
    rewrite (batch_store_one _ {| user := st; account := Some acct |} acct s
               eq_refl).
    unfold step_store.
    rewrite (adjust_effect_subtract userId amount description "subtract" acct
               b a eq_refl Hb Ha Cb Ca).
    replace (b - a <? 0) with false by (symmetry; apply Z.ltb_ge; lia).
    cbn [user write insert]. now rewrite Hid.
Qed.

(** A teacher's adjustment is carried out: adding [a] cents to [b], within
    the column and not below zero, writes the text of [b + a] and files
    one transaction of kind bonus with the amount as sent; subtracting [a]
    cents, [a] positive and no more than [b], writes the text of [b - a]
    and files one transaction of kind withdrawal with a minus sign before
    the amount.  The answer is 200 with that transaction, numbered by the
    sequence.  The amount is the two-decimal text of the cents and the
    description a text the database stores. *)
Theorem adjustment_applies (s : Store)
  (userId studentId amount description : string) (add : bool)
  (acct : Account.t) (b a : Z) :
  is_teacher s userId -> is_student s studentId ->
  account_of s studentId = Some acct ->
  column_text (Account.balance acct) b -> column_text amount a ->
  plain description = true ->
  (if add then 0 <= b + a /\ in_column (b + a) else 0 < a <= b) ->
  let transaction :=
    Transaction.mk (transactions_seq s) (Account.id acct)
      (if add then "bonus" else "withdrawal")
      (if add then amount else "-" ++ amount) description (Some userId) in
  exists s',
    post_adjust_balance userId
      {| ab_studentId := Str studentId; ab_amount := Str amount;
         ab_description := Str description;
         ab_type := Str (if add then "add" else "subtract") |} s
    = (json (AdjustJson "Balance adjusted successfully" transaction), s')
    /\ accounts s'
       = map (set_balance studentId
                (fixed_text (if add then b + a else b - a))) (accounts s)
    /\ account_of s' studentId
       = Some (Account.mk (Account.id acct) studentId
                 (fixed_text (if add then b + a else b - a)))
    /\ transactions s' = (transactions s ++ [transaction])%list.
Proof.
  intros Ht Hs Hacct Hbal Hamount _ Hfit transaction.
  destruct (column_text_denotes _ _ Hbal) as [Hb Cb].
  destruct (column_text_denotes _ _ Hamount) as [Ha Ca].
  assert (Hn : 0 <= (if add then b + a else b - a))
    by (destruct add; lia).
  rewrite (adjustment_applied s userId studentId amount description add acct
             b a) by assumption.
  cbv zeta. eexists. split; [reflexivity|]. cbn [accounts transactions].
  split; [reflexivity|]. split; [|reflexivity].
  unfold account_of in *. cbn [accounts]. now apply find_set_balance.
Qed.

Lemma adjustment_applies_witness :
  exists s',
    post_adjust_balance "t1"
      {| ab_studentId := Str "s1"; ab_amount := Str "12.50";
         ab_description := Str "class helper"; ab_type := Str "add" |}
      (classroom "30.00" "0.00" [])
    = (json (AdjustJson "Balance adjusted successfully"
               (Transaction.mk 1 1 "bonus" "12.50" "class helper"
                  (Some "t1"))), s')
    /\ account_of s' "s1" = Some (Account.mk 1 "s1" "42.50").
Proof.
  destruct (adjustment_applies (classroom "30.00" "0.00" []) "t1" "s1"
              "12.50" "class helper" true (Account.mk 1 "s1" "30.00")
              3000 1250) as (s' & H1 & _ & H3 & _).
  - apply classroom_teacher.
  - apply classroom_alice.
  - reflexivity.
  - amount_of_form.
  - amount_of_form.
  - reflexivity.
  - split; [lia|now apply column_cents].
  - exists s'. split; [exact H1|exact H3].
Defined.



(** ** What a mutation leaves alone *)

Lemma batch_untouched eff students s y :
  keys_unique s -> sound_rows s (processed students) -> tags_account eff ->
  In y (accounts s) -> touched (processed students) y = false ->
  In y (accounts (batch_store eff students s))
  /\ transactions_of (Account.id y) (transactions (batch_store eff students s))
     = transactions_of (Account.id y) (transactions s).
Proof.
  intros Hk Hs Htag Hy Ht. split.
  - rewrite (batch_accounts eff students s Hk Hs).
    apply in_map_iff. exists y. now rewrite Ht.
  - destruct (batch_transactions eff students s y Htag Hk Hy Hs) as (z & ->).
    rewrite Ht. apply app_nil_r.
Qed.

Lemma not_student_untouched s y :
  owner_is_student s y = false ->
  touched (processed (select_students s)) y = false.
Proof.
  intros Hy. destruct (touched _ y) eqn:T; [exfalso|reflexivity].
  apply existsb_exists in T. destruct T as ([uid a] & Hrow & E).
  cbn [fst] in E. apply String.eqb_eq in E.
  apply processed_In in Hrow. destruct Hrow as (st & Hst & _ & Huid).
  apply select_students_In in Hst. destruct Hst as (Hu & Hrole & _).
  assert (owner_is_student s y = true); [|congruence].
  apply owner_is_student_spec. exists (user st).
  unfold row_uid in Huid. split; [exact Hu|]. split; [congruence|exact Hrole].
Qed.

(** Paychecks and rent reach the accounts of students only: an account
    whose owner is not on file as a student keeps its balance and gets no
    transaction, whoever calls and whatever the amount is; and neither
    route touches the users or the withdrawal requests. *)
Theorem batches_touch_students_only (s : Store) (userId amount : string)
  (y : Account.t) :
  keys_unique s -> In y (accounts s) -> owner_is_student s y = false ->
  let paid := snd (post_distribute_paycheck userId (Str amount) s) in
  let collected := snd (post_collect_rent userId (Str amount) s) in
  (In y (accounts paid)
   /\ transactions_of (Account.id y) (transactions paid)
      = transactions_of (Account.id y) (transactions s)
   /\ users paid = users s
   /\ withdrawalRequests paid = withdrawalRequests s)
  /\ (In y (accounts collected)
      /\ transactions_of (Account.id y) (transactions collected)
         = transactions_of (Account.id y) (transactions s)
      /\ users collected = users s
      /\ withdrawalRequests collected = withdrawalRequests s).
Proof.
  intros Hk Hy Hown.
  pose proof (select_students_sound s Hk) as Hs.
  pose proof (not_student_untouched s y Hown) as Ht.
  cbv zeta. rewrite paycheck_store, rent_store.
  destruct (lacks_role _ _); [now repeat split|].
  split.
  - destruct (batch_untouched (paycheck_effect userId amount) _ s y Hk Hs
                (tags_paycheck userId amount) Hy Ht) as [H1 H2].
    now repeat split.
  - destruct (batch_untouched (rent_effect userId amount) _ s y Hk Hs
                (tags_rent userId amount) Hy Ht) as [H1 H2].
    now repeat split.
Qed.

(** The teacher of the classroom with an account of their own. *)
Lemma batches_touch_students_only_witness :
  let s := {| users := [teacher; alice];
              accounts := [Account.mk 1 "s1" "30.00";
                           Account.mk 2 "t1" "99.00"];
              transactions := [];
              withdrawalRequests := [];
              transactions_seq := 1;
              withdrawalRequests_seq := 1 |} in
  In (Account.mk 2 "t1" "99.00")
     (accounts (snd (post_distribute_paycheck "t1" (Str "10.00") s)))
  /\ In (Account.mk 2 "t1" "99.00")
        (accounts (snd (post_collect_rent "t1" (Str "10.00") s))).
Proof.
  intros s.
  destruct (batches_touch_students_only s "t1" "10.00"
              (Account.mk 2 "t1" "99.00")) as [(H1 & _) (H2 & _)].
  - unfold keys_unique. cbn.
    repeat split; repeat constructor; cbn; intuition discriminate.
  - right. now left.
  - reflexivity.
  - split; [exact H1|exact H2].
Defined.

(** An adjustment reaches the account of the student it names and no
    other: every other account keeps its balance and gets no transaction,
    and the users and the withdrawal requests stay as they are. *)
Theorem adjustment_leaves_others (s : Store)
  (userId studentId amount description type : string) (y : Account.t) :
  keys_unique s -> In y (accounts s) -> Account.userId y <> studentId ->
  let s' := snd (post_adjust_balance userId
                   {| ab_studentId := Str studentId; ab_amount := Str amount;
                      ab_description := Str description;
                      ab_type := Str type |} s) in
  In y (accounts s')
  /\ transactions_of (Account.id y) (transactions s')
     = transactions_of (Account.id y) (transactions s)
  /\ users s' = users s
  /\ withdrawalRequests s' = withdrawalRequests s.
Proof.
  intros Hk Hy Hne. cbv zeta. rewrite adjust_store.
  destruct (find _ (users s)) as [st|] eqn:Hst; [|now repeat split].
  destruct (find _ (accounts s)) as [acct|] eqn:Hacct; [|now repeat split].
  destruct (_ && _)%bool; [|now repeat split].
  apply find_user_In in Hst. destruct Hst as [_ Hid].
  apply find_account_In in Hacct. destruct Hacct as [Hin Hown].
  set (row := {| user := st; account := Some acct |}).
  assert (Hs : sound_rows s (processed [row])).
  { cbn. split; [repeat constructor; intros []|].
    intros uid a [[= <- <-]|[]]. split; [exact Hin|congruence]. }
  assert (Ht : touched (processed [row]) y = false).
  { cbn. rewrite Hid, orb_false_r. apply String.eqb_neq. congruence. }
  destruct (batch_untouched (adjust_effect userId amount description type)
              [row] s y Hk Hs (tags_adjust _ _ _ _) Hy Ht) as [H1 H2].
  now repeat split.
Qed.

Lemma adjustment_leaves_others_witness :
  In (Account.mk 2 "s2" "5.00")
     (accounts (snd (post_adjust_balance "t1"
                       {| ab_studentId := Str "s1"; ab_amount := Str "10.00";
                          ab_description := Str "chores";
                          ab_type := Str "add" |}
                       (classroom "30.00" "5.00" [])))).
Proof.
  refine (proj1 (adjustment_leaves_others (classroom "30.00" "5.00" []) "t1"
                   "s1" "10.00" "chores" "add" (Account.mk 2 "s2" "5.00")
                   (classroom_keys _ _ _) _ _)).
  - right. now left.
  - discriminate.
Defined.

(** ** A student without an account *)







(** ** One batch after another *)

Lemma students_have_accounts_batch eff students s :
  students_have_accounts s ->
  students_have_accounts (batch_store eff students s).
Proof.
  intros H u Hu Hr. destruct (H u Hu Hr) as (a & Ha & E).
  exists (settle eff (processed students) a). split.
  - cbn [batch_store accounts]. now apply in_map.
  - now rewrite settle_userId.
Qed.

Lemma batch_student_account eff s x :
  keys_unique s -> students_have_accounts s -> In x (student_accounts s) ->
  let s' := batch_store eff (select_students s) s in
  let x' := written (write (eff x)) x in
  keys_unique s' /\ students_have_accounts s'
  /\ In x' (student_accounts s')
  /\ account_by_id s' (Account.id x) = Some x'.
Proof.
  intros Hk Hall Hx s' x'.
  pose proof (select_students_sound s Hk) as Hs.
  pose proof (student_account_In s x Hx) as Hin.
  pose proof (student_touched s x Hk Hall Hx) as Ht.
  assert (Hby : account_by_id s' (Account.id x) = Some x').
  { unfold s'. rewrite (batch_account_by_id eff _ s x Hk Hs Hin).
    now rewrite Ht. }
  split; [now apply keys_unique_batch|].
  split; [now apply students_have_accounts_batch|].
  split; [|exact Hby].
  apply filter_In. split.
  - unfold account_by_id in Hby. now apply find_some in Hby.
  - unfold student_accounts in Hx. apply filter_In in Hx.
    destruct Hx as [_ Hx]. unfold owner_is_student in *.
    unfold x'. now rewrite written_userId.
Qed.

(** A paycheck is not idempotent, and a rent undoes a paycheck of the same
    amount: after two paychecks of [a] and [a'] cents a student who held
    [b] cents holds [b + a + a'], and after a paycheck of [a] cents
    followed by a rent of [a] cents a student who held [b] cents, [b] not
    negative, holds [b] again.  The amounts are two-decimal texts of
    cents, those of the paychecks not negative, and no student leaves the
    column with both paychecks. *)
Theorem batches_in_a_row (s : Store) (userId amount amount' : string)
  (a a' b : Z) (x : Account.t) :
  keys_unique s -> students_have_accounts s -> is_teacher s userId ->
  column_text amount a -> column_text amount' a' -> 0 < a -> 0 <= a' ->
  (forall y, In y (student_accounts s) ->
     exists c, column_text (Account.balance y) c
               /\ in_column (c + a + a')) ->
  In x (student_accounts s) ->
  Account.balance x = fixed_text b -> 0 <= b ->
  let paid := snd (post_distribute_paycheck userId (Str amount) s) in
  account_by_id
    (snd (post_distribute_paycheck userId (Str amount') paid)) (Account.id x)
  = Some (Account.mk (Account.id x) (Account.userId x)
            (fixed_text (b + a + a')))
  /\ account_by_id
       (snd (post_collect_rent userId (Str amount) paid)) (Account.id x)
     = Some (Account.mk (Account.id x) (Account.userId x) (fixed_text b)).
Proof.
  intros Hk Hall Ht Hamount Hamount' Hpos Hpos' Hfit Hx Eb Hb0 paid.
  destruct (column_text_denotes _ _ Hamount) as [Ha Ca].
  destruct (column_text_denotes _ _ Hamount') as [Ha' Ca'].
  assert (Hb : denotes (Account.balance x) b)
    by (rewrite Eb; apply literal_value_fixed_text).
  assert (Cba : in_column (b + a + a')).
  { destruct (Hfit x Hx) as (c & [_ Ec] & Cc).
    replace b with c; [exact Cc|]. apply fixed_text_inj. congruence. }
  assert (Cb : in_column b) by widen.
  assert (Cb1 : in_column (b + a)) by widen.
  assert (Hpaid : paid = batch_store (paycheck_effect userId amount)
                           (select_students s) s).
  { unfold paid. now rewrite paycheck_store, (teacher_lacks_nothing s userId Ht). }
  destruct (batch_student_account (paycheck_effect userId amount) s x
              Hk Hall Hx) as (Hk1 & Hall1 & Hx1 & _).
  rewrite <- Hpaid in Hk1, Hall1, Hx1.
  rewrite (paycheck_effect_money userId amount x b a Hb Ha Cb Ca) in Hx1.
  cbn [write written] in Hx1.
  set (x1 := Account.mk (Account.id x) (Account.userId x)
               (fixed_text (b + a))) in *.
  assert (Ht1 : is_teacher paid userId) by (now rewrite Hpaid).
  assert (Hb1 : denotes (Account.balance x1) (b + a))
    by apply literal_value_fixed_text.
  split.
  - rewrite paycheck_store, (teacher_lacks_nothing paid userId Ht1).
    destruct (batch_student_account (paycheck_effect userId amount') paid x1
                Hk1 Hall1 Hx1) as (_ & _ & _ & H).
    cbn [x1 Account.id] in H. rewrite H.
    rewrite (paycheck_effect_money userId amount' x1 (b + a) a' Hb1 Ha' Cb1
               Ca').
    reflexivity.
  - rewrite rent_store, (teacher_lacks_nothing paid userId Ht1).
    destruct (batch_student_account (rent_effect userId amount) paid x1
                Hk1 Hall1 Hx1) as (_ & _ & _ & H).
    cbn [x1 Account.id] in H. rewrite H.
    rewrite (rent_effect_money userId amount x1 (b + a) a Hb1 Ha Cb1 Ca).
    replace (0 <? b + a) with true by (symmetry; apply Z.ltb_lt; lia).
    cbn [write written x1 Account.id Account.userId].
    now replace (Z.max 0 (b + a - a)) with b by lia.
Qed.

Lemma batches_in_a_row_witness :
  account_by_id
    (snd (post_distribute_paycheck "t1" (Str "2.50")
            (snd (post_distribute_paycheck "t1" (Str "10.00")
                    (classroom "30.00" "0.00" []))))) 1
  = Some (Account.mk 1 "s1" "42.50")
  /\ account_by_id
       (snd (post_collect_rent "t1" (Str "10.00")
               (snd (post_distribute_paycheck "t1" (Str "10.00")
                       (classroom "30.00" "0.00" []))))) 1
     = Some (Account.mk 1 "s1" "30.00").
Proof.
  apply (batches_in_a_row (classroom "30.00" "0.00" []) "t1" "10.00" "2.50"
           1000 250 3000 (Account.mk 1 "s1" "30.00")).
  - apply classroom_keys.
  - apply classroom_students.
  - apply classroom_teacher.
  - amount_of_form.
  - amount_of_form.
  - lia.
  - lia.
  - intros y [<-|[<-|[]]]; [exists 3000|exists 0];
      (split; [amount_of_form|now apply column_cents]).
  - apply alice_student.
  - reflexivity.
  - lia.
Defined.

(** ** [upsertUser] *)

Lemma set_user_id userData r :
  User.id (set_user userData r) = User.id r.
Proof. unfold set_user. now destruct (_ =? _)%string. Qed.

Lemma set_user_other userData r :
  User.id r <> uu_id userData -> set_user userData r = r.
Proof.
  intros H. unfold set_user. apply String.eqb_neq in H. now rewrite H.
Qed.


Lemma find_user_map userData k l :
  find (fun u => User.id u =? k)%string (map (set_user userData) l)
  = option_map (set_user userData)
      (find (fun u => User.id u =? k)%string l).
Proof.
  induction l as [|r l IH]; [reflexivity|].
  cbn [map find]. rewrite set_user_id.
  destruct (User.id r =? k)%string; [reflexivity|exact IH].
Qed.

Lemma find_snoc {A} (p : A -> bool) l x :
  find p l = None -> find p (l ++ [x]) = if p x then Some x else None.
Proof.
  induction l as [|y l IH]; [reflexivity|]. cbn [app find].
  destruct (p y); [discriminate|exact IH].
Qed.

Lemma find_app_some {A} (p : A -> bool) l l' x :
  find p l = Some x -> find p (l ++ l') = Some x.
Proof.
  induction l as [|y l IH]; [discriminate|]. cbn [app find].
  destruct (p y); [trivial|exact IH].
Qed.

Lemma find_none_fresh (l : list User.t) k :
  find (fun u => User.id u =? k)%string l = None ->
  forall r, In r l -> User.id r <> k.
Proof.
  intros F r Hr. apply String.eqb_neq. apply (find_none _ _ F r Hr).
Qed.

(** The row [upsertUser] gets back is the one on file under the identifier
    afterwards. *)
Lemma upsert_users_user userData l :
  User.id (fst (upsert_users userData l)) = uu_id userData
  /\ find (fun u => User.id u =? uu_id userData)%string
          (snd (upsert_users userData l))
     = Some (fst (upsert_users userData l)).
Proof.
  unfold upsert_users. destruct (find _ l) as [u0|] eqn:F; cbn [fst snd].
  - split.
    + rewrite set_user_id. now apply find_user_In in F.
    + now rewrite find_user_map, F.
  - split; [reflexivity|].
    rewrite (find_snoc _ _ _ F). cbn [User.id].
    now rewrite String.eqb_refl.
Qed.

Lemma upsert_users_others userData l r :
  User.id r <> uu_id userData ->
  In r (snd (upsert_users userData l)) <-> In r l.
Proof.
  intros Hr. unfold upsert_users.
  destruct (find _ l) as [u0|] eqn:F; cbn [snd].
  - split.
    + intros H. apply in_map_iff in H. destruct H as (r0 & E & H0).
      assert (User.id r0 <> uu_id userData)
        by (rewrite <- (set_user_id userData), E; exact Hr).
      rewrite set_user_other in E by assumption. now subst.
    + intros H. apply in_map_iff. exists r.
      split; [now apply set_user_other|exact H].
  - split.
    + intros H. apply in_app_or in H. destruct H as [H|[<-|[]]];
        [exact H|]. now contradiction Hr.
    + intros H. apply in_or_app. now left.
Qed.

Lemma upsert_users_keys userData l :
  NoDup (map User.id l) ->
  NoDup (map User.id (snd (upsert_users userData l))).
Proof.
  intros Hnd. unfold upsert_users.
  destruct (find _ l) as [u0|] eqn:F; cbn [snd].
  - rewrite map_map. rewrite (map_ext _ User.id); [exact Hnd|].
    intros r. apply set_user_id.
  - rewrite map_app. apply NoDup_app; [exact Hnd|repeat constructor; intros []|].
    intros k Hk [<-|[]]. apply in_map_iff in Hk.
    destruct Hk as (r & E & Hr). now apply (find_none_fresh l _ F r Hr).
Qed.


(** [upsertUser], with the row and the rows of the users table named. *)
Lemma upsertUser_eq userData d :
  upsertUser userData d
  = let s := tables d in
    let user := fst (upsert_users userData (users s)) in
    let s1 := {| users := snd (upsert_users userData (users s));
                 accounts := accounts s;
                 transactions := transactions s;
                 withdrawalRequests := withdrawalRequests s;
                 transactions_seq := transactions_seq s;
                 withdrawalRequests_seq := withdrawalRequests_seq s |} in
    (Return user,
     if (User.role user =? "student")%string
     then match account_of s (User.id user) with
          | Some _ => with_tables s1 d
          | None => snd (createAccount {| ia_userId := User.id user;
                                          ia_balance := None |}
                           (with_tables s1 d))
          end
     else with_tables s1 d).
Proof.
  unfold upsertUser, bindD. cbv zeta.
  destruct (upsert_users userData (users (tables d))) as [user rows].
  cbn [fst snd].
  destruct (User.role user =? "student")%string; [|reflexivity].
  unfold on_tables, getAccount, account_of.
  cbn [with_tables tables accounts].
  now destruct (find _ (accounts (tables d))).
Qed.

(** Whatever the user it is given, [upsertUser] keeps what the handlers
    rely on: keys stay unique, the sequence of the accounts stays ahead,
    and every student has an account afterwards if every student had one
    before.  No account is lost or changed, and transactions, withdrawal
    requests and custom actions are not touched. *)
Theorem upsertUser_keeps_invariants (d : Database) (userData : UpsertUser) :
  keys_unique (tables d) -> accounts_seq_fresh d ->
  let d' := snd (upsertUser userData d) in
  keys_unique (tables d') /\ accounts_seq_fresh d'
  /\ (students_have_accounts (tables d) -> students_have_accounts (tables d'))
  /\ (forall a, In a (accounts (tables d)) -> In a (accounts (tables d')))
  /\ transactions (tables d') = transactions (tables d)
  /\ withdrawalRequests (tables d') = withdrawalRequests (tables d)
  /\ customQuickActions d' = customQuickActions d.
Proof.
  intros (Hu & Hi & Ha) Hfresh. cbv zeta. rewrite upsertUser_eq. cbv zeta.
  cbn [snd].
  set (s := tables d) in *.
  destruct (upsert_users_user userData (users s)) as [Hid Hfind].
  pose proof (upsert_users_keys userData (users s) Hu) as Hu'.
  pose proof (upsert_users_others userData (users s)) as Hoth.
  set (user := fst (upsert_users userData (users s))) in *.
  set (rows := snd (upsert_users userData (users s))) in *.
  assert (Hsame : forall r, In r rows -> User.id r = uu_id userData ->
                            r = user).
  { intros r Hr E. apply (NoDup_map_eq User.id rows); try assumption.
    - now apply find_user_In in Hfind.
    - congruence. }
  assert (Hkeep : forall acc', (forall a, In a (accounts s) -> In a acc') ->
            (User.role user = "student" ->
             exists a, In a acc' /\ Account.userId a = User.id user) ->
            students_have_accounts s ->
            forall u, In u rows -> User.role u = "student" ->
            exists a, In a acc' /\ Account.userId a = User.id u).
  { intros acc' Hsub Hnew Hall u Hin Hr.
    destruct (string_dec (User.id u) (uu_id userData)) as [E|E].
    - rewrite (Hsame u Hin E) in *. now apply Hnew.
    - apply Hoth in Hin; [|exact E].
      destruct (Hall u Hin Hr) as (a & Hain & Ea).
      exists a. split; [now apply Hsub|exact Ea]. }
  destruct (User.role user =? "student")%string eqn:R.
  - apply String.eqb_eq in R.
    destruct (account_of s (User.id user)) as [acct|] eqn:A.
    + cbn [with_tables tables users accounts transactions withdrawalRequests
           customQuickActions].
      split; [now repeat split|]. split; [exact Hfresh|].
      split; [|now repeat split].
      intros Hall u Hin Hr. apply (Hkeep (accounts s)); try assumption.
      * trivial.
      * intros _. exists acct. now apply find_account_In in A.
    + cbn [createAccount snd with_tables tables users accounts transactions
           withdrawalRequests customQuickActions accounts_seq ia_userId
           ia_balance].
      set (new := Account.mk (accounts_seq d) (User.id user) "0.00").
      assert (Hnone : forall a, In a (accounts s) ->
                        Account.userId a <> User.id user).
      { intros a Hin. apply String.eqb_neq.
        apply (find_none _ _ A a Hin). }
      split; [|split; [|split; [|split]]].
      * unfold keys_unique. cbn [users accounts].
        split; [exact Hu'|]. split.
        -- rewrite map_app. apply NoDup_app;
             [exact Hi|repeat constructor; intros []|].
           intros k Hk [<-|[]]. apply in_map_iff in Hk.
           destruct Hk as (a & E & Hin). cbn [new Account.id] in E.
           pose proof (Hfresh a Hin). fold s in H. lia.
        -- rewrite map_app. apply NoDup_app;
             [exact Ha|repeat constructor; intros []|].
           intros k Hk [<-|[]]. apply in_map_iff in Hk.
           destruct Hk as (a & E & Hin). now apply (Hnone a Hin).
      * intros a Hin. cbn [tables accounts accounts_seq] in *.
        fold s in Hfresh. apply in_app_or in Hin. destruct Hin as [Hin|[<-|[]]].
        -- pose proof (Hfresh a Hin). lia.
        -- cbn [new Account.id]. lia.
      * intros Hall u Hin Hr.
        apply (Hkeep (accounts s ++ [new])%list); try assumption.
        -- intros a Hain. apply in_or_app. now left.
        -- intros _. exists new. split; [|reflexivity].
           apply in_or_app. right. now left.
      * intros a Hin. apply in_or_app. now left.
      * now repeat split.
  - cbn [with_tables tables users accounts transactions withdrawalRequests
         customQuickActions].
    split; [now repeat split|]. split; [exact Hfresh|].
    split; [|now repeat split].
    intros Hall u Hin Hr. apply (Hkeep (accounts s)); try assumption.
    + trivial.
    + intros R'. rewrite R' in R. discriminate.
Qed.

Lemma upsertUser_keeps_invariants_witness :
  let d' := snd (upsertUser {| uu_id := "s3"; uu_role := None |} school) in
  keys_unique (tables d') /\ accounts_seq_fresh d'
  /\ accounts (tables d')
     = [Account.mk 1 "s1" "30.00"; Account.mk 2 "s2" "0.00";
        Account.mk 3 "s3" "0.00"].
Proof.
  intros d'.
  destruct (upsertUser_keeps_invariants school
              {| uu_id := "s3"; uu_role := None |}) as (H1 & H2 & _).
  - apply classroom_keys.
  - intros a [<-|[<-|[]]]; cbn; lia.
  - split; [exact H1|]. split; [exact H2|reflexivity].
Defined.


(** A new student, and a student on file whose balance stays. *)
Example upsertUser_scenario :
  accounts (tables (snd (upsertUser {| uu_id := "s3"; uu_role := None |}
                           school)))
  = [Account.mk 1 "s1" "30.00"; Account.mk 2 "s2" "0.00";
     Account.mk 3 "s3" "0.00"]
  /\ accounts (tables (snd (upsertUser
                              {| uu_id := "s1"; uu_role := Some "student" |}
                              school)))
     = [Account.mk 1 "s1" "30.00"; Account.mk 2 "s2" "0.00"].
Proof. split; reflexivity. Qed.

(** ** Custom quick actions *)

Lemma with_own_tables d : with_tables (tables d) d = d.
Proof. now destruct d. Qed.

Lemma teacher_passesD d userId :
  is_teacher (tables d) userId ->
  exists u, on_tables (getUser userId) d = (Return (Some u), d)
            /\ lacks_role (Some u) "teacher" = false.
Proof.
  intros Ht. destruct (teacher_passes _ _ Ht) as (u & Hu & Hl).
  exists u. split; [|exact Hl].
  unfold on_tables. rewrite Hu. now rewrite with_own_tables.
Qed.

Lemma get_custom_actions_teacher d userId :
  is_teacher (tables d) userId ->
  get_custom_actions userId d
  = (Body (filter (fun a => CustomQuickAction.teacherId a =? userId)%string
                  (customQuickActions d)), d).
Proof.
  intros Ht. destruct (teacher_passesD d userId Ht) as (u & Hu & Hl).
  unfold get_custom_actions, try_replyD.
  unfold bindD at 1. rewrite Hu, Hl. reflexivity.
Qed.

(** A custom action a teacher creates is theirs, whatever [teacherId] the
    body carries: it is filed under the caller with the next identifier of
    the sequence, the caller finds it in their list, and no other teacher
    does; a list holds the actions of its caller only.  The four tables
    are not touched.  The amount is the two-decimal text of a number of
    cents within the column, and the name and the type are texts the
    database stores, so that the action on file is the action sent. *)
Theorem custom_action_belongs_to_caller (d : Database)
  (userId name amount type : string) (a : Z) (claimed : Json) :
  is_teacher (tables d) userId ->
  column_text amount a -> plain name = true -> plain type = true ->
  let action := CustomQuickAction.mk (customQuickActions_seq d) userId name
                  amount type in
  exists d',
    post_custom_actions userId
      {| cb_teacherId := claimed; cb_name := Str name;
         cb_amount := Str amount; cb_type := Str type |} d
    = (Body action, d')
    /\ tables d' = tables d
    /\ customQuickActions d' = (customQuickActions d ++ [action])%list
    /\ forall t, is_teacher (tables d) t ->
       exists l, get_custom_actions t d' = (Body l, d')
                 /\ (In action l <-> t = userId)
                 /\ forall x, In x l -> CustomQuickAction.teacherId x = t.
Proof.
  intros Ht _ _ _ action.
  destruct (teacher_passesD d userId Ht) as (u & Hu & Hl).
  unfold post_custom_actions, try_replyD.
  unfold bindD at 1. rewrite Hu, Hl.
  unfold bindD at 1. unfold on_tables, insertCustomQuickActionSchema_parse.
  cbn [cb_name cb_amount cb_type z_string].
  unfold bind, ret. rewrite with_own_tables.
  unfold bindD at 1. cbn [createCustomQuickAction ic_teacherId ic_name
                          ic_amount ic_type retD].
  fold action. eexists. split; [reflexivity|].
  cbn [tables customQuickActions]. split; [reflexivity|].
  split; [reflexivity|].
  intros t Htt. eexists. split.
  - apply get_custom_actions_teacher. exact Htt.
  - cbn [customQuickActions]. split.
    + rewrite filter_In. cbn [action CustomQuickAction.teacherId].
      rewrite String.eqb_eq. split; [intros [_ E]; now symmetry|].
      intros ->. split; [|reflexivity]. apply in_or_app. right. now left.
    + intros x Hx. apply filter_In in Hx. destruct Hx as [_ E].
      now apply String.eqb_eq in E.
Qed.

Lemma custom_action_belongs_to_caller_witness :
  exists d',
    post_custom_actions "t1"
      {| cb_teacherId := Str "t2"; cb_name := Str "Homework";
         cb_amount := Str "5.00"; cb_type := Str "reward" |} school
    = (Body (CustomQuickAction.mk 1 "t1" "Homework" "5.00" "reward"), d')
    /\ tables d' = tables school.
Proof.
  destruct (custom_action_belongs_to_caller school "t1" "Homework" "5.00"
              "reward" 500 (Str "t2")) as (d' & H1 & H2 & _).
  - apply classroom_teacher.
  - amount_of_form.
  - reflexivity.
  - reflexivity.
  - exists d'. split; [exact H1|exact H2].
Defined.



(** ** The history of a student *)

(** An adjustment shows in the history of the student: after it, the list
    of transactions the student gets holds the new transaction, and holds
    transactions of the student's account only.  The adjustment is one
    that is carried out: the amount is the two-decimal text of the cents,
    the description a text the database stores, and the new balance is
    not negative and within the column. *)
Theorem adjustment_shows_in_history (s : Store)
  (userId studentId amount description : string) (add : bool)
  (acct : Account.t) (b a : Z) :
  is_teacher s userId -> is_student s studentId ->
  account_of s studentId = Some acct ->
  column_text (Account.balance acct) b -> column_text amount a ->
  plain description = true ->
  (if add then 0 <= b + a /\ in_column (b + a) else 0 < a <= b) ->
  let s' := snd (post_adjust_balance userId
                   {| ab_studentId := Str studentId; ab_amount := Str amount;
                      ab_description := Str description;
                      ab_type := Str (if add then "add" else "subtract") |}
                   s) in
  let transaction :=
    Transaction.mk (transactions_seq s) (Account.id acct)
      (if add then "bonus" else "withdrawal")
      (if add then amount else "-" ++ amount) description (Some userId) in
  exists l,
    get_transactions studentId s' = (Body l, s')
    /\ In transaction l
    /\ forall t, In t l -> Transaction.accountId t = Account.id acct.
Proof.
  intros Ht Hs Hacct Hbal Hamount _ Hfit s' transaction. unfold s'.
  destruct (column_text_denotes _ _ Hbal) as [Hb Cb].
  destruct (column_text_denotes _ _ Hamount) as [Ha Ca].
  assert (Hn : 0 <= (if add then b + a else b - a))
    by (destruct add; lia).
  rewrite (adjustment_applied s userId studentId amount description add acct
             b a) by assumption.
  cbv zeta. cbn [snd]. fold transaction.
  unfold get_transactions, try_reply.
  unfold bind at 1. unfold getAccount. cbn [accounts].
  unfold account_of in Hacct.
  rewrite (find_set_balance studentId _ acct _ Hacct).
  unfold bind at 1. cbn [getTransactionsByAccount transactions Account.id ret].
  eexists. split; [reflexivity|]. split.
  - apply filter_In. split; [apply in_or_app; right; now left|].
    cbn [transaction Transaction.accountId]. apply Z.eqb_refl.
  - intros t Hin. apply filter_In in Hin. destruct Hin as [_ E].
    now apply Z.eqb_eq in E.
Qed.

Lemma adjustment_shows_in_history_witness :
  exists l,
    get_transactions "s1"
      (snd (post_adjust_balance "t1"
              {| ab_studentId := Str "s1"; ab_amount := Str "5.00";
                 ab_description := Str "talking back";
                 ab_type := Str "subtract" |}
              (classroom "30.00" "0.00" [])))
    = (Body l,
       snd (post_adjust_balance "t1"
              {| ab_studentId := Str "s1"; ab_amount := Str "5.00";
                 ab_description := Str "talking back";
                 ab_type := Str "subtract" |}
              (classroom "30.00" "0.00" [])))
    /\ In (Transaction.mk 1 1 "withdrawal" "-5.00" "talking back"
             (Some "t1")) l.
Proof.
  destruct (adjustment_shows_in_history (classroom "30.00" "0.00" []) "t1"
              "s1" "5.00" "talking back" false (Account.mk 1 "s1" "30.00")
              3000 500) as (l & H1 & H2 & _).
  - apply classroom_teacher.
  - apply classroom_alice.
  - reflexivity.
  - amount_of_form.
  - amount_of_form.
  - reflexivity.
  - lia.
  - exists l. split; [exact H1|exact H2].
Defined.

(** ** What every mutation keeps *)

Lemma number_from_ids z l t :
  In t (number_from z l) ->
  z <= Transaction.id t < z + Z.of_nat (length l).
Proof.
  revert z. induction l as [|i l IH]; intros z Hin; [contradiction|].
  cbn [number_from length] in *. destruct Hin as [<-|Hin].
  - cbn [Transaction.id]. lia.
  - specialize (IH _ Hin). lia.
Qed.

Lemma number_from_NoDup z l : NoDup (map Transaction.id (number_from z l)).
Proof.
  revert z. induction l as [|i l IH]; intros z; [constructor|].
  cbn [number_from map Transaction.id]. constructor; [|apply IH].
  intros Hin. apply in_map_iff in Hin. destruct Hin as (t & E & Hin).
  apply number_from_ids in Hin. lia.
Qed.

Lemma transactions_fresh_batch eff students s :
  transactions_fresh s -> transactions_fresh (batch_store eff students s).
Proof.
  intros [Hnd Hlt]. unfold transactions_fresh, batch_store.
  cbn [transactions transactions_seq]. split.
  - rewrite map_app. apply NoDup_app;
      [exact Hnd|apply number_from_NoDup|].
    intros k Hk Hk'. apply in_map_iff in Hk, Hk'.
    destruct Hk as (t & <- & Ht). destruct Hk' as (t' & E & Ht').
    apply number_from_ids in Ht'. specialize (Hlt t Ht). lia.
  - intros t Hin. apply in_app_or in Hin. destruct Hin as [Hin|Hin].
    + specialize (Hlt t Hin). lia.
    + apply number_from_ids in Hin. rewrite number_from_length. lia.
Qed.

(** Every mutation of the ledger keeps what the handlers rely on: the keys
    of users and accounts stay unique, every student still has an account
    if every student had one, the identifiers of the transactions stay
    unique and behind their sequence, and the users are those there were.
    This holds whoever calls and whatever the amounts are. *)
Theorem mutations_keep_the_store_sound (m : Mutation) (s : Store) :
  keys_unique s ->
  keys_unique (mutate m s)
  /\ (students_have_accounts s -> students_have_accounts (mutate m s))
  /\ (transactions_fresh s -> transactions_fresh (mutate m s))
  /\ users (mutate m s) = users s.
Proof.
  intros Hk.
  assert (Hbatch : forall eff students,
            keys_unique (batch_store eff students s)
            /\ (students_have_accounts s ->
                students_have_accounts (batch_store eff students s))
            /\ (transactions_fresh s ->
                transactions_fresh (batch_store eff students s))
            /\ users (batch_store eff students s) = users s).
  { intros eff students. split; [now apply keys_unique_batch|].
    split; [apply students_have_accounts_batch|].
    split; [apply transactions_fresh_batch|reflexivity]. }
  assert (Hsame : keys_unique s
                  /\ (students_have_accounts s -> students_have_accounts s)
                  /\ (transactions_fresh s -> transactions_fresh s)
                  /\ users s = users s)
    by (split; [exact Hk|]; split; [trivial|]; split; [trivial|reflexivity]).
  destruct m as [userId amount|userId amount
                |userId studentId amount description type
                |userId requestId status].
  - destruct (mutate_paycheck userId amount s) as [->| ->];
      [exact Hsame|apply Hbatch].
  - destruct (mutate_rent userId amount s) as [->| ->];
      [exact Hsame|apply Hbatch].
  - destruct (mutate_adjust userId studentId amount description type s)
      as [->|(st & acct & _ & _ & ->)]; [exact Hsame|apply Hbatch].
  - cbn [mutate]. rewrite patch_store.
    destruct (lacks_role _ _); [exact Hsame|].
    split; [exact Hk|]. split; [trivial|]. split; [trivial|reflexivity].
Qed.

Lemma mutations_keep_the_store_sound_witness :
  keys_unique (mutate (CollectRent "t1" "20.00")
                 (classroom "30.00" "5.00" []))
  /\ users (mutate (CollectRent "t1" "20.00") (classroom "30.00" "5.00" []))
     = [teacher; alice; bob].
Proof.
  destruct (mutations_keep_the_store_sound (CollectRent "t1" "20.00")
              (classroom "30.00" "5.00" []) (classroom_keys _ _ _))
    as (H1 & _ & _ & H4).
  split; [exact H1|exact H4].
Defined.

(** ** The list of students *)

(** With unique keys and an account for every student, the list a teacher
    gets holds every student on file exactly once, each with the account
    that is theirs, and nobody else. *)
Theorem students_listed_once (s : Store) (userId : string) :
  keys_unique s -> students_have_accounts s -> is_teacher s userId ->
  exists rows,
    get_students userId s = (Body rows, s)
    /\ NoDup (map (fun st => User.id (user st)) rows)
    /\ (forall u, In u (users s) -> User.role u = "student" ->
        exists st, In st rows /\ user st = u)
    /\ forall st, In st rows ->
         In (user st) (users s) /\ User.role (user st) = "student"
         /\ exists a, account st = Some a /\ In a (accounts s)
                      /\ Account.userId a = User.id (user st).
Proof.
  intros Hk Hall Ht. destruct (teacher_passes s userId Ht) as (u & Hu & Hl).
  pose proof Hk as (Hnd & _ & Ha).
  pose proof (select_students_uid s Ha) as Hids. unfold row_uid in Hids.
  exists (select_students s). split; [|split; [|split]].
  - unfold get_students, try_reply. unfold bind at 1. rewrite Hu, Hl.
    reflexivity.
  - rewrite Hids. now apply NoDup_map_filter.
  - intros v Hv Hr.
    assert (Hin : In (User.id v)
                     (map (fun st => User.id (user st)) (select_students s))).
    { rewrite Hids. apply in_map. apply filter_In.
      split; [exact Hv|]. now apply String.eqb_eq. }
    apply in_map_iff in Hin. destruct Hin as (st & E & Hst).
    exists st. split; [exact Hst|].
    apply (NoDup_map_eq User.id (users s)); try assumption.
    now apply (select_students_In s st).
  - intros st Hin. pose proof (complete_students s Hall) as Hc.
    unfold complete in Hc. rewrite forallb_forall in Hc.
    specialize (Hc st Hin).
    destruct (select_students_In s st Hin) as (Hu' & Hrole & Hacc).
    split; [exact Hu'|]. split; [exact Hrole|].
    destruct (account st) as [a|]; [|discriminate].
    exists a. split; [reflexivity|]. now apply Hacc.
Qed.

Lemma students_listed_once_witness :
  exists rows,
    get_students "t1" (classroom "30.00" "0.00" [])
    = (Body rows, classroom "30.00" "0.00" [])
    /\ NoDup (map (fun st => User.id (user st)) rows).
Proof.
  destruct (students_listed_once (classroom "30.00" "0.00" []) "t1")
    as (rows & H1 & H2 & _).
  - apply classroom_keys.
  - apply classroom_students.
  - apply classroom_teacher.
  - exists rows. split; [exact H1|exact H2].
Defined.

(** ** The ledger and a new account *)

(** [upsertUser] keeps the ledger reconciled: the account it opens starts
    at 0.00 with no transaction, provided no transaction on file names an
    account the sequence has not handed out yet, and every other account
    keeps its balance and its transactions. *)
Theorem upsertUser_keeps_the_ledger (d : Database) (userData : UpsertUser) :
  ledger_reconciled (tables d) ->
  (forall t, In t (transactions (tables d)) ->
             Transaction.accountId t < accounts_seq d) ->
  ledger_reconciled (tables (snd (upsertUser userData d))).
Proof.
  intros Hrec Hfk. rewrite upsertUser_eq. cbv zeta. cbn [snd].
  assert (Hold : forall rows acc',
            (forall a, In a acc' ->
               In a (accounts (tables d))
               \/ a = Account.mk (accounts_seq d)
                        (User.id (fst (upsert_users userData
                                         (users (tables d))))) "0.00") ->
            ledger_reconciled
              {| users := rows; accounts := acc';
                 transactions := transactions (tables d);
                 withdrawalRequests := withdrawalRequests (tables d);
                 transactions_seq := transactions_seq (tables d);
                 withdrawalRequests_seq :=
                   withdrawalRequests_seq (tables d) |}).
  { intros rows acc' Hacc a Hin. cbn [accounts] in Hin.
    destruct (Hacc a Hin) as [Ha| ->].
    - exact (Hrec a Ha).
    - exists 0. split; [reflexivity|]. cbn [transactions Account.id].
      unfold transactions_of.
      replace (filter _ (transactions (tables d))) with (@nil Transaction.t);
        [reflexivity|].
      symmetry.
      induction (transactions (tables d)) as [|t l IH]; [reflexivity|].
      cbn [filter].
      replace (Transaction.accountId t =? accounts_seq d) with false.
      + apply IH. intros t' Ht'. apply Hfk. now right.
      + symmetry. apply Z.eqb_neq.
        pose proof (Hfk t (or_introl eq_refl)). lia. }
  destruct (User.role _ =? "student")%string.
  - destruct (account_of _ _).
    + apply Hold. intros a Ha. now left.
    + cbn [createAccount snd with_tables tables users accounts transactions
           withdrawalRequests transactions_seq withdrawalRequests_seq
           ia_userId ia_balance accounts_seq].
      apply Hold. intros a Ha. apply in_app_or in Ha.
      destruct Ha as [Ha|[<-|[]]]; [now left|now right].
  - apply Hold. intros a Ha. now left.
Qed.

Lemma upsertUser_keeps_the_ledger_witness :
  ledger_reconciled
    (tables (snd (upsertUser {| uu_id := "s3"; uu_role := None |}
                    {| tables := classroom "0.00" "0.00" [];
                       accounts_seq := 3;
                       customQuickActions := [];
                       customQuickActions_seq := 1 |}))).
Proof.
  apply upsertUser_keeps_the_ledger.
  - intros a [<-|[<-|[]]]; exists 0; split; reflexivity.
  - intros t [].
Defined.

(** ** Requests that are turned down *)

(** A caller who is not on file as a student gets 403 from the route that
    files withdrawal requests; a student without an account gets 404, and
    so does any caller without an account who asks for the history; a body
    whose amount or reason is not a string, or whose account is not a
    number, fails the schema and is answered with 500.  The store stays as
    it is in each case. *)
Theorem request_errors (s : Store) (userId : string) (body : WithdrawalBody) :
  (~ is_student s userId ->
   post_withdrawal_requests userId body s
   = (status_json 403 "Only students can create withdrawal requests", s))
  /\ (account_of s userId = None ->
      get_transactions userId s = (Status 404 "Account not found", s)
      /\ (is_student s userId ->
          post_withdrawal_requests userId body s
          = (status_json 404 "Account not found", s)))
  /\ (is_student s userId -> account_of s userId <> None ->
      (forall z, wb_accountId body <> Num z)
      \/ (forall a, wb_amount body <> Str a)
      \/ (forall r, wb_reason body <> Str r) ->
      post_withdrawal_requests userId body s
      = (status_json 500 "Failed to create withdrawal request", s)).
Proof.
  split; [|split].
  - intros Hns. unfold post_withdrawal_requests, try_catch, bind, getUser.
    now rewrite (not_student_lacks s userId Hns).
  - intros Hacct. unfold account_of in Hacct. split.
    + unfold get_transactions, try_reply, bind, getAccount.
      now rewrite Hacct.
    + intros Hs. destruct (student_passes s userId Hs) as (u & Hu & Hl & _).
      unfold post_withdrawal_requests, try_catch.
      unfold bind at 1. rewrite Hu, Hl.
      unfold bind at 1. unfold getAccount. now rewrite Hacct.
  - intros Hs Hacct Hbad.
    destruct (student_passes s userId Hs) as (u & Hu & Hl & _).
    unfold post_withdrawal_requests, try_catch.
    unfold bind at 1. rewrite Hu, Hl.
    unfold bind at 1. unfold getAccount. unfold account_of in Hacct.
    destruct (find _ (accounts s)) as [acct|]; [|contradiction].
    unfold insertWithdrawalRequestSchema_parse.
    destruct body as [[| |z|] [|a| |] [|r| |]]; cbn in *;
      try reflexivity;
      destruct Hbad as [H|[H|H]];
      solve [ now contradiction (H z) | now contradiction (H a)
            | now contradiction (H r) ].
Qed.

(** An amount that is not a number passes the balance check of the route,
    since no comparison with [NaN] holds: such a text goes on to the
    insert, and is left to the column to refuse. *)
Example unparsable_amount_passes :
  JS.gt (JS.parseFloat "lots") (JS.parseFloat "30.00") = false.
Proof. reflexivity. Qed.
